(** * AwesomeImager: the acquisition-to-disk pipeline of [CameraInterfaces.py]

    A shallow embedding of the writer side of [CameraInterfaces.py]
    (Python 2): the 16-bit to 8-bit conversion of [BaseWriter], the
    construction of a writer and its metadata sidecar, the acquisition loop
    of [AcquireHamamatsu] and the writer loop of [WriterHamamatsu].

    Conventions.
    - A Python [dict] with string keys is a [gmap string pyval].
    - A numpy array is a record of its dtype, shape and flat data; the
      samples are [Z] and every store into an array wraps to the dtype.
    - Code that raises returns [Raise e]; code that mutates an array it
      shares with its caller runs in a state monad over a store of arrays.
    - The vendor driver, pyqtgraph, tifffile, the clock and the file system
      are collaborators: what they hand to the code (frames, failures, the
      local time) is an input of the model, and every call the writer makes
      on them is recorded as an event. The failures of the file system (an
      output file that cannot be opened, a full disk) are not modelled; the
      exception [json.dump] raises on a value it cannot encode is.
    - The two threads meet in the queue only: the producer is a function to
      the items it puts, the writer a function of the items it gets. *)

From Stdlib Require Import ZArith Lia String Ascii List Bool.
From Stdlib Require Import Floats.PrimFloat Floats.SpecFloat Floats.FloatOps.
From stdpp Require Import gmap strings list list_numbers fin_maps.

Local Open Scope Z_scope.

(** ** Exceptions and results *)

Inductive exn : Type :=
| KeyError (msg : string)
| ValueError
| TypeError
| IndexError
| ZeroDivisionError
| OverflowError
| UnicodeDecodeError       (* a ValueError by its class; no handler of the source names either *)
| KeyboardInterrupt.

Inductive result (A : Type) : Type :=
| Ok (a : A)
| Raise (e : exn).
Arguments Ok {A} a.
Arguments Raise {A} e.

Definition bind {A B : Type} (r : result A) (k : A -> result B) : result B :=
  match r with
  | Ok a => k a
  | Raise e => Raise e
  end.

Notation "'do' x <- r ; k" := (bind r (fun x => k))
  (at level 10, x name, r at level 100, k at level 200).

Definition is_ok {A : Type} (r : result A) : bool :=
  match r with Ok _ => true | Raise _ => false end.

(** ** Python values

    The values a metadata dictionary holds: the JSON-serialisable ones.
    A tuple and a list are both [PySeq] (json.dump writes both as an array). *)

#[warnings="-register-all"]
Inductive pyval : Type :=
| PyNone
| PyBool (b : bool)
| PyInt (z : Z)
| PyFloat (f : float)
| PyStr (s : string)
| PySeq (l : list pyval).

(** [float.__int__]: truncation toward zero; [int(nan)] is a ValueError and
    [int(inf)] an OverflowError. *)
Definition float_trunc (f : float) : result Z :=
  match Prim2SF f with
  | S754_zero _ => Ok 0
  | S754_infinity _ => Raise OverflowError
  | S754_nan => Raise ValueError
  | S754_finite s m e =>
      let a := match e with
               | Z0 => Zpos m
               | Zpos p => Zpos m * 2 ^ Zpos p
               | Zneg p => Zpos m / 2 ^ Zpos p
               end in
      Ok (if s then - a else a)
  end.

(** Python 2 [int(str)]: surrounding whitespace, an optional sign, decimal
    digits. *)
Definition is_space (c : ascii) : bool :=
  let n := nat_of_ascii c in
  ((9 <=? n) && (n <=? 13))%nat || (n =? 32)%nat.

Definition digit_of (c : ascii) : option Z :=
  let n := nat_of_ascii c in
  if ((48 <=? n) && (n <=? 57))%nat then Some (Z.of_nat n - 48) else None.

Fixpoint lstrip (s : string) : string :=
  match s with
  | String c r => if is_space c then lstrip r else s
  | EmptyString => EmptyString
  end.

(** Digits followed by white space only; [acc] is the value read so far and
    [seen] tells whether a digit was read. *)
Fixpoint parse_digits (s : string) (acc : Z) (seen : bool) : option Z :=
  match s with
  | EmptyString => if seen then Some acc else None
  | String c r =>
      match digit_of c with
      | Some d => parse_digits r (10 * acc + d) true
      | None =>
          if seen && is_space c
          then match lstrip r with EmptyString => Some acc | _ => None end
          else None
      end
  end.

Definition int_of_str (s : string) : result Z :=
  let body := lstrip s in
  let r := match body with
           | String "-" r => option_map Z.opp (parse_digits r 0 false)
           | String "+" r => parse_digits r 0 false
           | _ => parse_digits body 0 false
           end in
  match r with Some z => Ok z | None => Raise ValueError end.

(** The builtin [int(v)]. *)
Definition py_int (v : pyval) : result Z :=
  match v with
  | PyNone => Raise TypeError
  | PyBool b => Ok (if b then 1 else 0)
  | PyInt z => Ok z
  | PyFloat f => float_trunc f
  | PyStr s => int_of_str s
  | PySeq _ => Raise TypeError
  end.

(** [v[i]] for a non-negative literal index [i]. *)
Definition py_getitem (v : pyval) (i : nat) : result pyval :=
  match v with
  | PySeq l => match l !! i with Some x => Ok x | None => Raise IndexError end
  | PyStr s => match String.get i s with
               | Some c => Ok (PyStr (String c EmptyString))
               | None => Raise IndexError
               end
  | _ => Raise TypeError
  end.

(** [1/v] in Python 2 (no [from __future__ import division]): floor
    division on integers, IEEE division on floats. *)
Definition py_one_over (v : pyval) : result pyval :=
  match v with
  | PyInt z => if z =? 0 then Raise ZeroDivisionError else Ok (PyInt (1 / z))
  | PyBool b => if b then Ok (PyInt 1) else Raise ZeroDivisionError
  | PyFloat f =>
      if PrimFloat.eqb f 0%float then Raise ZeroDivisionError
      else Ok (PyFloat (PrimFloat.div 1%float f))
  | _ => Raise TypeError
  end.

(** ** [json.dump] on Python 2

    With its default arguments [json.dump(obj, fp)] writes the text of
    [obj] to [fp] piece by piece. A [str] (a string of bytes, a key or a
    value) is decoded as UTF-8 before it is written; one that does not
    decode raises a UnicodeDecodeError, after the pieces before it were
    written. The other values of [pyval] are always written ([nan] and the
    infinities too: [allow_nan] is True). The order of the pieces is that
    of the dictionary's iteration and is not described; nor is the
    interpreter's limit on the nesting of sequences. *)

Definition byte_of (c : ascii) : Z := Z.of_N (N_of_ascii c).

(** A continuation byte, [10xxxxxx]. *)
Definition continuation (c : ascii) : bool :=
  (128 <=? byte_of c) && (byte_of c <? 192).

(** The strict UTF-8 decoder of Python 2.7 accepts [s]: a lead byte of
    [C2..DF], [E0..EF] or [F0..F4] with its one, two or three continuation
    bytes; no overlong form ([E0] then below [A0], [F0] then below [90]),
    nothing above U+10FFFF ([F4] then above [8F]). The encodings of the
    surrogates ([ED A0..BF ..]) are accepted by this version. *)
Fixpoint utf8_decodes (s : string) : bool :=
  match s with
  | EmptyString => true
  | String c0 s1 =>
      let b0 := byte_of c0 in
      if b0 <? 128 then utf8_decodes s1
      else if (194 <=? b0) && (b0 <=? 223) then
        match s1 with
        | String c1 s2 => continuation c1 && utf8_decodes s2
        | _ => false
        end
      else if (224 <=? b0) && (b0 <=? 239) then
        match s1 with
        | String c1 (String c2 s3) =>
            continuation c1 && continuation c2 &&
            negb ((b0 =? 224) && (byte_of c1 <? 160)) && utf8_decodes s3
        | _ => false
        end
      else if (240 <=? b0) && (b0 <=? 244) then
        match s1 with
        | String c1 (String c2 (String c3 s4)) =>
            continuation c1 && continuation c2 && continuation c3 &&
            negb ((b0 =? 240) && (byte_of c1 <? 144)) &&
            negb ((b0 =? 244) && (143 <? byte_of c1)) && utf8_decodes s4
        | _ => false
        end
      else false
  end.

(** The values [json.dump] can write. *)
Fixpoint json_encodable (v : pyval) : bool :=
  match v with
  | PyStr s => utf8_decodes s
  | PySeq l => forallb json_encodable l
  | _ => true
  end.

(** [json.dump(meta, f)] on a dictionary: it returns when every key and
    every value can be written. *)
Definition json_dump (meta : gmap string pyval) : result unit :=
  if forallb (fun kv => utf8_decodes kv.1 && json_encodable kv.2) (map_to_list meta)
  then Ok tt
  else Raise UnicodeDecodeError.

(** ** numpy arrays *)

Inductive dtype : Type := uint8 | uint16.

Definition modulus (t : dtype) : Z :=
  match t with uint8 => 256 | uint16 => 65536 end.

(** A store into an array of dtype [t] (and an unsafe cast to [t]) keeps the
    low bits. *)
Definition wrap (t : dtype) (z : Z) : Z := z mod modulus t.

Record ndarray : Type := mk_ndarray {
  nd_dtype : dtype;
  nd_shape : list N;
  nd_data : list Z
}.

Definition nd_size (a : ndarray) : N := N.of_nat (length (nd_data a)).

(** The samples an array of its dtype can hold. *)
Definition in_dtype (t : dtype) (x : Z) : Prop := 0 <= x < modulus t.

(** [count] consecutive integers from [start]. *)
Fixpoint arange_from (start : Z) (count : nat) : list Z :=
  match count with
  | O => []
  | S count' => start :: arange_from (start + 1) count'
  end.

(** [np.arange(n, dtype=t)], for [n] within the range of [t]. *)
Definition np_arange (n : Z) (t : dtype) : ndarray :=
  {| nd_dtype := t; nd_shape := [Z.to_N n]; nd_data := arange_from 0 (Z.to_nat n) |}.

(** [np.clip] on one sample: [minimum(maximum(x, lo), hi)]. *)
Definition np_clip (lo hi x : Z) : Z := Z.min (Z.max x lo) hi.

(** [np.floor_divide] on an integer sample: division by zero gives 0 (and a
    RuntimeWarning), it does not raise. *)
Definition np_floor_divide (x d : Z) : Z := if d =? 0 then 0 else x / d.

(** [np.reshape(a, (rows, cols))]: the same data under a new shape, a
    ValueError when the sizes differ. *)
Definition np_reshape (a : ndarray) (shape : N * N) : result ndarray :=
  if (nd_size a =? shape.1 * shape.2)%N
  then Ok {| nd_dtype := nd_dtype a; nd_shape := [shape.1; shape.2]; nd_data := nd_data a |}
  else Raise ValueError.

(** The position [np.take] reads for index [i] in a table of [n] entries
    (mode 'raise': an index of [-n..-1] counts from the end). *)
Definition take_index (n i : Z) : option nat :=
  if (0 <=? i) && (i <? n) then Some (Z.to_nat i)
  else if (- n <=? i) && (i <? 0) then Some (Z.to_nat (n + i))
  else None.

Definition take_data (table : list Z) (indices : list Z) : option (list Z) :=
  mapM (fun i => take_index (Z.of_nat (length table)) i ≫= (table !!.)) indices.

(** ** The level window and its lookup table, sample by sample

    The window [self.levels] is a pair of Python integers, as the default
    [(0, 65535)]. The three in-place steps are those of numpy for bounds
    among the 16-bit sample values ([sample_window] below), the level
    windows of the application: every intermediate value is stored into
    the uint16 array and wraps. For a bound outside the sample values
    numpy may take another path (with a negative low bound the result of
    [image -= low] is an int32 array, which numpy refuses to store in
    place); that path is not described here. *)

(** [(self.levels[1] - self.levels[0] + 1) / 256] on Python 2 integers. *)
Definition lut_divisor (levels : Z * Z) : Z := (levels.2 - levels.1 + 1) / 256.

(** What [_lut_8bit] leaves at a position that held [x]: clip, subtract and
    floor-divide in place in the uint16 array, then [astype(np.uint8)]. *)
Definition lut_entry (levels : Z * Z) (x : Z) : Z :=
  let x1 := wrap uint16 (np_clip levels.1 levels.2 x) in
  let x2 := wrap uint16 (x1 - levels.1) in
  let x3 := wrap uint16 (np_floor_divide x2 (lut_divisor levels)) in
  wrap uint8 x3.

Definition lut_table (levels : Z * Z) : list Z :=
  lut_entry levels <$> nd_data (np_arange 65536 uint16).
Arguments lut_table : simpl never.

(** [convert_to_8bit] on array values. *)
Definition convert_to_8bit_value (levels : Z * Z) (image : ndarray) : result ndarray :=
  match take_data (lut_table levels) (nd_data image) with
  | Some d => Ok {| nd_dtype := uint8; nd_shape := nd_shape image;
                    nd_data := wrap uint8 <$> d |}
  | None => Raise IndexError
  end.

(** ** The store of arrays and the methods that work in place *)

Abbreviation loc := positive (only parsing).
Abbreviation store := (gmap positive ndarray) (only parsing).

(** A computation that may raise and may change the store; the store
    survives an exception. *)
Definition St (A : Type) : Type := store -> result A * store.

Definition st_ret {A : Type} (a : A) : St A := fun h => (Ok a, h).

Definition st_raise {A : Type} (e : exn) : St A := fun h => (Raise e, h).

Definition st_bind {A B : Type} (m : St A) (k : A -> St B) : St B :=
  fun h => match m h with
           | (Ok a, h') => k a h'
           | (Raise e, h') => (Raise e, h')
           end.

Notation "'let*' x := m 'in' k" := (st_bind m (fun x => k))
  (at level 10, x name, m at level 100, k at level 200).

(** A new array object. *)
Definition alloc (a : ndarray) : St loc :=
  fun h => let l := fresh (dom h) in (Ok l, <[l := a]> h).

Definition load (l : loc) : St ndarray :=
  fun h => match h !! l with
           | Some a => (Ok a, h)
           | None => (Raise TypeError, h)
           end.

(** An element-wise ufunc with [out=] the array at [l] itself. *)
Definition ufunc_inplace (l : loc) (f : Z -> Z) : St unit :=
  let* a := load l in
  fun h => (Ok tt, <[l := {| nd_dtype := nd_dtype a; nd_shape := nd_shape a;
                             nd_data := (fun x => wrap (nd_dtype a) (f x)) <$> nd_data a |}]> h).

(** [a.astype(t)]: always a copy. *)
Definition astype (l : loc) (t : dtype) : St loc :=
  let* a := load l in
  alloc {| nd_dtype := t; nd_shape := nd_shape a; nd_data := wrap t <$> nd_data a |}.

(** [np.take(table, indices)]: a new array of the table's dtype and the
    indices' shape. *)
Definition np_take (table indices : loc) : St loc :=
  let* t := load table in
  let* ix := load indices in
  match take_data (nd_data t) (nd_data ix) with
  | Some d => alloc {| nd_dtype := nd_dtype t; nd_shape := nd_shape ix; nd_data := d |}
  | None => st_raise IndexError
  end.

(** [BaseWriter._lut_8bit(self, image)] with [self.levels = levels]. *)
Definition _lut_8bit (levels : Z * Z) (image : loc) : St loc :=
  let* _ := ufunc_inplace image (np_clip levels.1 levels.2) in
  let* _ := ufunc_inplace image (fun x => x - levels.1) in
  let* _ := ufunc_inplace image (fun x => np_floor_divide x (lut_divisor levels)) in
  astype image uint8.

(** [BaseWriter.convert_to_8bit(self, image)]. *)
Definition convert_to_8bit (levels : Z * Z) (image : loc) : St loc :=
  let* lut := alloc (np_arange 65536 uint16) in
  let* lut := _lut_8bit levels lut in
  let* r := np_take lut image in
  astype r uint8.

(** ** Strings: [endswith], slices and [strftime] *)

(** [s.endswith(suffix)]. *)
Fixpoint endswith (s suffix : string) : bool :=
  if String.eqb s suffix then true
  else match s with
       | String _ r => endswith r suffix
       | EmptyString => false
       end.

(** The first [n] characters of [s] (all of [s] when it is shorter). *)
Fixpoint str_prefix (n : nat) (s : string) : string :=
  match n, s with
  | S n', String c r => String c (str_prefix n' r)
  | _, _ => EmptyString
  end.

(** The slice [s[:-k]]: a negative stop counts from the end and is clamped
    at the start of the string. *)
Definition slice_to_neg (s : string) (k : nat) : string :=
  str_prefix (String.length s - k) s.

Definition digit_char (d : Z) : ascii := ascii_of_nat (Z.to_nat (48 + d)).

(** Two and four decimal digits, zero padded. *)
Definition digits2 (n : Z) : string :=
  String (digit_char (n / 10 mod 10)) (String (digit_char (n mod 10)) EmptyString).

Definition digits4 (n : Z) : string :=
  String (digit_char (n / 1000 mod 10))
    (String (digit_char (n / 100 mod 10)) (digits2 n)).

(** The local time [datetime.datetime.fromtimestamp(time.time())] returns. *)
Record datetime : Type := mk_datetime {
  year : Z; month : Z; day : Z; hour : Z; minute : Z; second : Z
}.

(** The local times [strftime] takes: a [datetime] has a year up to
    MAXYEAR = 9999, and Python 2 refuses a year before 1900. *)
Definition valid_datetime (d : datetime) : Prop :=
  1900 <= year d <= 9999 /\ 1 <= month d <= 12 /\ 1 <= day d <= 31 /\
  0 <= hour d <= 23 /\ 0 <= minute d <= 59 /\ 0 <= second d <= 59.

(** [date.strftime('%Y%m%d')] and [date.strftime('%H%M%S')]. *)
Definition strftime_Ymd (d : datetime) : result string :=
  if year d <? 1900 then Raise ValueError
  else Ok (digits4 (year d) +:+ digits2 (month d) +:+ digits2 (day d)).

Definition strftime_HMS (d : datetime) : result string :=
  if year d <? 1900 then Raise ValueError
  else Ok (digits2 (hour d) +:+ digits2 (minute d) +:+ digits2 (second d)).

(** ** What the writer does to the outside world *)

(** An item of the queue: a frame of the camera or a string. *)
Inductive item : Type :=
| Frame (a : ndarray)
| Str (s : string).

Inductive event : Type :=
| EGet (it : item)                                  (* [self.q.get()] returned [it] *)
| EShow (img : ndarray)                             (* [self.iv.setImage(img, ...)] *)
| ESave (img : ndarray) (compress : Z)              (* [self.tiff_writer.save(img, compress=...)] *)
| ETaskDone                                         (* [self.q.task_done()] *)
| EClose                                            (* [self.tiff_writer.close()] *)
| EOpenJson (file : string)                         (* [open(file, 'w')]: [file] is created, or emptied *)
| EWriteJson (file : string) (meta : gmap string pyval)
                                                    (* [json.dump(meta, f)] returned: [file] holds the record *)
| EWriteJsonPart (file : string) (meta : gmap string pyval).
                                                    (* [json.dump(meta, f)] raised: [file] holds the text
                                                       of [meta] up to the value that was not written *)

(** The pages appended to the container, in the order of the appends. *)
Definition container (tr : list event) : list ndarray :=
  omap (fun e => match e with ESave img _ => Some img | _ => None end) tr.

Definition closes (tr : list event) : nat :=
  length (omap (fun e => match e with EClose => Some tt | _ => None end) tr).

(** The records written, each with its file. *)
Definition json_writes (tr : list event) : list (string * gmap string pyval) :=
  omap (fun e => match e with EWriteJson f m => Some (f, m) | _ => None end) tr.

Definition gets (tr : list event) : list item :=
  omap (fun e => match e with EGet it => Some it | _ => None end) tr.

(** The files opened for writing, and the records [json.dump] broke off. *)
Definition json_opens (tr : list event) : list string :=
  omap (fun e => match e with EOpenJson f => Some f | _ => None end) tr.

Definition json_parts (tr : list event) : list (string * gmap string pyval) :=
  omap (fun e => match e with EWriteJsonPart f m => Some (f, m) | _ => None end) tr.

(** The calls of [self.q.task_done()]. *)
Definition task_done_calls (tr : list event) : nat :=
  length (omap (fun e => match e with ETaskDone => Some tt | _ => None end) tr).

(** The events of the writer's loop, and those on the sidecar file. *)
Definition loop_event (e : event) : Prop :=
  match e with
  | EGet _ | EShow _ | ESave _ _ | ETaskDone => True
  | _ => False
  end.

Definition on_sidecar (e : event) : Prop :=
  match e with
  | EOpenJson _ | EWriteJson _ _ | EWriteJsonPart _ _ => True
  | _ => False
  end.

(** ** BaseWriter *)

(** The fields of a writer the methods below read. The queue and the
    container ([self.tiff_writer], opened by [__init__] with [bigtiff=True,
    append=True]) are in the items and events of a run. *)
Record writer : Type := mk_writer {
  filename : string;
  comp_lev : Z;
  levels : Z * Z;
  metadata : gmap string pyval;
  write : bool
}.

(** [d[k]] on a dictionary. *)
Definition dict_get (d : gmap string pyval) (k : string) : result pyval :=
  match d !! k with
  | Some v => Ok v
  | None => Raise (KeyError k)
  end.

(** [BaseWriter.__init__]: the metadata gets its framerate from the exposure
    when it has none; the [KeyError] of a missing exposure is re-raised with
    a message, any other exception of [1/exposure] passes through. The
    queue argument is a [Queue] by its type here (the [assert] of the
    source); the [write] flag of the record is set by the subclass. *)
Definition BaseWriter_init (filename : string) (compression_level : Z)
    (levels : Z * Z) (metadata : gmap string pyval) : result writer :=
  do md <- match metadata !! "framerate" with
           | Some _ => Ok metadata
           | None =>
               match metadata !! "exposure" with
               | None => Raise (KeyError "Exposure or Framerate must be specified to save as metadata")
               | Some e => do fr <- py_one_over e; Ok (<["framerate" := fr]> metadata)
               end
           end;
  Ok {| filename := filename; comp_lev := compression_level; levels := levels;
        metadata := md; write := false |}.

(** [WriterHamamatsu.__init__]. *)
Definition WriterHamamatsu_init (filename : string) (compression_level : Z)
    (levels : Z * Z) (metadata : gmap string pyval) : result writer :=
  do w <- BaseWriter_init filename compression_level levels metadata;
  match w with
  | mk_writer f c l m _ => Ok (mk_writer f c l m true)     (* [self.write = True] *)
  end.

(** [WriterHamamatsu.end]. *)
Definition WriterHamamatsu_end (w : writer) : writer :=
  match w with
  | mk_writer f c l m _ => mk_writer f c l m false         (* [self.write = False] *)
  end.

(** The record [save_metadata] builds, in the order Python evaluates it. *)
Definition build_meta (md : gmap string pyval) (now : datetime)
  : result (gmap string pyval) :=
  do ymd <- strftime_Ymd now;
  do hms <- strftime_HMS now;
  do framerate <- dict_get md "framerate";
  do version <- dict_get md "version";
  do stims <- dict_get md "stims";
  do lv <- dict_get md "levels";
  do l0 <- py_getitem lv 0;
  do level_min <- py_int l0;
  do lv' <- dict_get md "levels";
  do l1 <- py_getitem lv' 1;
  do level_max <- py_int l1;
  Ok (<["framerate" := framerate]>
      (<["source" := PyStr "AwesomeImager"]>
      (<["version" := version]>
      (<["date" := PyStr ymd]>
      (<["time" := PyStr hms]>
      (<["stims" := stims]>
      (<["level_min" := PyInt level_min]>
      (<["level_max" := PyInt level_max]> ∅)))))))).

(** The name of the sidecar of a container. *)
Definition json_name (filename : string) : result string :=
  if endswith filename ".tiff" then Ok (slice_to_neg filename 5 +:+ ".json")
  else if endswith filename ".tif" then Ok (slice_to_neg filename 4 +:+ ".json")
  else Raise ValueError.

(** [BaseWriter.save_metadata(self, filename)] at local time [now]: the
    events it causes and how it ends. The sidecar is opened before
    [json.dump] is called: when [json.dump] raises, the file exists and
    holds a part of the record (the [with] block closes it). *)
Definition save_metadata (w : writer) (now : datetime) (filename : string)
  : list event * result unit :=
  match build_meta w.(metadata) now with
  | Raise e => ([], Raise e)
  | Ok meta =>
      match json_name filename with
      | Raise e => ([], Raise e)
      | Ok json_file =>
          match json_dump meta with
          | Ok _ => ([EOpenJson json_file; EWriteJson json_file meta], Ok tt)
          | Raise e => ([EOpenJson json_file; EWriteJsonPart json_file meta], Raise e)
          end
      end
  end.

(** ** AcquireHamamatsu *)

(** What one pass of the acquisition loop meets in
    [self.q.put(self.get_grey_values())]. *)
Inductive acquired : Type :=
| Got (a : ndarray)        (* a frame, put on the queue *)
| Failed (e : exn)         (* an [Exception]: printed, the loop goes on *)
| Interrupted.             (* a [KeyboardInterrupt]: [self.end()] and re-raised *)

(** The loop of [AcquireHamamatsu.run] over the passes made before the stop
    time: the items put on the queue, and the exception that left the loop. *)
Fixpoint acquire_loop (passes : list acquired) : list item * option exn :=
  match passes with
  | [] => ([], None)
  | Got a :: rest => let (q, e) := acquire_loop rest in (Frame a :: q, e)
  | Failed _ :: rest => acquire_loop rest
  | Interrupted :: _ => ([], Some KeyboardInterrupt)
  end.

(** [AcquireHamamatsu.run]: after the loop, ['done'] is put on the queue. *)
Definition AcquireHamamatsu_run (passes : list acquired) : list item * result unit :=
  match acquire_loop passes with
  | (q, None) => (q ++ [Str "done"], Ok tt)
  | (q, Some e) => (q, Raise e)
  end.

(** ** WriterHamamatsu *)

(** How the writer's thread ends: [run] returns, with the items left on the
    queue; an exception leaves [run]; or [self.q.get()] waits for an item
    that never comes. *)
Inductive outcome : Type :=
| Returned (q : list item)
| Raised (e : exn) (q : list item)
| Blocked.

Section Writer.

(** The shape the frames are brought to: [(2048, 2048)] in the source. *)
Variable frame_shape : N * N.

Variable w : writer.

(** The body of the [else] branch for one array taken from the queue. An
    exception of [setImage] is caught and printed; no handler catches
    the exceptions of [np.reshape] and [convert_to_8bit]. [task_done] is
    called after the page was saved. *)
Definition write_frame (cam_data : ndarray) : list event * result unit :=
  match np_reshape cam_data frame_shape with
  | Raise e => ([], Raise e)
  | Ok img =>
      match convert_to_8bit_value w.(levels) img with
      | Raise e => ([EShow img], Raise e)
      | Ok img8 => ([EShow img; ESave img8 w.(comp_lev); ETaskDone], Ok tt)
      end
  end.

(** The [while self.write] loop over the items the queue delivers. The
    guard [if not self.q.not_empty] never holds ([not_empty] is a
    condition variable, a true value), so every pass calls [get]. *)
Fixpoint writer_loop (q : list item) : list event * outcome :=
  match q with
  | [] => ([], Blocked)
  | Str s :: rest =>
      if String.eqb s "done" then ([EGet (Str s)], Returned rest)
      else let (tr, o) := writer_loop rest in (EGet (Str s) :: tr, o)
  | Frame a :: rest =>
      match write_frame a with
      | (evs, Raise e) => (EGet (Frame a) :: evs, Raised e rest)
      | (evs, Ok _) =>
          let (tr, o) := writer_loop rest in (EGet (Frame a) :: evs ++ tr, o)
      end
  end.

(** [WriterHamamatsu.run] at local time [now]: the loop, then
    [self.tiff_writer.close()] and [self.save_metadata(self.filename)]. The
    flag [self.write] has the value it holds when [run] starts: [end] is
    called from another thread, and so is a KeyboardInterrupt sent. *)
Definition WriterHamamatsu_run (now : datetime) (q : list item) : list event * outcome :=
  let (tr, o) := if w.(write) then writer_loop q else ([], Returned q) in
  match o with
  | Returned rest =>
      match save_metadata w now w.(filename) with
      | (evs, Ok _) => (tr ++ EClose :: evs, Returned rest)
      | (evs, Raise e) => (tr ++ EClose :: evs, Raised e rest)
      end
  | _ => (tr, o)
  end.

End Writer.

(** The frame shape of the source. *)
Definition hamamatsu_shape : N * N := (2048, 2048)%N.

(** ** Notions the theorems are stated with *)

(** The conversion divides by zero when the divisor [_lut_8bit] hands to
    [np.floor_divide] is 0. *)
Definition divides_by_zero (levels : Z * Z) : Prop := lut_divisor levels = 0.

(** The array [_lut_8bit] leaves in place of its argument. *)
Definition after_lut_inplace (levels : Z * Z) (a : ndarray) : ndarray :=
  {| nd_dtype := nd_dtype a; nd_shape := nd_shape a;
     nd_data := (fun x =>
                   wrap (nd_dtype a)
                     (np_floor_divide
                        (wrap (nd_dtype a) (wrap (nd_dtype a) (np_clip levels.1 levels.2 x) - levels.1))
                        (lut_divisor levels))) <$> nd_data a |}.

(** A frame the writer can take: 16-bit samples, as many as the shape has
    places. *)
Definition is_frame (shape : N * N) (a : ndarray) : Prop :=
  nd_size a = (shape.1 * shape.2)%N /\ Forall (in_dtype uint16) (nd_data a).

(** The page the writer appends for a frame: the table applied to every
    sample, under the shape of the reshaped frame. *)
Definition converted (shape : N * N) (levels : Z * Z) (a : ndarray) : ndarray :=
  {| nd_dtype := uint8; nd_shape := [shape.1; shape.2];
     nd_data := lut_entry levels <$> nd_data a |}.

Definition is_digit (c : ascii) : bool :=
  let n := nat_of_ascii c in ((48 <=? n) && (n <=? 57))%nat.

Fixpoint all_digits (s : string) : bool :=
  match s with
  | EmptyString => true
  | String c r => is_digit c && all_digits r
  end.

(** The bound [metadata['levels'][i]] read as an integer. *)
Definition level_bound (md : gmap string pyval) (i : nat) : result Z :=
  do lv <- dict_get md "levels";
  do x <- py_getitem lv i;
  py_int x.

(** The items the writer loop takes and goes on from: a frame the writer can
    take, or a string other than ['done']. *)
Definition goes_on (shape : N * N) (it : item) : Prop :=
  match it with
  | Frame a => is_frame shape a
  | Str s => s <> "done"
  end.

Definition frames_of (q : list item) : list ndarray :=
  omap (fun it => match it with Frame a => Some a | Str _ => None end) q.

(** The items left on the queue when the writer's thread ends. *)
Definition left_on_queue (o : outcome) : option (list item) :=
  match o with
  | Returned q => Some q
  | Raised _ q => Some q
  | Blocked => None
  end.

(** The frames the camera delivered, and the number of passes that failed. *)
Definition got_frames (passes : list acquired) : list ndarray :=
  omap (fun p => match p with Got a => Some a | _ => None end) passes.

Definition failures (passes : list acquired) : nat :=
  length (omap (fun p => match p with Failed e => Some e | _ => None end) passes).

Definition not_interrupted (p : acquired) : Prop :=
  match p with Interrupted => False | _ => True end.

(** A frame of three samples: not one [np.reshape] brings to 2048 by 2048. *)
Definition short_frame : ndarray := mk_ndarray uint16 [3%N] [1; 2; 3].

(** The metadata [save_metadata] can build a record from. *)
Definition has_key (md : gmap string pyval) (k : string) : bool :=
  match md !! k with Some _ => true | None => false end.

Definition complete_metadata (md : gmap string pyval) : bool :=
  has_key md "framerate" && has_key md "version" && has_key md "stims" &&
  is_ok (level_bound md 0) && is_ok (level_bound md 1).

Definition tiff_name (filename : string) : bool :=
  endswith filename ".tiff" || endswith filename ".tif".

(** The metadata whose record [json.dump] can write: the values of
    'framerate', 'version' and 'stims' go into the record as they are. *)
Definition encodable_field (md : gmap string pyval) (k : string) : bool :=
  match md !! k with Some v => json_encodable v | None => true end.

Definition encodable_metadata (md : gmap string pyval) : bool :=
  encodable_field md "framerate" && encodable_field md "version" &&
  encodable_field md "stims".

(** A window of 16-bit sample values, low bound first. *)
Definition sample_window (levels : Z * Z) : Prop :=
  0 <= levels.1 /\ levels.1 <= levels.2 /\ levels.2 < 65536.

(** The fields of the sidecar. *)
Definition sidecar_fields : gset string :=
  {[ "framerate"; "source"; "version"; "date"; "time"; "stims"; "level_min"; "level_max" ]}.

(** ** A session to run the definitions on *)

(** 29 March 2018, 09:05:07. *)
Definition sample_now : datetime := mk_datetime 2018 3 29 9 5 7.

#[warnings="-inexact-float"]
Definition sample_metadata : gmap string pyval :=
  <["exposure" := PyFloat 0.05%float]>
  (<["version" := PyStr "1.0"]>
  (<["stims" := PySeq []]>
  (<["levels" := PySeq [PyInt 0; PyInt 65535]]> ∅))).

#[warnings="-inexact-float"]
Definition sample_writer : writer :=
  mk_writer "out.tiff" 1 (0, 65535)
    (<["framerate" := PyFloat 20%float]> sample_metadata) true.

(** Two frames of two by two samples. *)
Definition sample_frame1 : ndarray := mk_ndarray uint16 [4%N] [0; 255; 256; 65535].
Definition sample_frame2 : ndarray := mk_ndarray uint16 [4%N] [512; 1024; 2048; 4096].

(** A writer whose metadata has a framerate and nothing else, as
    [WriterHamamatsu_init] makes it from [{'framerate': 20.0}]. *)
Definition bare_writer : writer :=
  mk_writer "out.tiff" 1 (0, 65535) {[ "framerate" := PyFloat 20%float ]} true.

(** The sample writer with a version that is no UTF-8: the one byte [FF]. *)
#[warnings="-inexact-float"]
Definition undecodable_writer : writer :=
  mk_writer "out.tiff" 1 (0, 65535)
    (<["version" := PyStr (String (ascii_of_nat 255) EmptyString)]>
       (<["framerate" := PyFloat 20%float]> sample_metadata)) true.

(** The double Python reads [0.05] as. *)
#[warnings="-inexact-float"]
Definition exposure_0_05 : float := 0.05%float.

(** ** BaseHamamatsu and AcquireHamamatsu: the camera side *)

(** The calls made on the vendor camera [self.hcam]. *)
Inductive cam_event : Type :=
| CamOpen (id : Z)                          (* [hc.HamamatsuCameraMR(id)] *)
| CamSet (name : string) (value : pyval)    (* [setPropertyValue(name, value)] *)
| CamStart                                  (* [startAcquisition()] *)
| CamStop                                   (* [stopAcquisition()] *)
| CamShutdown.                              (* [shutdown()] *)

Record hamamatsu : Type := mk_hamamatsu {
  cam_framerate : pyval;       (* [self._framerate] *)
  camera_open : bool;
  acquire : bool               (* [self._acquire], set by [AcquireHamamatsu] *)
}.

(** [BaseHamamatsu.__init__(self, **kwargs)]: without an exposure it raises
    before the camera is opened; with one it opens the camera, sets the
    five properties and then the exposure, whose setter sets the property
    first and the framerate [1/e] after. *)
Definition BaseHamamatsu_init (kwargs : gmap string pyval)
  : list cam_event * result hamamatsu :=
  match kwargs !! "exposure" with
  | None => ([], Raise (KeyError "No exposure value specified"))
  | Some e =>
      let evs := [CamOpen 0;
                  CamSet "defect_correct_mode" (PyStr "OFF");
                  CamSet "subarray_hsize" (PyInt 2048);
                  CamSet "subarray_vsize" (PyInt 2048);
                  CamSet "binning" (PyStr "1x1");
                  CamSet "readout_speed" (PyInt 2);
                  CamSet "exposure_time" e] in
      match py_one_over e with
      | Ok fr => (evs, Ok (mk_hamamatsu fr true false))
      | Raise x => (evs, Raise x)
      end
  end.

(** [BaseHamamatsu.end]. *)
Definition BaseHamamatsu_end (c : hamamatsu) : list cam_event * hamamatsu :=
  ([CamStop; CamShutdown], mk_hamamatsu c.(cam_framerate) false c.(acquire)).

(** [AcquireHamamatsu.__init__(self, parameters, threading_queue, duration)]. *)
Definition AcquireHamamatsu_init (parameters : gmap string pyval)
  : list cam_event * result hamamatsu :=
  match BaseHamamatsu_init parameters with
  | (evs, Ok c) => (evs, Ok (mk_hamamatsu c.(cam_framerate) c.(camera_open) true))
  | (evs, Raise x) => (evs, Raise x)
  end.

(** [AcquireHamamatsu.end]: the flag only, the camera is not touched. *)
Definition AcquireHamamatsu_end (c : hamamatsu) : hamamatsu :=
  mk_hamamatsu c.(cam_framerate) c.(camera_open) false.

(** The camera side of [AcquireHamamatsu.run]: [startAcquisition] before the
    loop; after ['done'] was put, [super().end()]. The handler of
    KeyboardInterrupt calls [self.end()], the flag, and re-raises. *)
Definition AcquireHamamatsu_run_camera (c : hamamatsu) (passes : list acquired)
  : list cam_event * hamamatsu :=
  match (AcquireHamamatsu_run passes).2 with
  | Ok _ => let (evs, c') := BaseHamamatsu_end c in (CamStart :: evs, c')
  | Raise _ => ([CamStart], AcquireHamamatsu_end c)
  end.

(** The passes before the first KeyboardInterrupt. *)
Fixpoint before_interrupt (passes : list acquired) : list acquired :=
  match passes with
  | [] => []
  | Interrupted :: _ => []
  | p :: rest => p :: before_interrupt rest
  end.

(** ** The metadata dictionary as the object it is *)

(** [BaseWriter.__init__] keeps the dictionary it is given
    ([self.metadata = metadata]) and stores the framerate into it: the
    caller's dictionary changes. [dicts] is the store of dictionary
    objects; the writer is returned with the reference it holds. *)
Definition BaseWriter_init_ref (filename : string) (compression_level : Z)
    (levels : Z * Z) (metadata : positive) (dicts : gmap positive (gmap string pyval))
  : result positive * gmap positive (gmap string pyval) :=
  match dicts !! metadata with
  | None => (Raise TypeError, dicts)
  | Some md =>
      match md !! "framerate" with
      | Some _ => (Ok metadata, dicts)
      | None =>
          match md !! "exposure" with
          | None => (Raise (KeyError "Exposure or Framerate must be specified to save as metadata"),
                     dicts)
          | Some e =>
              match py_one_over e with
              | Ok fr => (Ok metadata, <[metadata := <["framerate" := fr]> md]> dicts)
              | Raise x => (Raise x, dicts)
              end
          end
      end
  end.

(** [d[k] = v] on the dictionary object at [d]. *)
Definition dict_setitem (d : positive) (k : string) (v : pyval)
    (dicts : gmap positive (gmap string pyval)) : gmap positive (gmap string pyval) :=
  match dicts !! d with
  | Some md => <[d := <[k := v]> md]> dicts
  | None => dicts
  end.

(** A page as the writer appends them. *)
Definition is_page (shape : N * N) (p : ndarray) : Prop :=
  nd_dtype p = uint8 /\ nd_shape p = [shape.1; shape.2] /\
  nd_size p = (shape.1 * shape.2)%N /\ Forall (in_dtype uint8) (nd_data p).

(** A table is non-decreasing over the samples. *)
Definition non_decreasing (levels : Z * Z) : Prop :=
  forall x y, 0 <= x -> x <= y -> y < 65536 -> lut_entry levels x <= lut_entry levels y.

(** ** BaseOpenCV and AcquireOpenCV *)

(** The calls made on OpenCV by the recorder. *)
Inductive cv_event : Type :=
| VOpen (path : string) (framerate : pyval) (width height : Z)
                                 (* [cv2.VideoWriter(path, fourcc, framerate, (w, h), isColor=False)] *)
| VWrite (frame : ndarray)       (* [out.write(frame)] *)
| VShow (frame : ndarray)        (* [cv2.imshow('Recording', frame)] *)
| VDestroyWindow                 (* [cv2.destroyWindow("Recording")] *)
| VRelease.                      (* [out.release()] *)

(** How the recorder's loop ends: its [else] clause was run, with the frame
    count [fc]; or the capture device gave no further answer. *)
Inductive rec_outcome : Type :=
| Recorded (fc : Z)
| Starved.

Section OpenCV.

(** [cv2.cvtColor(frame, cv2.COLOR_BGR2GRAY)]. *)
Variable cvtColor : ndarray -> ndarray.

(** [BaseOpenCV.read]: [self.cap.read()] is asked until it answers with a
    frame; [reads] are its answers ([None] for [ret == False]). The result
    is the converted frame and the answers not yet asked for; [None] when
    no answer has a frame: the loop does not end. *)
Fixpoint BaseOpenCV_read (reads : list (option ndarray))
  : option (ndarray * list (option ndarray)) :=
  match reads with
  | [] => None
  | None :: rest => BaseOpenCV_read rest
  | Some frame :: rest => Some (cvtColor frame, rest)
  end.

(** The [while] loop of [AcquireOpenCV.run] and its [else] clause. A pass is
    the answer of [self.cap.read()] and the clock read after it; [end_time]
    is the last clock reading. [self.alive] is set before the loop and not
    changed in it. *)
Fixpoint record_loop (start_time duration end_time : float)
    (passes : list (option ndarray * float)) (fc : Z) : list cv_event * rec_outcome :=
  if PrimFloat.ltb (PrimFloat.sub end_time start_time) duration then
    match passes with
    | [] => ([], Starved)
    | (Some frame, t) :: rest =>
        let gray := cvtColor frame in
        let (evs, o) := record_loop start_time duration t rest (fc + 1) in
        (VWrite gray :: VShow gray :: evs, o)
    | (None, t) :: rest => record_loop start_time duration t rest fc
    end
  else ([VDestroyWindow; VRelease], Recorded fc).

(** [AcquireOpenCV.run(self, name, duration)] for a device of the given
    frame size and framerate, started at [start_time]. *)
Definition AcquireOpenCV_run (framerate : pyval) (width height : Z)
    (name : string) (duration start_time : float)
    (passes : list (option ndarray * float)) : list cv_event * rec_outcome :=
  let (evs, o) := record_loop start_time duration start_time passes 0 in
  (VOpen (name +:+ ".avi") framerate width height :: evs, o).

End OpenCV.

(** The frames written to the video, and the releases of it. *)
Definition video_frames (tr : list cv_event) : list ndarray :=
  omap (fun e => match e with VWrite f => Some f | _ => None end) tr.

Definition releases (tr : list cv_event) : nat :=
  length (omap (fun e => match e with VRelease => Some tt | _ => None end) tr).

(** A clock reading within the duration of the recording. *)
Definition in_time (start_time duration t : float) : bool :=
  PrimFloat.ltb (PrimFloat.sub t start_time) duration.

(** * Theorems *)

(** ** The lookup table, sample by sample *)

Lemma wrap_id t x : in_dtype t x -> wrap t x = x.
Proof. intros H. unfold wrap. apply Z.mod_small. exact H. Qed.

Lemma wrap_in_dtype t x : in_dtype t (wrap t x).
Proof. unfold wrap, in_dtype. apply Z.mod_pos_bound. destruct t; reflexivity. Qed.

Lemma lut_entry_uint8 levels x : in_dtype uint8 (lut_entry levels x).
Proof. apply wrap_in_dtype. Qed.

Lemma np_clip_bounds lo hi x : lo <= hi -> lo <= np_clip lo hi x <= hi.
Proof. unfold np_clip. lia. Qed.

Lemma np_clip_mono lo hi x y : x <= y -> np_clip lo hi x <= np_clip lo hi y.
Proof. unfold np_clip. lia. Qed.

Lemma np_clip_below lo hi x : lo <= hi -> x <= lo -> np_clip lo hi x = lo.
Proof. unfold np_clip. lia. Qed.

Lemma np_clip_above lo hi x : lo <= hi -> hi <= x -> np_clip lo hi x = hi.
Proof. unfold np_clip. lia. Qed.

Lemma lut_divisor_nonneg lo hi : lo <= hi -> 0 <= lut_divisor (lo, hi).
Proof. intros H. unfold lut_divisor. simpl. apply Z.div_pos; lia. Qed.

Lemma np_floor_divide_bounds x d : 0 <= x -> 0 <= d -> 0 <= np_floor_divide x d <= x.
Proof.
  intros Hx Hd. unfold np_floor_divide. destruct (Z.eqb_spec d 0) as [->|Hne]; [lia|].
  split; [apply Z.div_pos; lia|]. apply Z.div_le_upper_bound; nia.
Qed.

(** For a window of sample values no store of [_lut_8bit] wraps before the
    final cast to uint8. *)
Lemma lut_entry_unfold lo hi x :
  0 <= lo -> lo <= hi -> hi < 65536 ->
  lut_entry (lo, hi) x
  = wrap uint8 (np_floor_divide (np_clip lo hi x - lo) (lut_divisor (lo, hi))).
Proof.
  intros Hlo Hle Hhi. unfold lut_entry. cbn [fst snd].
  pose proof (np_clip_bounds lo hi x Hle) as Hc.
  rewrite (wrap_id uint16 (np_clip lo hi x)) by (unfold in_dtype; simpl; lia).
  rewrite (wrap_id uint16 (np_clip lo hi x - lo)) by (unfold in_dtype; simpl; lia).
  pose proof (np_floor_divide_bounds (np_clip lo hi x - lo) (lut_divisor (lo, hi))
                ltac:(lia) (lut_divisor_nonneg lo hi Hle)) as Hd.
  rewrite (wrap_id uint16) by (unfold in_dtype; simpl; lia).
  reflexivity.
Qed.

Lemma arange_from_seqZ start count : arange_from start count = seqZ start (Z.of_nat count).
Proof.
  revert start. induction count as [|count IH]; intros start; [reflexivity|].
  rewrite seqZ_cons by lia. cbn [arange_from]. rewrite IH. do 2 f_equal; lia.
Qed.

Lemma np_arange_data n t : 0 <= n -> nd_data (np_arange n t) = seqZ 0 n.
Proof.
  intros Hn. unfold np_arange. cbn [nd_data]. rewrite arange_from_seqZ.
  f_equal. lia.
Qed.

Lemma lut_table_seqZ levels : lut_table levels = lut_entry levels <$> seqZ 0 65536.
Proof. unfold lut_table. rewrite np_arange_data by lia. reflexivity. Qed.

Lemma lut_table_length levels : Z.of_nat (length (lut_table levels)) = 65536.
Proof. rewrite lut_table_seqZ, length_fmap, length_seqZ. lia. Qed.

Lemma lut_table_lookup levels x :
  in_dtype uint16 x -> lut_table levels !! Z.to_nat x = Some (lut_entry levels x).
Proof.
  intros [H0 H1]. simpl in H1. rewrite lut_table_seqZ.
  rewrite list_lookup_fmap, lookup_seqZ_lt by lia.
  simpl. do 2 f_equal. lia.
Qed.

Lemma take_index_in_range n x : 0 <= x < n -> take_index n x = Some (Z.to_nat x).
Proof.
  intros [H0 H1]. unfold take_index.
  destruct (Z.leb_spec 0 x); [|lia]. destruct (Z.ltb_spec x n); [|lia]. reflexivity.
Qed.

Lemma take_data_lut levels d :
  Forall (in_dtype uint16) d ->
  take_data (lut_table levels) d = Some (lut_entry levels <$> d).
Proof.
  intros H. unfold take_data. apply mapM_Some.
  induction H as [|x d Hx _ IH]; [constructor|].
  rewrite fmap_cons. constructor; [|exact IH].
  rewrite lut_table_length, take_index_in_range by exact Hx.
  cbn [mbind option_bind]. apply lut_table_lookup, Hx.
Qed.

Lemma fmap_wrap_lut_entry levels (d : list Z) :
  wrap uint8 <$> (lut_entry levels <$> d) = lut_entry levels <$> d.
Proof.
  rewrite <- list_fmap_compose. apply list_fmap_ext. intros _ x _.
  simpl. apply wrap_id, lut_entry_uint8.
Qed.

(** On a frame of 16-bit samples the conversion is the table applied to
    every sample. *)
Lemma convert_to_8bit_value_ok levels image :
  Forall (in_dtype uint16) (nd_data image) ->
  convert_to_8bit_value levels image
  = Ok {| nd_dtype := uint8; nd_shape := nd_shape image;
          nd_data := lut_entry levels <$> nd_data image |}.
Proof.
  intros H. unfold convert_to_8bit_value.
  rewrite (take_data_lut levels _ H), fmap_wrap_lut_entry. reflexivity.
Qed.

(** The table of a window whose width is a multiple of 256 (the default
    window [(0, 65535)] is one) is non-decreasing, 0 up to [lo] and 255 from
    [hi] on. *)
Lemma lut_entry_aligned_window lo hi d :
  0 <= lo -> hi < 65536 -> 0 < d -> hi - lo + 1 = 256 * d ->
  (forall x y, x <= y -> lut_entry (lo, hi) x <= lut_entry (lo, hi) y) /\
  (forall x, x <= lo -> lut_entry (lo, hi) x = 0) /\
  (forall x, hi <= x -> lut_entry (lo, hi) x = 255).
Proof.
  intros Hlo Hhi Hd Hw.
  assert (Hle : lo <= hi) by lia.
  assert (Hdiv : lut_divisor (lo, hi) = d).
  { unfold lut_divisor. cbn [fst snd]. rewrite Hw.
    rewrite Z.mul_comm. apply Z.div_mul. lia. }
  assert (Hent : forall x, lut_entry (lo, hi) x = (np_clip lo hi x - lo) / d).
  { intros x. rewrite lut_entry_unfold by lia. rewrite Hdiv.
    unfold np_floor_divide. destruct (Z.eqb_spec d 0); [lia|].
    apply wrap_id. pose proof (np_clip_bounds lo hi x Hle). unfold in_dtype. simpl.
    split; [apply Z.div_pos; lia|]. apply Z.div_lt_upper_bound; lia. }
  split; [|split].
  - intros x y Hxy. rewrite !Hent. apply Z.div_le_mono; [lia|].
    pose proof (np_clip_mono lo hi x y Hxy). lia.
  - intros x Hx. rewrite Hent, np_clip_below by lia.
    rewrite Z.sub_diag. apply Z.div_0_l. lia.
  - intros x Hx. rewrite Hent, np_clip_above by lia.
    replace (hi - lo) with (255 * d + (d - 1)) by lia.
    rewrite Z.div_add_l by lia. rewrite Z.div_small by lia. lia.
Qed.

(** The default window keeps the high byte of a sample. *)
Lemma lut_entry_default x : in_dtype uint16 x -> lut_entry (0, 65535) x = x / 256.
Proof.
  intros [H0 H1]. simpl in H1. rewrite lut_entry_unfold by lia.
  unfold np_clip, np_floor_divide. change (lut_divisor (0, 65535)) with 256. simpl.
  rewrite Z.max_l, Z.min_l, Z.sub_0_r by lia.
  apply wrap_id. unfold in_dtype. simpl.
  split; [apply Z.div_pos; lia|]. apply Z.div_lt_upper_bound; lia.
Qed.

(** The sample [hi] is mapped to 255 exactly by the windows whose width is
    a multiple of 256: a narrower window divides by 0, and any other width
    leaves a value of 256 or more in the uint16 table, which the cast to
    uint8 wraps. *)
Lemma lut_entry_high_255_iff_aligned lo hi :
  0 <= lo -> lo <= hi -> hi < 65536 ->
  lut_entry (lo, hi) hi = 255 <-> (hi - lo + 1) mod 256 = 0.
Proof.
  intros Hlo Hle Hhi.
  rewrite lut_entry_unfold by lia. rewrite np_clip_above by lia.
  unfold lut_divisor, np_floor_divide. cbn [fst snd].
  pose proof (Z.div_mod (hi - lo + 1) 256 ltac:(lia)) as Hw.
  pose proof (Z.mod_pos_bound (hi - lo + 1) 256 ltac:(lia)) as Hr.
  set (d := (hi - lo + 1) / 256) in *. set (r := (hi - lo + 1) mod 256) in *.
  assert (Hd : 0 <= d) by (apply Z.div_pos; lia).
  destruct (Z.eqb_spec d 0) as [Hd0|Hd0].
  - split; [discriminate|]. lia.
  - destruct (Z.eq_dec r 0) as [Hr0|Hr0].
    + split; [intros _; exact Hr0|]. intros _.
      replace (hi - lo) with (255 * d + (d - 1)) by lia.
      rewrite Z.div_add_l by lia. rewrite (Z.div_small (d - 1)) by lia. reflexivity.
    + split; [|intros; contradiction]. intros H. exfalso.
      replace (hi - lo) with (256 * d + (r - 1)) in H by lia.
      rewrite Z.div_add_l in H by lia.
      assert (Hq : 0 <= (r - 1) / d < 255).
      { split; [apply Z.div_pos; lia|]. apply Z.div_lt_upper_bound; nia. }
      unfold wrap in H. cbn [modulus] in H.
      replace (256 + (r - 1) / d) with ((r - 1) / d + 1 * 256) in H by lia.
      rewrite Z.mod_add in H by lia. rewrite Z.mod_small in H by lia. lia.
Qed.

(** A window of fewer than 256 sample values has the integer divisor 0:
    every entry of its table is 0. *)
Lemma lut_entry_narrow_window lo hi x :
  lo <= hi -> hi - lo + 1 < 256 -> lut_entry (lo, hi) x = 0.
Proof.
  intros Hle Hw. unfold lut_entry.
  assert (Hd : lut_divisor (lo, hi) = 0).
  { unfold lut_divisor. cbn [fst snd]. apply Z.div_small. lia. }
  rewrite Hd. reflexivity.
Qed.

(** C3 (the code at the failing window): with the window [(0, 256)] the
    integer divisor [(256 - 0 + 1) / 256] is 1, the sample 256 = high stays
    256 in the uint16 table and the cast to uint8 wraps it to 0: the table
    holds 255 at index 255 and 0 at index 256, so it is not non-decreasing
    and maps high to 0, not to 255. *)
Theorem lut_8bit_window_0_256_wraps :
  lut_divisor (0, 256) = 1 /\
  lut_table (0, 256) !! 255%nat = Some 255 /\
  lut_table (0, 256) !! 256%nat = Some 0 /\
  (forall x, 256 <= x -> lut_entry (0, 256) x = 0).
Proof.
  split; [reflexivity|]. split; [|split].
  - exact (lut_table_lookup (0, 256) 255 ltac:(unfold in_dtype; simpl; lia)).
  - exact (lut_table_lookup (0, 256) 256 ltac:(unfold in_dtype; simpl; lia)).
  - intros x Hx. rewrite lut_entry_unfold by lia.
    rewrite np_clip_above by lia. reflexivity.
Qed.

(** C4 (the code at the failing window): for the degenerate window
    [(5, 5)] the integer divisor [(5 - 5 + 1) / 256] is 0 and nothing
    replaces it: [_lut_8bit] hands 0 to [np.floor_divide], so the
    conversion does divide by zero. numpy's integer floor division by zero
    gives 0 and does not raise: every entry of the table is 0. *)
Theorem degenerate_window_divides_by_zero :
  lut_divisor (5, 5) = 0 /\
  divides_by_zero (5, 5) /\
  (forall x, np_floor_divide x (lut_divisor (5, 5)) = 0) /\
  (forall x, lut_entry (5, 5) x = 0).
Proof.
  split; [reflexivity|]. split; [reflexivity|]. split; [reflexivity|].
  intros x. apply lut_entry_narrow_window; lia.
Qed.

(** A degenerate window [(l, l)] of a sample value [l] gets no special
    case, and the conversion still has a defined result for every sample:
    every entry of the table is 0, and the conversion of a 16-bit frame
    returns the frame of zeros. *)
Lemma degenerate_window_all_zero l image :
  in_dtype uint16 l ->
  Forall (in_dtype uint16) (nd_data image) ->
  (forall x, lut_entry (l, l) x = 0) /\
  convert_to_8bit_value (l, l) image
  = Ok {| nd_dtype := uint8; nd_shape := nd_shape image;
          nd_data := (fun _ => 0) <$> nd_data image |}.
Proof.
  intros Hl Himg.
  assert (He : forall x, lut_entry (l, l) x = 0).
  { intros x. apply lut_entry_narrow_window; lia. }
  split; [exact He|].
  rewrite convert_to_8bit_value_ok by exact Himg.
  do 2 f_equal. apply list_fmap_ext. intros _ x _. apply He.
Qed.

Example degenerate_window_7_all_zero :
  (forall x, lut_entry (7, 7) x = 0) /\
  convert_to_8bit_value (7, 7) (mk_ndarray uint16 [2%N; 2%N] [0; 7; 8; 65535])
  = Ok (mk_ndarray uint8 [2%N; 2%N] ((fun _ => 0) <$> [0; 7; 8; 65535])).
Proof.
  assert (H7 : in_dtype uint16 7) by (unfold in_dtype; simpl; lia).
  apply (degenerate_window_all_zero 7 (mk_ndarray uint16 [2%N; 2%N] [0; 7; 8; 65535]) H7).
  repeat constructor; simpl; lia.
Qed.

(** ** The store: what [_lut_8bit] and [convert_to_8bit] change *)

Lemma load_Some (h : gmap positive ndarray) l a :
  h !! l = Some a -> load l h = (Ok a, h).
Proof. intros H. unfold load. rewrite H. reflexivity. Qed.

Lemma load_None (h : gmap positive ndarray) l :
  h !! l = None -> load l h = (Raise TypeError, h).
Proof. intros H. unfold load. rewrite H. reflexivity. Qed.

Lemma ufunc_inplace_Some (h : gmap positive ndarray) l a f :
  h !! l = Some a ->
  ufunc_inplace l f h
  = (Ok tt, <[l := {| nd_dtype := nd_dtype a; nd_shape := nd_shape a;
                      nd_data := (fun x => wrap (nd_dtype a) (f x)) <$> nd_data a |}]> h).
Proof. intros H. unfold ufunc_inplace, st_bind. rewrite (load_Some h l a H). reflexivity. Qed.

Lemma astype_Some (h : gmap positive ndarray) l a t :
  h !! l = Some a ->
  astype l t h
  = (Ok (fresh (dom h)),
     <[fresh (dom h) := {| nd_dtype := t; nd_shape := nd_shape a;
                           nd_data := wrap t <$> nd_data a |}]> h).
Proof. intros H. unfold astype, st_bind. rewrite (load_Some h l a H). reflexivity. Qed.

Lemma fresh_not_in_dom (h : gmap positive ndarray) : h !! fresh (dom h) = None.
Proof. apply not_elem_of_dom. apply is_fresh. Qed.

Lemma lookup_Some_ne_fresh (h : gmap positive ndarray) l a :
  h !! l = Some a -> l <> fresh (dom h).
Proof. intros H ->. rewrite fresh_not_in_dom in H. discriminate. Qed.

(** [_lut_8bit] works in place: it replaces the array it is given and
    returns a new uint8 array; no other array changes. *)
Lemma _lut_8bit_spec levels (h : gmap positive ndarray) l a :
  h !! l = Some a ->
  exists r h',
    _lut_8bit levels l h = (Ok r, h') /\
    h !! r = None /\
    h' !! l = Some (after_lut_inplace levels a) /\
    h' !! r = Some {| nd_dtype := uint8; nd_shape := nd_shape a;
                      nd_data := wrap uint8 <$> nd_data (after_lut_inplace levels a) |} /\
    (forall l', l' <> l -> l' <> r -> h' !! l' = h !! l').
Proof.
  intros H. unfold _lut_8bit, st_bind.
  rewrite (ufunc_inplace_Some h l a _ H).
  erewrite ufunc_inplace_Some by apply lookup_insert_eq.
  erewrite ufunc_inplace_Some by apply lookup_insert_eq.
  rewrite !insert_insert_eq. cbn [nd_dtype nd_shape nd_data].
  rewrite <- !list_fmap_compose.
  set (a3 := {| nd_dtype := nd_dtype a; nd_shape := nd_shape a; nd_data := _ |}).
  assert (Ha3 : a3 = after_lut_inplace levels a) by reflexivity.
  erewrite astype_Some by apply lookup_insert_eq.
  set (h3 := <[l := a3]> h). set (r := fresh (dom h3)).
  assert (Hr : h3 !! r = None) by apply fresh_not_in_dom.
  assert (Hrl : r <> l).
  { intros ->. unfold h3 in Hr. rewrite lookup_insert_eq in Hr. discriminate. }
  exists r, (<[r := {| nd_dtype := uint8; nd_shape := nd_shape a3;
                       nd_data := wrap uint8 <$> nd_data a3 |}]> h3).
  split; [reflexivity|]. split; [|split; [|split]].
  - unfold h3 in Hr. rewrite lookup_insert_ne in Hr by congruence. exact Hr.
  - rewrite lookup_insert_ne by exact Hrl. unfold h3.
    rewrite lookup_insert_eq. rewrite Ha3. reflexivity.
  - rewrite lookup_insert_eq, Ha3. reflexivity.
  - intros l' Hl Hr'. rewrite lookup_insert_ne by congruence.
    unfold h3. rewrite lookup_insert_ne by congruence. reflexivity.
Qed.

(** The table [_lut_8bit] makes of [np.arange(65536, dtype=np.uint16)]. *)
Lemma after_lut_inplace_arange levels :
  wrap uint8 <$> nd_data (after_lut_inplace levels (np_arange 65536 uint16))
  = lut_table levels.
Proof.
  unfold after_lut_inplace, lut_table. cbn [nd_dtype nd_shape nd_data].
  rewrite <- list_fmap_compose. reflexivity.
Qed.

(** Whatever [convert_to_8bit] does, and however it ends, the arrays that
    existed before the call are left as they were. *)
Lemma convert_to_8bit_frame levels (h : gmap positive ndarray) image l :
  is_Some (h !! l) -> (convert_to_8bit levels image h).2 !! l = h !! l.
Proof.
  intros [b Hb]. unfold convert_to_8bit, st_bind at 1, alloc at 1.
  set (l1 := fresh (dom h)). set (h1 := <[l1 := np_arange 65536 uint16]> h).
  assert (Hl1 : l <> l1) by (apply (lookup_Some_ne_fresh h l b Hb)).
  assert (Hb1 : h1 !! l = Some b) by (unfold h1; rewrite lookup_insert_ne by congruence; exact Hb).
  destruct (_lut_8bit_spec levels h1 l1 (np_arange 65536 uint16))
    as (r2 & h2 & Hrun & Hr2 & _ & Hlut & Hother); [apply lookup_insert_eq|].
  unfold st_bind at 1. rewrite Hrun.
  assert (Hlr2 : l <> r2) by (intros ->; rewrite Hr2 in Hb1; discriminate).
  assert (Hb2 : h2 !! l = Some b) by (rewrite Hother by congruence; exact Hb1).
  unfold np_take, st_bind. rewrite (load_Some h2 r2 _ Hlut).
  unfold load at 1. destruct (h2 !! image) as [a|] eqn:Himg; cbn [snd]; [|rewrite Hb2, Hb; reflexivity].
  destruct (take_data _ (nd_data a)) as [d|]; [|cbn; rewrite Hb2, Hb; reflexivity].
  unfold alloc at 1. set (l3 := fresh (dom h2)).
  assert (Hl3 : l <> l3) by (apply (lookup_Some_ne_fresh h2 l b Hb2)).
  erewrite astype_Some by apply lookup_insert_eq. cbn [snd].
  set (h3 := <[l3 := _]> h2).
  assert (Hb3 : h3 !! l = Some b) by (unfold h3; rewrite lookup_insert_ne by congruence; exact Hb2).
  rewrite lookup_insert_ne by (apply not_eq_sym, (lookup_Some_ne_fresh h3 l b Hb3)).
  rewrite Hb3, Hb. reflexivity.
Qed.

(** C10: [convert_to_8bit] on a frame of 16-bit samples returns a new
    uint8 array (a location the store did not have) that holds the table
    applied to every sample, and leaves the frame, and every other array
    that existed before the call, unchanged: the in-place steps of
    [_lut_8bit] fall on the table built inside the call. The result is the
    one [convert_to_8bit_value] computes on values. *)
Theorem convert_to_8bit_fresh_result_frame_unchanged
    levels (h : gmap positive ndarray) image a :
  h !! image = Some a ->
  Forall (in_dtype uint16) (nd_data a) ->
  exists r h',
    convert_to_8bit levels image h = (Ok r, h') /\
    h !! r = None /\
    h' !! r = Some {| nd_dtype := uint8; nd_shape := nd_shape a;
                      nd_data := lut_entry levels <$> nd_data a |} /\
    convert_to_8bit_value levels a = Ok {| nd_dtype := uint8; nd_shape := nd_shape a;
                                           nd_data := lut_entry levels <$> nd_data a |} /\
    h' !! image = Some a /\
    (forall l, is_Some (h !! l) -> h' !! l = h !! l).
Proof.
  intros Himg Hdata.
  pose proof (convert_to_8bit_frame levels h image) as Hframe.
  assert (Hrun_all : exists r h3 res,
             res = {| nd_dtype := uint8; nd_shape := nd_shape a;
                      nd_data := lut_entry levels <$> nd_data a |} /\
             convert_to_8bit levels image h = (Ok r, <[r := res]> h3) /\
             h3 !! r = None /\
             (forall l b, h !! l = Some b -> h3 !! l = Some b)).
  { unfold convert_to_8bit, st_bind at 1, alloc at 1.
    set (l1 := fresh (dom h)). set (h1 := <[l1 := np_arange 65536 uint16]> h).
    assert (Hsub1 : forall l b, h !! l = Some b -> h1 !! l = Some b).
    { intros l b Hb. unfold h1. rewrite lookup_insert_ne; [exact Hb|].
      apply not_eq_sym, (lookup_Some_ne_fresh h l b Hb). }
    destruct (_lut_8bit_spec levels h1 l1 (np_arange 65536 uint16))
      as (r2 & h2 & Hrun & Hr2 & Hl1 & Hlut & Hother); [apply lookup_insert_eq|].
    unfold st_bind at 1. rewrite Hrun.
    assert (Hsub2 : forall l b, h !! l = Some b -> h2 !! l = Some b).
    { intros l b Hb. rewrite Hother; [exact (Hsub1 l b Hb)| |].
      - apply (lookup_Some_ne_fresh h l b Hb).
      - intros ->. rewrite (Hsub1 r2 b Hb) in Hr2. discriminate. }
    rewrite after_lut_inplace_arange in Hlut.
    unfold np_take, st_bind.
    rewrite (load_Some h2 r2 _ Hlut), (load_Some h2 image a (Hsub2 image a Himg)).
    cbn [nd_data nd_dtype nd_shape]. rewrite (take_data_lut levels _ Hdata).
    unfold alloc at 1. set (l3 := fresh (dom h2)).
    erewrite astype_Some by apply lookup_insert_eq.
    cbn [nd_data nd_dtype nd_shape]. rewrite fmap_wrap_lut_entry.
    set (res := {| nd_dtype := uint8; nd_shape := nd_shape a; nd_data := _ |}).
    set (h3 := <[l3 := res]> h2).
    exists (fresh (dom h3)), h3, res.
    split; [reflexivity|]. split; [reflexivity|]. split; [apply fresh_not_in_dom|].
    intros l b Hb. unfold h3. rewrite lookup_insert_ne; [exact (Hsub2 l b Hb)|].
    apply not_eq_sym, (lookup_Some_ne_fresh h2 l b (Hsub2 l b Hb)). }
  destruct Hrun_all as (r & h3 & res & Hres & Hrun & Hfresh & Hsub).
  rewrite Hrun in Hframe. cbn [snd] in Hframe. subst res.
  exists r, (<[r := {| nd_dtype := uint8; nd_shape := nd_shape a;
                       nd_data := lut_entry levels <$> nd_data a |}]> h3).
  split; [exact Hrun|]. split; [|split; [|split; [|split]]].
  - destruct (h !! r) as [b|] eqn:Hb; [|reflexivity].
    rewrite (Hsub r b Hb) in Hfresh. discriminate.
  - apply lookup_insert_eq.
  - apply convert_to_8bit_value_ok, Hdata.
  - rewrite Hframe by (rewrite Himg; eauto). exact Himg.
  - exact Hframe.
Qed.

Lemma convert_to_8bit_fresh_result_frame_unchanged_witness :
  exists r h',
    convert_to_8bit (0, 65535) 1%positive
      {[ 1%positive := mk_ndarray uint16 [2%N; 2%N] [0; 255; 256; 65535] ]} = (Ok r, h') /\
    ({[ 1%positive := mk_ndarray uint16 [2%N; 2%N] [0; 255; 256; 65535] ]}
       : gmap positive ndarray) !! r = None /\
    h' !! r = Some (mk_ndarray uint8 [2%N; 2%N]
                      (lut_entry (0, 65535) <$> [0; 255; 256; 65535])) /\
    convert_to_8bit_value (0, 65535) (mk_ndarray uint16 [2%N; 2%N] [0; 255; 256; 65535])
    = Ok (mk_ndarray uint8 [2%N; 2%N] (lut_entry (0, 65535) <$> [0; 255; 256; 65535])) /\
    h' !! 1%positive = Some (mk_ndarray uint16 [2%N; 2%N] [0; 255; 256; 65535]) /\
    (forall l,
        is_Some (({[ 1%positive := mk_ndarray uint16 [2%N; 2%N] [0; 255; 256; 65535] ]}
                    : gmap positive ndarray) !! l) ->
        h' !! l
        = ({[ 1%positive := mk_ndarray uint16 [2%N; 2%N] [0; 255; 256; 65535] ]}
             : gmap positive ndarray) !! l).
Proof.
  apply (convert_to_8bit_fresh_result_frame_unchanged (0, 65535)
           {[ 1%positive := mk_ndarray uint16 [2%N; 2%N] [0; 255; 256; 65535] ]}
           1%positive (mk_ndarray uint16 [2%N; 2%N] [0; 255; 256; 65535])).
  - reflexivity.
  - repeat constructor; simpl; lia.
Defined.

(** ** Strings *)

Lemma endswith_unfold s suffix :
  endswith s suffix
  = if String.eqb s suffix then true
    else match s with
         | String _ r => endswith r suffix
         | EmptyString => false
         end.
Proof. destruct s; reflexivity. Qed.

Lemma endswith_app base suffix : endswith (base +:+ suffix) suffix = true.
Proof.
  induction base as [|c base IH].
  - rewrite endswith_unfold. change (EmptyString +:+ suffix) with suffix.
    rewrite String.eqb_refl. reflexivity.
  - rewrite endswith_unfold. change (String c base +:+ suffix) with (String c (base +:+ suffix)).
    destruct (String.eqb _ _); [reflexivity|exact IH].
Qed.

Lemma endswith_inv s suffix : endswith s suffix = true -> exists base, s = base +:+ suffix.
Proof.
  induction s as [|c s IH]; rewrite endswith_unfold.
  - destruct (String.eqb_spec EmptyString suffix) as [<-|]; [|discriminate].
    intros _. exists EmptyString. reflexivity.
  - destruct (String.eqb_spec (String c s) suffix) as [<-|].
    + intros _. exists EmptyString. reflexivity.
    + intros H. destruct (IH H) as [base ->]. exists (String c base). reflexivity.
Qed.

Lemma str_length_app a b : String.length (a +:+ b) = (String.length a + String.length b)%nat.
Proof. induction a as [|c a IH]; simpl; [reflexivity|]. rewrite IH. reflexivity. Qed.

Lemma str_prefix_app base rest : str_prefix (String.length base) (base +:+ rest) = base.
Proof.
  induction base as [|c base IH]; simpl.
  - destruct rest; reflexivity.
  - rewrite IH. reflexivity.
Qed.

Lemma slice_to_neg_app base suffix :
  slice_to_neg (base +:+ suffix) (String.length suffix) = base.
Proof.
  unfold slice_to_neg. rewrite str_length_app.
  replace (String.length base + String.length suffix - String.length suffix)%nat
    with (String.length base) by lia.
  apply str_prefix_app.
Qed.

(** The sidecar keeps the base name of the container. *)
Lemma json_name_Ok filename json_file :
  json_name filename = Ok json_file ->
  exists base,
    (filename = base +:+ ".tiff" \/ filename = base +:+ ".tif") /\
    json_file = base +:+ ".json".
Proof.
  unfold json_name. intros H.
  destruct (endswith filename ".tiff") eqn:E5.
  - destruct (endswith_inv _ _ E5) as [base ->]. exists base. split; [left; reflexivity|].
    injection H as <-. change 5%nat with (String.length ".tiff").
    rewrite slice_to_neg_app. reflexivity.
  - destruct (endswith filename ".tif") eqn:E4; [|discriminate].
    destruct (endswith_inv _ _ E4) as [base ->]. exists base. split; [right; reflexivity|].
    injection H as <-. change 4%nat with (String.length ".tif").
    rewrite slice_to_neg_app. reflexivity.
Qed.

Lemma json_name_tiff base : json_name (base +:+ ".tiff") = Ok (base +:+ ".json").
Proof.
  unfold json_name. rewrite endswith_app.
  change 5%nat with (String.length ".tiff"). rewrite slice_to_neg_app. reflexivity.
Qed.

Lemma json_name_other filename :
  endswith filename ".tiff" = false -> endswith filename ".tif" = false ->
  json_name filename = Raise ValueError.
Proof. intros H5 H4. unfold json_name. rewrite H5, H4. reflexivity. Qed.

Lemma digit_cases d : 0 <= d < 10 ->
  d = 0 \/ d = 1 \/ d = 2 \/ d = 3 \/ d = 4 \/ d = 5 \/ d = 6 \/ d = 7 \/ d = 8 \/ d = 9.
Proof. lia. Qed.

Lemma digit_char_is_digit d : 0 <= d < 10 -> is_digit (digit_char d) = true.
Proof.
  intros H. destruct (digit_cases d H) as [->|[->|[->|[->|[->|[->|[->|[->|[->| ->]]]]]]]]];
    reflexivity.
Qed.

Lemma digit_of_digit_char d : 0 <= d < 10 -> digit_of (digit_char d) = Some d.
Proof.
  intros H. destruct (digit_cases d H) as [->|[->|[->|[->|[->|[->|[->|[->|[->| ->]]]]]]]]];
    reflexivity.
Qed.

Lemma mod10_digit n : 0 <= n mod 10 < 10.
Proof. apply Z.mod_pos_bound. lia. Qed.

Lemma digits2_format n : String.length (digits2 n) = 2%nat /\ all_digits (digits2 n) = true.
Proof.
  split; [reflexivity|]. unfold digits2. simpl.
  rewrite !digit_char_is_digit by apply mod10_digit. reflexivity.
Qed.

Lemma digits4_format n : String.length (digits4 n) = 4%nat /\ all_digits (digits4 n) = true.
Proof.
  split; [reflexivity|]. unfold digits4, digits2. simpl.
  rewrite !digit_char_is_digit by apply mod10_digit. reflexivity.
Qed.

(** The digits read back as the number. *)
Lemma digits2_value n : 0 <= n < 100 -> parse_digits (digits2 n) 0 false = Some n.
Proof.
  intros H. unfold digits2. simpl.
  rewrite !digit_of_digit_char by apply mod10_digit. f_equal.
  rewrite (Z.mod_small (n / 10)) by (split; [apply Z.div_pos|apply Z.div_lt_upper_bound]; lia).
  pose proof (Z.div_mod n 10 ltac:(lia)). lia.
Qed.

Lemma digits4_value n : 0 <= n < 10000 -> parse_digits (digits4 n) 0 false = Some n.
Proof.
  intros H. unfold digits4, digits2. simpl.
  rewrite !digit_of_digit_char by apply mod10_digit. f_equal.
  pose proof (Z.div_mod n 10 ltac:(lia)).
  pose proof (Z.div_mod (n / 10) 10 ltac:(lia)).
  pose proof (Z.div_mod (n / 100) 10 ltac:(lia)).
  rewrite (Z.mod_small (n / 1000)) by (split; [apply Z.div_pos|apply Z.div_lt_upper_bound]; lia).
  pose proof (Z.div_mod (n / 1000) 10 ltac:(lia)) as H3.
  replace (n / 100) with (n / 10 / 10) in * by (rewrite Z.div_div by lia; reflexivity).
  replace (n / 1000) with (n / 10 / 10 / 10) in * by (rewrite !Z.div_div by lia; reflexivity).
  pose proof (Z.div_mod (n / 10 / 10) 10 ltac:(lia)).
  pose proof (mod10_digit n). pose proof (mod10_digit (n / 10)).
  pose proof (mod10_digit (n / 10 / 10)).
  assert (0 <= n / 10 / 10 / 10 < 10).
  { split; [repeat apply Z.div_pos; lia|].
    rewrite !Z.div_div by lia. apply Z.div_lt_upper_bound; lia. }
  lia.
Qed.

Lemma all_digits_app a b : all_digits (a +:+ b) = all_digits a && all_digits b.
Proof.
  induction a as [|c a IH]; simpl; [reflexivity|]. rewrite IH, andb_assoc. reflexivity.
Qed.

(** For a valid local time the date is eight digits, YYYYMMDD, and the time
    six, HHMMSS. *)
Lemma strftime_format now :
  valid_datetime now ->
  strftime_Ymd now = Ok (digits4 (year now) +:+ digits2 (month now) +:+ digits2 (day now)) /\
  strftime_HMS now = Ok (digits2 (hour now) +:+ digits2 (minute now) +:+ digits2 (second now)).
Proof.
  intros (Hy & _). unfold strftime_Ymd, strftime_HMS.
  destruct (Z.ltb_spec (year now) 1900); [lia|]. split; reflexivity.
Qed.

Lemma json_name_tif base : json_name (base +:+ ".tif") = Ok (base +:+ ".json").
Proof.
  assert (H5 : endswith (base +:+ ".tif") ".tiff" = false).
  { induction base as [|c base IH]; [reflexivity|].
    rewrite endswith_unfold. change (String c base +:+ ".tif") with (String c (base +:+ ".tif")).
    destruct (String.eqb_spec (String c (base +:+ ".tif")) ".tiff") as [E|_]; [|exact IH].
    exfalso. pose proof (f_equal String.length E) as HL. simpl in HL.
    rewrite str_length_app in HL. simpl in HL.
    destruct base; [|simpl in HL; lia]. simpl in E. discriminate. }
  unfold json_name. rewrite H5, endswith_app.
  change 4%nat with (String.length ".tif"). rewrite slice_to_neg_app. reflexivity.
Qed.

(** ** The metadata record *)

Lemma dict_get_Ok md k v : dict_get md k = Ok v <-> md !! k = Some v.
Proof.
  unfold dict_get. destruct (md !! k); split; intros H; inversion H; reflexivity.
Qed.


(** What a record that was built holds. *)
Lemma build_meta_Ok md now meta :
  build_meta md now = Ok meta ->
  exists ymd hms level_min level_max,
    strftime_Ymd now = Ok ymd /\ strftime_HMS now = Ok hms /\
    level_bound md 0 = Ok level_min /\ level_bound md 1 = Ok level_max /\
    dom meta = sidecar_fields /\
    meta !! "framerate" = md !! "framerate" /\
    meta !! "source" = Some (PyStr "AwesomeImager") /\
    meta !! "version" = md !! "version" /\
    meta !! "date" = Some (PyStr ymd) /\
    meta !! "time" = Some (PyStr hms) /\
    meta !! "stims" = md !! "stims" /\
    meta !! "level_min" = Some (PyInt level_min) /\
    meta !! "level_max" = Some (PyInt level_max).
Proof.
  unfold build_meta. intros H.
  destruct (strftime_Ymd now) as [ymd|] eqn:Eymd; cbn [bind] in H; [|discriminate].
  destruct (strftime_HMS now) as [hms|] eqn:Ehms; cbn [bind] in H; [|discriminate].
  destruct (dict_get md "framerate") as [fr|] eqn:Efr; cbn [bind] in H; [|discriminate].
  destruct (dict_get md "version") as [ver|] eqn:Ever; cbn [bind] in H; [|discriminate].
  destruct (dict_get md "stims") as [st|] eqn:Est; cbn [bind] in H; [|discriminate].
  destruct (dict_get md "levels") as [lv|] eqn:Elv; cbn [bind] in H; [|discriminate].
  destruct (py_getitem lv 0) as [l0|] eqn:El0; cbn [bind] in H; [|discriminate].
  destruct (py_int l0) as [lmin|] eqn:Emin; cbn [bind] in H; [|discriminate].
  destruct (py_getitem lv 1) as [l1|] eqn:El1; cbn [bind] in H; [|discriminate].
  destruct (py_int l1) as [lmax|] eqn:Emax; cbn [bind] in H; [|discriminate].
  injection H as <-.
  exists ymd, hms, lmin, lmax.
  apply dict_get_Ok in Efr, Ever, Est.
  split; [reflexivity|]. split; [reflexivity|].
  split; [unfold level_bound; rewrite Elv; cbn [bind]; rewrite El0; exact Emin|].
  split; [unfold level_bound; rewrite Elv; cbn [bind]; rewrite El1; exact Emax|].
  split; [unfold sidecar_fields; rewrite !dom_insert_L, dom_empty_L; set_solver|].
  rewrite Efr, Ever, Est.
  repeat (split; [reflexivity|]). reflexivity.
Qed.

Lemma has_key_dict_get md k :
  has_key md k = is_ok (dict_get md k).
Proof. unfold has_key, dict_get. destruct (md !! k); reflexivity. Qed.

(** At a valid local time the record is built exactly from complete
    metadata. *)
Lemma build_meta_complete md now :
  valid_datetime now ->
  is_ok (build_meta md now) = complete_metadata md.
Proof.
  intros Hnow. destruct (strftime_format now Hnow) as [Hymd Hhms].
  unfold build_meta, complete_metadata, level_bound.
  rewrite Hymd, Hhms, !has_key_dict_get. cbn [bind].
  destruct (dict_get md "framerate"); cbn [bind is_ok andb]; [|reflexivity].
  destruct (dict_get md "version"); cbn [bind is_ok andb]; [|reflexivity].
  destruct (dict_get md "stims"); cbn [bind is_ok andb]; [|reflexivity].
  destruct (dict_get md "levels") as [lv|]; cbn [bind is_ok andb]; [|reflexivity].
  destruct (py_getitem lv 0) as [l0|]; cbn [bind is_ok andb]; [|reflexivity].
  destruct (py_int l0); cbn [bind is_ok andb]; [|reflexivity].
  destruct (py_getitem lv 1) as [l1|]; cbn [bind is_ok andb]; [|reflexivity].
  destruct (py_int l1); reflexivity.
Qed.

Lemma json_name_is_ok filename : is_ok (json_name filename) = tiff_name filename.
Proof.
  unfold json_name, tiff_name.
  destruct (endswith filename ".tiff"); [reflexivity|].
  destruct (endswith filename ".tif"); reflexivity.
Qed.

(** Digits are ASCII: a string of digits decodes. *)
Lemma all_digits_utf8 s : all_digits s = true -> utf8_decodes s = true.
Proof.
  induction s as [|c s IH]; [reflexivity|]. cbn [all_digits]. intros H.
  apply andb_prop in H as [Hc Hs]. cbn [utf8_decodes]. cbv zeta.
  assert (Hb : (byte_of c <? 128) = true).
  { unfold is_digit, nat_of_ascii in Hc. apply andb_prop in Hc as [_ Hc].
    apply Nat.leb_le in Hc. unfold byte_of. apply Z.ltb_lt. lia. }
  rewrite Hb. exact (IH Hs).
Qed.

Lemma strftime_digits now ymd hms :
  strftime_Ymd now = Ok ymd -> strftime_HMS now = Ok hms ->
  all_digits ymd = true /\ all_digits hms = true.
Proof.
  unfold strftime_Ymd, strftime_HMS.
  destruct (year now <? 1900); [discriminate|]. intros [= <-] [= <-].
  rewrite !all_digits_app, (proj2 (digits4_format _)), !(proj2 (digits2_format _)).
  split; reflexivity.
Qed.

(** [json.dump] returns exactly when every key and value can be written,
    and raises nothing but the UnicodeDecodeError. *)
Lemma json_dump_Ok meta :
  is_ok (json_dump meta) = true <->
  forall k v, meta !! k = Some v -> utf8_decodes k = true /\ json_encodable v = true.
Proof.
  unfold json_dump.
  destruct (forallb (fun kv => utf8_decodes kv.1 && json_encodable kv.2) (map_to_list meta))
    eqn:E.
  - split; [|reflexivity]. intros _ k v Hkv.
    rewrite forallb_forall in E. apply andb_prop.
    apply (E (k, v)). apply list_elem_of_In, elem_of_map_to_list. exact Hkv.
  - split; [discriminate|]. intros H. exfalso.
    assert (E' : forallb (fun kv => utf8_decodes kv.1 && json_encodable kv.2)
                   (map_to_list meta) = true).
    { apply forallb_forall. intros [k v] Hin.
      apply list_elem_of_In, elem_of_map_to_list in Hin.
      destruct (H k v Hin) as [Hk Hv]. cbn [fst snd]. rewrite Hk, Hv. reflexivity. }
    congruence.
Qed.

Lemma json_dump_cases meta :
  json_dump meta = Ok tt \/ json_dump meta = Raise UnicodeDecodeError.
Proof. unfold json_dump. destruct (forallb _ _); [left|right]; reflexivity. Qed.

(** The record of [save_metadata] can be written exactly when the
    framerate, the version and the stims of the metadata can: its other
    values are digits, integers and a constant. *)
Lemma json_dump_record md now meta :
  build_meta md now = Ok meta ->
  is_ok (json_dump meta) = encodable_metadata md.
Proof.
  intros Hb.
  destruct (build_meta_Ok md now meta Hb)
    as (ymd & hms & lmin & lmax & Ey & Eh & _ & _ & Hdom & Hfr & Hsrc & Hver
        & Hdate & Htime & Hst & Hlmin & Hlmax).
  destruct (strftime_digits now ymd hms Ey Eh) as [Dy Dh].
  apply Bool.eq_true_iff_eq. rewrite json_dump_Ok. split.
  - intros H. unfold encodable_metadata, encodable_field.
    assert (Hf : forall k, meta !! k = md !! k ->
                 match md !! k with Some v => json_encodable v | None => true end = true).
    { intros k Hk. destruct (md !! k) as [v|] eqn:E; [|reflexivity].
      exact (proj2 (H k v Hk)). }
    rewrite (Hf "framerate" Hfr), (Hf "version" Hver), (Hf "stims" Hst). reflexivity.
  - intros He k v Hkv.
    unfold encodable_metadata, encodable_field in He.
    apply andb_prop in He as [He Hs]. apply andb_prop in He as [Hf Hv].
    assert (Hk : k ∈ dom meta) by (apply elem_of_dom; eauto).
    rewrite Hdom in Hk. unfold sidecar_fields in Hk.
    rewrite !elem_of_union, !elem_of_singleton in Hk.
    destruct Hk as [[[[[[[->| ->]| ->]| ->]| ->]| ->]| ->]| ->];
      (split; [reflexivity|]).
    + rewrite Hfr in Hkv. rewrite Hkv in Hf. exact Hf.
    + rewrite Hsrc in Hkv. injection Hkv as <-. reflexivity.
    + rewrite Hver in Hkv. rewrite Hkv in Hv. exact Hv.
    + rewrite Hdate in Hkv. injection Hkv as <-. exact (all_digits_utf8 ymd Dy).
    + rewrite Htime in Hkv. injection Hkv as <-. exact (all_digits_utf8 hms Dh).
    + rewrite Hst in Hkv. rewrite Hkv in Hs. exact Hs.
    + rewrite Hlmin in Hkv. injection Hkv as <-. reflexivity.
    + rewrite Hlmax in Hkv. injection Hkv as <-. reflexivity.
Qed.

(** [save_metadata] either opens the sidecar, writes the record and
    returns; or opens it and raises in [json.dump], the record broken off;
    or raises before it opens anything. *)
Lemma save_metadata_cases w now filename :
  (exists json_file meta,
      build_meta w.(metadata) now = Ok meta /\ json_name filename = Ok json_file /\
      json_dump meta = Ok tt /\
      save_metadata w now filename
      = ([EOpenJson json_file; EWriteJson json_file meta], Ok tt)) \/
  (exists json_file meta,
      build_meta w.(metadata) now = Ok meta /\ json_name filename = Ok json_file /\
      json_dump meta = Raise UnicodeDecodeError /\
      save_metadata w now filename
      = ([EOpenJson json_file; EWriteJsonPart json_file meta], Raise UnicodeDecodeError)) \/
  (exists e,
      (is_ok (build_meta w.(metadata) now) && is_ok (json_name filename) = false) /\
      save_metadata w now filename = ([], Raise e)).
Proof.
  unfold save_metadata.
  destruct (build_meta (metadata w) now) as [meta|e];
    [|right; right; exists e; split; reflexivity].
  destruct (json_name filename) as [j|e]; [|right; right; exists e; split; reflexivity].
  destruct (json_dump_cases meta) as [Hd|Hd]; rewrite Hd.
  - left. exists j, meta. split; [reflexivity|]. split; [reflexivity|].
    split; [exact Hd|reflexivity].
  - right; left. exists j, meta. split; [reflexivity|]. split; [reflexivity|].
    split; [exact Hd|reflexivity].
Qed.

(** At a valid local time [save_metadata] returns exactly for complete
    metadata that can be written and a [.tiff] or [.tif] name. *)
Lemma save_metadata_is_ok w now filename :
  valid_datetime now ->
  is_ok (save_metadata w now filename).2
  = complete_metadata w.(metadata) && tiff_name filename && encodable_metadata w.(metadata).
Proof.
  intros Hnow.
  rewrite <- (build_meta_complete _ _ Hnow), <- json_name_is_ok.
  pose proof (json_dump_record w.(metadata) now) as Hrec.
  unfold save_metadata.
  destruct (build_meta (metadata w) now) as [meta|e]; [|reflexivity].
  rewrite <- (Hrec meta eq_refl).
  destruct (json_name filename) as [j|e]; [|reflexivity].
  destruct (json_dump meta); reflexivity.
Qed.

(** C9: at a valid local time, when [save_metadata] returns it has opened
    one file, named after the container with [.json] in place of [.tiff] or
    [.tif], and written into it one record, which has exactly the fields
    framerate, source ('AwesomeImager'), version, date (eight digits: year,
    month, day), time (six digits: hour, minute, second), stims, level_min
    and level_max (both integers, read from the metadata's levels); it does
    return for complete metadata whose framerate, version and stims
    [json.dump] can write and a [.tiff] or [.tif] name; and for a name that
    ends in neither it raises and opens or writes nothing. *)
Theorem save_metadata_sidecar w now fname :
  valid_datetime now ->
  (forall evs, save_metadata w now fname = (evs, Ok tt) ->
     exists base meta level_min level_max,
       (fname = base +:+ ".tiff" \/ fname = base +:+ ".tif") /\
       evs = [EOpenJson (base +:+ ".json"); EWriteJson (base +:+ ".json") meta] /\
       dom meta = sidecar_fields /\
       meta !! "framerate" = w.(metadata) !! "framerate" /\
       meta !! "source" = Some (PyStr "AwesomeImager") /\
       meta !! "version" = w.(metadata) !! "version" /\
       meta !! "date"
       = Some (PyStr (digits4 (year now) +:+ digits2 (month now) +:+ digits2 (day now))) /\
       meta !! "time"
       = Some (PyStr (digits2 (hour now) +:+ digits2 (minute now) +:+ digits2 (second now))) /\
       meta !! "stims" = w.(metadata) !! "stims" /\
       meta !! "level_min" = Some (PyInt level_min) /\
       level_bound w.(metadata) 0 = Ok level_min /\
       meta !! "level_max" = Some (PyInt level_max) /\
       level_bound w.(metadata) 1 = Ok level_max) /\
  (String.length (digits4 (year now) +:+ digits2 (month now) +:+ digits2 (day now)) = 8%nat /\
   all_digits (digits4 (year now) +:+ digits2 (month now) +:+ digits2 (day now)) = true /\
   String.length (digits2 (hour now) +:+ digits2 (minute now) +:+ digits2 (second now)) = 6%nat /\
   all_digits (digits2 (hour now) +:+ digits2 (minute now) +:+ digits2 (second now)) = true) /\
  (complete_metadata w.(metadata) = true -> tiff_name fname = true ->
   encodable_metadata w.(metadata) = true ->
   exists json_file meta,
     save_metadata w now fname
     = ([EOpenJson json_file; EWriteJson json_file meta], Ok tt)) /\
  (endswith fname ".tiff" = false -> endswith fname ".tif" = false ->
   exists e, save_metadata w now fname = ([], Raise e)).
Proof.
  intros Hnow. destruct (strftime_format now Hnow) as [Hymd Hhms].
  split; [|split; [|split]].
  - intros evs Hrun.
    destruct (save_metadata_cases w now fname)
      as [(j & meta & Hm & Hj & _ & Hs)|[(j & meta & _ & _ & _ & Hs)|(e & _ & Hs)]];
      [|rewrite Hs in Hrun; discriminate..].
    rewrite Hs in Hrun. injection Hrun as <-.
    destruct (json_name_Ok fname j Hj) as (base & Hbase & ->).
    destruct (build_meta_Ok _ _ _ Hm)
      as (ymd & hms & lmin & lmax & Ey & Eh & Hmin & Hmax & Hdom & Hfr & Hsrc & Hver
          & Hdate & Htime & Hst & Hlmin & Hlmax).
    rewrite Hymd in Ey. injection Ey as <-. rewrite Hhms in Eh. injection Eh as <-.
    exists base, meta, lmin, lmax.
    repeat (split; [assumption || reflexivity|]). assumption.
  - repeat split.
    + rewrite !all_digits_app.
      rewrite (proj2 (digits4_format _)), !(proj2 (digits2_format _)). reflexivity.
    + rewrite !all_digits_app, !(proj2 (digits2_format _)). reflexivity.
  - intros Hc Ht He.
    pose proof (save_metadata_is_ok w now fname Hnow) as Hok.
    rewrite Hc, Ht, He in Hok.
    destruct (save_metadata_cases w now fname)
      as [(j & meta & _ & _ & _ & Hs)|[(j & meta & _ & _ & _ & Hs)|(e & _ & Hs)]];
      rewrite Hs in Hok; [|discriminate..].
    exists j, meta. exact Hs.
  - intros H5 H4.
    destruct (save_metadata_cases w now fname)
      as [(j & meta & _ & Hj & _)|[(j & meta & _ & Hj & _)|(e & _ & Hs)]].
    + rewrite (json_name_other fname H5 H4) in Hj. discriminate.
    + rewrite (json_name_other fname H5 H4) in Hj. discriminate.
    + exists e. exact Hs.
Qed.

Lemma save_metadata_sidecar_witness :
  valid_datetime sample_now /\
  complete_metadata sample_writer.(metadata) = true /\
  tiff_name "out.tiff" = true /\
  encodable_metadata sample_writer.(metadata) = true /\
  exists json_file meta,
    save_metadata sample_writer sample_now "out.tiff"
    = ([EOpenJson json_file; EWriteJson json_file meta], Ok tt).
Proof.
  assert (Hv : valid_datetime sample_now).
  { unfold valid_datetime, sample_now. simpl. lia. }
  split; [exact Hv|]. split; [reflexivity|]. split; [reflexivity|]. split; [reflexivity|].
  destruct (save_metadata_sidecar sample_writer sample_now "out.tiff" Hv) as (_ & _ & Hok & _).
  apply Hok; reflexivity.
Defined.

(** The sidecar of the sample session. *)
Example sample_sidecar :
  exists meta,
    save_metadata sample_writer sample_now "out.tiff"
    = ([EOpenJson "out.json"; EWriteJson "out.json" meta], Ok tt) /\
    dom meta = sidecar_fields /\
    meta !! "framerate" = Some (PyFloat 20%float) /\
    meta !! "date" = Some (PyStr "20180329") /\ meta !! "time" = Some (PyStr "090507") /\
    meta !! "level_min" = Some (PyInt 0) /\ meta !! "level_max" = Some (PyInt 65535).
Proof.
  eexists. split; [reflexivity|].
  split; [unfold sidecar_fields; rewrite !dom_insert_L, dom_empty_L; set_solver|].
  repeat split.
Qed.

(** ** Construction of a writer *)

Lemma BaseWriter_init_framerate fname cl lv (md : gmap string pyval) v :
  md !! "framerate" = Some v ->
  BaseWriter_init fname cl lv md = Ok (mk_writer fname cl lv md false).
Proof. intros H. unfold BaseWriter_init. rewrite H. reflexivity. Qed.

Lemma BaseWriter_init_exposure fname cl lv (md : gmap string pyval) e :
  md !! "framerate" = None -> md !! "exposure" = Some e ->
  BaseWriter_init fname cl lv md
  = do fr <- py_one_over e; Ok (mk_writer fname cl lv (<["framerate" := fr]> md) false).
Proof.
  intros Hf He. unfold BaseWriter_init. rewrite Hf, He.
  destruct (py_one_over e); reflexivity.
Qed.

Lemma BaseWriter_init_neither fname cl lv (md : gmap string pyval) :
  md !! "framerate" = None -> md !! "exposure" = None ->
  BaseWriter_init fname cl lv md
  = Raise (KeyError "Exposure or Framerate must be specified to save as metadata").
Proof. intros Hf He. unfold BaseWriter_init. rewrite Hf, He. reflexivity. Qed.

(** The exception of [1/v] is never a KeyError. *)
Lemma py_one_over_not_KeyError v msg : py_one_over v <> Raise (KeyError msg).
Proof.
  destruct v as [|b|z|f|s|l]; simpl; try discriminate.
  - destruct b; discriminate.
  - destruct (z =? 0); discriminate.
  - destruct (PrimFloat.eqb f 0); discriminate.
Qed.

(** C7 (counterexample): the metadata [{'exposure': 0}] has the key
    'exposure', and construction raises all the same: [1/0] is a
    ZeroDivisionError, which the [except KeyError] does not catch. *)
Lemma BaseWriter_init_exposure_zero_raises :
  ({[ "exposure" := PyInt 0 ]} : gmap string pyval) !! "exposure" = Some (PyInt 0) /\
  BaseWriter_init "out.tiff" 1 (0, 65535) {[ "exposure" := PyInt 0 ]}
  = Raise ZeroDivisionError.
Proof. split; reflexivity. Qed.

(** C7 (amended): construction raises the KeyError if and only if the
    metadata has neither 'framerate' nor 'exposure'. It raises at all if and
    only if 'framerate' is absent and either 'exposure' is absent too or
    [1/exposure] raises (a zero or a non-numeric exposure). With 'framerate'
    present the metadata is kept; with 'framerate' absent and a non-zero
    integer or float exposure, construction succeeds and the framerate is
    [1/exposure] in Python 2 arithmetic. *)
Theorem BaseWriter_init_raises_iff fname cl lv (md : gmap string pyval) :
  ((exists msg, BaseWriter_init fname cl lv md = Raise (KeyError msg))
   <-> md !! "framerate" = None /\ md !! "exposure" = None) /\
  (is_ok (BaseWriter_init fname cl lv md) = false
   <-> md !! "framerate" = None /\
       (md !! "exposure" = None \/
        exists e, md !! "exposure" = Some e /\ is_ok (py_one_over e) = false)) /\
  (forall v, md !! "framerate" = Some v ->
     BaseWriter_init fname cl lv md = Ok (mk_writer fname cl lv md false)) /\
  (forall z, md !! "framerate" = None -> md !! "exposure" = Some (PyInt z) -> z <> 0 ->
     BaseWriter_init fname cl lv md
     = Ok (mk_writer fname cl lv (<["framerate" := PyInt (1 / z)]> md) false)) /\
  (forall f, md !! "framerate" = None -> md !! "exposure" = Some (PyFloat f) ->
     PrimFloat.eqb f 0 = false ->
     BaseWriter_init fname cl lv md
     = Ok (mk_writer fname cl lv (<["framerate" := PyFloat (PrimFloat.div 1 f)]> md) false)).
Proof.
  split; [|split; [|split; [|split]]].
  - split.
    + intros [msg H]. destruct (md !! "framerate") as [v|] eqn:Hf.
      * rewrite (BaseWriter_init_framerate _ _ _ _ v Hf) in H. discriminate.
      * split; [reflexivity|]. destruct (md !! "exposure") as [e|] eqn:He; [|reflexivity].
        rewrite (BaseWriter_init_exposure _ _ _ _ e Hf He) in H.
        destruct (py_one_over e) as [fr|x] eqn:Ho; cbn [bind] in H; [discriminate|].
        exfalso. apply (py_one_over_not_KeyError e msg). congruence.
    + intros [Hf He]. eexists. apply BaseWriter_init_neither; assumption.
  - split.
    + intros H. destruct (md !! "framerate") as [v|] eqn:Hf.
      * rewrite (BaseWriter_init_framerate _ _ _ _ v Hf) in H. discriminate.
      * split; [reflexivity|]. destruct (md !! "exposure") as [e|] eqn:He; [|left; reflexivity].
        right. exists e. split; [reflexivity|].
        rewrite (BaseWriter_init_exposure _ _ _ _ e Hf He) in H.
        destruct (py_one_over e); [discriminate|reflexivity].
    + intros [Hf [He|(e & He & Ho)]].
      * rewrite BaseWriter_init_neither by assumption. reflexivity.
      * rewrite (BaseWriter_init_exposure _ _ _ _ e Hf He).
        destruct (py_one_over e); [discriminate|reflexivity].
  - intros v Hf. apply (BaseWriter_init_framerate _ _ _ _ v Hf).
  - intros z Hf He Hz. rewrite (BaseWriter_init_exposure _ _ _ _ _ Hf He). simpl.
    destruct (Z.eqb_spec z 0); [contradiction|reflexivity].
  - intros f Hf He Hz. rewrite (BaseWriter_init_exposure _ _ _ _ _ Hf He). simpl.
    rewrite Hz. reflexivity.
Qed.

#[warnings="-inexact-float"]
Lemma BaseWriter_init_raises_iff_witness :
  (sample_metadata !! "framerate" = None /\
   sample_metadata !! "exposure" = Some (PyFloat 0.05%float) /\
   PrimFloat.eqb 0.05%float 0 = false) /\
  BaseWriter_init "out.tiff" 1 (0, 65535) sample_metadata
  = Ok (mk_writer "out.tiff" 1 (0, 65535)
          (<["framerate" := PyFloat (PrimFloat.div 1 0.05%float)]> sample_metadata) false).
Proof.
  split; [repeat split|].
  destruct (BaseWriter_init_raises_iff "out.tiff" 1 (0, 65535) sample_metadata)
    as (_ & _ & _ & _ & Hfloat).
  apply Hfloat; reflexivity.
Defined.

(** C8: with an exposure of 0.05 (the double Python reads [0.05] as) and no
    framerate in the metadata, construction succeeds, the framerate it
    stores is exactly the double 20.0, and that is the framerate of every
    record [save_metadata] builds from the writer's metadata. *)
#[warnings="-inexact-float"]
Theorem framerate_of_exposure_0_05 fname cl lv (md : gmap string pyval) :
  md !! "framerate" = None ->
  md !! "exposure" = Some (PyFloat 0.05%float) ->
  exists w,
    BaseWriter_init fname cl lv md = Ok w /\
    w.(metadata) !! "framerate" = Some (PyFloat 20%float) /\
    (forall now meta, build_meta w.(metadata) now = Ok meta ->
       meta !! "framerate" = Some (PyFloat 20%float)).
Proof.
  intros Hf He. eexists. split.
  - rewrite (BaseWriter_init_exposure _ _ _ _ _ Hf He). reflexivity.
  - cbn [metadata]. split.
    + rewrite lookup_insert_eq. reflexivity.
    + intros now meta Hm.
      destruct (build_meta_Ok _ _ _ Hm) as (_ & _ & _ & _ & _ & _ & _ & _ & _ & Hfr & _).
      rewrite Hfr, lookup_insert_eq. reflexivity.
Qed.

#[warnings="-inexact-float"]
Lemma framerate_of_exposure_0_05_witness :
  sample_metadata !! "framerate" = None /\
  sample_metadata !! "exposure" = Some (PyFloat 0.05%float) /\
  exists w,
    BaseWriter_init "out.tiff" 1 (0, 65535) sample_metadata = Ok w /\
    w.(metadata) !! "framerate" = Some (PyFloat 20%float) /\
    (forall now meta, build_meta w.(metadata) now = Ok meta ->
       meta !! "framerate" = Some (PyFloat 20%float)).
Proof.
  split; [reflexivity|]. split; [reflexivity|].
  apply (framerate_of_exposure_0_05 "out.tiff" 1 (0, 65535) sample_metadata); reflexivity.
Defined.

(** ** The writer loop *)

Lemma write_frame_is_frame shape w a :
  is_frame shape a ->
  write_frame shape w a
  = ([EShow {| nd_dtype := nd_dtype a; nd_shape := [shape.1; shape.2]; nd_data := nd_data a |};
      ESave (converted shape w.(levels) a) w.(comp_lev); ETaskDone], Ok tt).
Proof.
  intros [Hsize Hdata]. unfold write_frame, np_reshape.
  rewrite Hsize, N.eqb_refl.
  rewrite convert_to_8bit_value_ok by exact Hdata. reflexivity.
Qed.

(** A frame of another size: [np.reshape] raises, nothing is shown or
    saved. *)
Lemma write_frame_wrong_size shape w a :
  nd_size a <> (shape.1 * shape.2)%N ->
  write_frame shape w a = ([], Raise ValueError).
Proof.
  intros Hsize. unfold write_frame, np_reshape.
  destruct (N.eqb_spec (nd_size a) (shape.1 * shape.2)); [contradiction|reflexivity].
Qed.

(** Up to ['done'] the loop takes the items one by one, in the order of the
    queue, and appends the conversion of each frame; it leaves what follows
    ['done'] on the queue. *)
Lemma writer_loop_until_done shape w pre post :
  Forall (goes_on shape) pre ->
  exists tr,
    writer_loop shape w (pre ++ Str "done" :: post) = (tr, Returned post) /\
    container tr = converted shape w.(levels) <$> frames_of pre /\
    gets tr = pre ++ [Str "done"] /\
    closes tr = 0%nat /\
    json_writes tr = [].
Proof.
  induction 1 as [|it pre Hit _ (tr & Hrun & Hc & Hg & Hcl & Hj)].
  - exists [EGet (Str "done")]. repeat split.
  - destruct it as [a|s]; cbn [goes_on] in Hit.
    + exists (EGet (Frame a)
                :: EShow {| nd_dtype := nd_dtype a; nd_shape := [shape.1; shape.2];
                            nd_data := nd_data a |}
                :: ESave (converted shape w.(levels) a) w.(comp_lev) :: ETaskDone :: tr).
      split; [|split; [|split; [|split]]].
      * change ((Frame a :: pre) ++ Str "done" :: post)
          with (Frame a :: (pre ++ Str "done" :: post)).
        cbn [writer_loop]. rewrite (write_frame_is_frame shape w a Hit), Hrun. reflexivity.
      * change (converted shape w.(levels) a :: container tr
                = converted shape w.(levels) <$> (a :: frames_of pre)).
        rewrite Hc. reflexivity.
      * change (Frame a :: gets tr = Frame a :: (pre ++ [Str "done"])).
        rewrite Hg. reflexivity.
      * exact Hcl.
      * exact Hj.
    + exists (EGet (Str s) :: tr).
      split; [|split; [|split; [|split]]].
      * change ((Str s :: pre) ++ Str "done" :: post)
          with (Str s :: (pre ++ Str "done" :: post)).
        cbn [writer_loop].
        destruct (String.eqb_spec s "done") as [E|_]; [contradiction|].
        rewrite Hrun. reflexivity.
      * exact Hc.
      * change (Str s :: gets tr = Str s :: (pre ++ [Str "done"])).
        rewrite Hg. reflexivity.
      * exact Hcl.
      * exact Hj.
Qed.

Lemma container_app tr1 tr2 : container (tr1 ++ tr2) = container tr1 ++ container tr2.
Proof. apply omap_app. Qed.

Lemma gets_app tr1 tr2 : gets (tr1 ++ tr2) = gets tr1 ++ gets tr2.
Proof. apply omap_app. Qed.

Lemma json_writes_app tr1 tr2 : json_writes (tr1 ++ tr2) = json_writes tr1 ++ json_writes tr2.
Proof. apply omap_app. Qed.

Lemma closes_app tr1 tr2 : closes (tr1 ++ tr2) = (closes tr1 + closes tr2)%nat.
Proof. unfold closes. rewrite omap_app, length_app. reflexivity. Qed.

(** The events of [save_metadata]: at most the one record written. *)
Lemma save_metadata_events w now fname :
  let (evs, r) := save_metadata w now fname in
  container evs = [] /\ gets evs = [] /\ closes evs = 0%nat /\
  match r with
  | Ok _ => exists json_file meta, json_writes evs = [(json_file, meta)]
  | Raise _ => json_writes evs = []
  end.
Proof.
  destruct (save_metadata_cases w now fname)
    as [(j & meta & _ & _ & _ & ->)|[(j & meta & _ & _ & _ & ->)|(e & _ & ->)]].
  - repeat split. exists j, meta. reflexivity.
  - repeat split.
  - repeat split.
Qed.

(** The whole of [run] on a queue that reaches ['done']. *)
Lemma WriterHamamatsu_run_until_done shape w now pre post :
  w.(write) = true ->
  Forall (goes_on shape) pre ->
  exists tr0,
    writer_loop shape w (pre ++ Str "done" :: post) = (tr0, Returned post) /\
    container tr0 = converted shape w.(levels) <$> frames_of pre /\
    gets tr0 = pre ++ [Str "done"] /\
    closes tr0 = 0%nat /\
    json_writes tr0 = [] /\
    WriterHamamatsu_run shape w now (pre ++ Str "done" :: post)
    = (tr0 ++ EClose :: (save_metadata w now w.(filename)).1,
       match (save_metadata w now w.(filename)).2 with
       | Ok _ => Returned post
       | Raise e => Raised e post
       end).
Proof.
  intros Hw Hpre.
  destruct (writer_loop_until_done shape w pre post Hpre) as (tr0 & Hrun & Hc & Hg & Hcl & Hj).
  exists tr0. repeat (split; [assumption|]).
  unfold WriterHamamatsu_run. rewrite Hw, Hrun.
  destruct (save_metadata w now (filename w)) as [evs [u|e]]; reflexivity.
Qed.

Lemma frames_of_Frame frames : frames_of (Frame <$> frames) = frames.
Proof. induction frames as [|a l IH]; [reflexivity|]. cbn. f_equal. exact IH. Qed.

Lemma goes_on_Frame shape frames :
  Forall (is_frame shape) frames -> Forall (goes_on shape) (Frame <$> frames).
Proof. intros H. apply Forall_fmap. exact H. Qed.

(** C1: a writer that was not stopped, on a queue of frames followed by
    ['done'], takes the frames in the order of the queue and appends to the
    container the conversion of each one, in that order: page [i] of the
    container is the conversion of frame [i], there are as many pages as
    frames, and the items taken from the queue are the frames and then
    ['done']. *)
Theorem writer_appends_frames_in_order shape w now frames post :
  w.(write) = true ->
  Forall (is_frame shape) frames ->
  exists tr o,
    WriterHamamatsu_run shape w now ((Frame <$> frames) ++ Str "done" :: post) = (tr, o) /\
    container tr = converted shape w.(levels) <$> frames /\
    length (container tr) = length frames /\
    (forall i a, frames !! i = Some a ->
       container tr !! i = Some (converted shape w.(levels) a)) /\
    gets tr = (Frame <$> frames) ++ [Str "done"] /\
    left_on_queue o = Some post.
Proof.
  intros Hw Hframes.
  destruct (WriterHamamatsu_run_until_done shape w now (Frame <$> frames) post Hw
              (goes_on_Frame shape frames Hframes))
    as (tr0 & _ & Hc & Hg & _ & _ & Hrun).
  rewrite frames_of_Frame in Hc.
  pose proof (save_metadata_events w now (filename w)) as Hev.
  destruct (save_metadata w now (filename w)) as [evs r]. cbn [fst snd] in Hrun.
  destruct Hev as (Hce & Hge & _ & _).
  assert (Hcont : container (tr0 ++ EClose :: evs) = converted shape w.(levels) <$> frames).
  { rewrite container_app. change (container (EClose :: evs)) with (container evs).
    rewrite Hce, app_nil_r. exact Hc. }
  eexists _, _. split; [exact Hrun|]. split; [exact Hcont|]. split; [|split; [|split]].
  - rewrite Hcont, length_fmap. reflexivity.
  - intros i a Hi. rewrite Hcont, list_lookup_fmap, Hi. reflexivity.
  - rewrite gets_app. change (gets (EClose :: evs)) with (gets evs).
    rewrite Hge, app_nil_r. exact Hg.
  - destruct r; reflexivity.
Qed.

Lemma writer_appends_frames_in_order_witness :
  sample_writer.(write) = true /\
  Forall (is_frame (2, 2)%N) [sample_frame1; sample_frame2] /\
  exists tr o,
    WriterHamamatsu_run (2, 2)%N sample_writer sample_now
      ((Frame <$> [sample_frame1; sample_frame2]) ++ Str "done" :: []) = (tr, o) /\
    container tr = converted (2, 2)%N sample_writer.(levels) <$> [sample_frame1; sample_frame2] /\
    length (container tr) = length [sample_frame1; sample_frame2] /\
    (forall i a, [sample_frame1; sample_frame2] !! i = Some a ->
       container tr !! i = Some (converted (2, 2)%N sample_writer.(levels) a)) /\
    gets tr = (Frame <$> [sample_frame1; sample_frame2]) ++ [Str "done"] /\
    left_on_queue o = Some [].
Proof.
  split; [reflexivity|]. split; [repeat constructor; simpl; lia|].
  apply (writer_appends_frames_in_order (2, 2)%N sample_writer sample_now
           [sample_frame1; sample_frame2] []).
  - reflexivity.
  - repeat constructor; simpl; lia.
Defined.

Lemma json_opens_app tr1 tr2 : json_opens (tr1 ++ tr2) = json_opens tr1 ++ json_opens tr2.
Proof. apply omap_app. Qed.

Lemma json_parts_app tr1 tr2 : json_parts (tr1 ++ tr2) = json_parts tr1 ++ json_parts tr2.
Proof. apply omap_app. Qed.

(** The loop makes loop events only: it never closes the container and
    never touches the sidecar. *)
Lemma writer_loop_events shape w q : Forall loop_event (writer_loop shape w q).1.
Proof.
  induction q as [|[a|s] q IH]; [constructor| |].
  - cbn [writer_loop]. unfold write_frame.
    destruct (np_reshape a shape) as [img|e]; [|repeat constructor].
    destruct (convert_to_8bit_value (levels w) img) as [img8|e]; [|repeat constructor].
    destruct (writer_loop shape w q) as [tr o]. cbn [fst] in *.
    repeat (constructor; [exact I|]). exact IH.
  - cbn [writer_loop]. destruct (String.eqb s "done"); [repeat constructor|].
    destruct (writer_loop shape w q) as [tr o]. cbn [fst] in *.
    constructor; [exact I|exact IH].
Qed.

Lemma loop_events_no_sidecar tr :
  Forall loop_event tr ->
  closes tr = 0%nat /\ json_writes tr = [] /\ json_opens tr = [] /\ json_parts tr = [].
Proof.
  induction 1 as [|e tr He _ IH]; [repeat split|].
  destruct e; cbn [loop_event] in He; try contradiction; exact IH.
Qed.

(** C2 (counterexample): a writer whose metadata has no 'version' takes
    ['done'], closes the container, and [save_metadata] raises the KeyError:
    no metadata record is written. *)
Lemma done_without_version_writes_no_metadata :
  WriterHamamatsu_init "out.tiff" 1 (0, 65535) {[ "framerate" := PyFloat 20%float ]}
  = Ok bare_writer /\
  WriterHamamatsu_run hamamatsu_shape bare_writer sample_now [Str "done"]
  = ([EGet (Str "done"); EClose], Raised (KeyError "version") []) /\
  json_writes [EGet (Str "done"); EClose] = [].
Proof. repeat split. Qed.

(** C2 (amended): when a writer that was not stopped takes ['done'], after
    any frames it can take and any other strings, it takes nothing more
    from the queue (the items it took are those up to ['done'], what
    follows is left), closes the container exactly once and then calls
    [save_metadata] exactly once: the events of the run are those of the
    loop (no close, nothing on the sidecar), the close, and those of
    [save_metadata]. When [save_metadata] returns, the sidecar was opened
    once and the record written once, and [run] returns. When it raises,
    the exception leaves [run] and no record is written: either the sidecar
    was not opened at all (the record could not be built, or the name is
    not a tiff name), or [json.dump] raised the UnicodeDecodeError and the
    sidecar, opened once, holds the record broken off. At a valid local
    time [save_metadata] returns exactly for complete metadata whose
    framerate, version and stims [json.dump] can write and a [.tiff] or
    [.tif] name. *)
Theorem done_is_terminal shape w now pre post :
  w.(write) = true ->
  Forall (goes_on shape) pre ->
  exists tr0 tr o,
    WriterHamamatsu_run shape w now (pre ++ Str "done" :: post) = (tr, o) /\
    tr = tr0 ++ EClose :: (save_metadata w now w.(filename)).1 /\
    closes tr0 = 0%nat /\ json_writes tr0 = [] /\
    json_opens tr0 = [] /\ json_parts tr0 = [] /\
    gets tr = pre ++ [Str "done"] /\
    left_on_queue o = Some post /\
    closes tr = 1%nat /\
    match (save_metadata w now w.(filename)).2 with
    | Ok _ =>
        length (json_writes tr) = 1%nat /\ length (json_opens tr) = 1%nat /\
        json_parts tr = [] /\ o = Returned post
    | Raise e =>
        json_writes tr = [] /\ o = Raised e post /\
        ((json_opens tr = [] /\ json_parts tr = [] /\
          is_ok (build_meta w.(metadata) now) && is_ok (json_name w.(filename)) = false) \/
         (e = UnicodeDecodeError /\
          exists json_file meta,
            build_meta w.(metadata) now = Ok meta /\
            json_name w.(filename) = Ok json_file /\
            json_dump meta = Raise UnicodeDecodeError /\
            json_opens tr = [json_file] /\ json_parts tr = [(json_file, meta)]))
    end /\
    (valid_datetime now ->
     is_ok (save_metadata w now w.(filename)).2
     = complete_metadata w.(metadata) && tiff_name w.(filename)
       && encodable_metadata w.(metadata)).
Proof.
  intros Hw Hpre.
  destruct (WriterHamamatsu_run_until_done shape w now pre post Hw Hpre)
    as (tr0 & Hloop & _ & Hg & Hcl & Hj & Hrun).
  pose proof (writer_loop_events shape w (pre ++ Str "done" :: post)) as Hev.
  rewrite Hloop in Hev. cbn [fst] in Hev.
  destruct (loop_events_no_sidecar tr0 Hev) as (_ & _ & Hjo & Hjp).
  pose proof (save_metadata_is_ok w now (filename w)) as Hok.
  exists tr0. eexists _, _. split; [exact Hrun|]. split; [reflexivity|].
  split; [exact Hcl|]. split; [exact Hj|]. split; [exact Hjo|]. split; [exact Hjp|].
  rewrite gets_app, closes_app, json_writes_app, json_opens_app, json_parts_app.
  rewrite Hg, Hcl, Hj, Hjo, Hjp. cbn [app].
  destruct (save_metadata_cases w now (filename w))
    as [(j & meta & Hm & Hn & Hd & Hs)|[(j & meta & Hm & Hn & Hd & Hs)|(e & Hno & Hs)]];
    rewrite Hs in *; cbn [fst snd].
  - split; [rewrite app_nil_r; reflexivity|]. split; [reflexivity|]. split; [reflexivity|].
    split; [|exact Hok]. repeat split.
  - split; [rewrite app_nil_r; reflexivity|]. split; [reflexivity|]. split; [reflexivity|].
    split; [|exact Hok]. split; [reflexivity|]. split; [reflexivity|].
    right. split; [reflexivity|]. exists j, meta.
    split; [exact Hm|]. split; [exact Hn|]. split; [exact Hd|]. split; reflexivity.
  - split; [rewrite app_nil_r; reflexivity|]. split; [reflexivity|]. split; [reflexivity|].
    split; [|exact Hok]. split; [reflexivity|]. split; [reflexivity|].
    left. split; [reflexivity|]. split; [reflexivity|exact Hno].
Qed.

Lemma done_is_terminal_witness :
  sample_writer.(write) = true /\
  Forall (goes_on (2, 2)%N) [Frame sample_frame1; Str "hello"; Frame sample_frame2] /\
  exists tr0 tr o,
    WriterHamamatsu_run (2, 2)%N sample_writer sample_now
      ([Frame sample_frame1; Str "hello"; Frame sample_frame2]
         ++ Str "done" :: [Frame sample_frame1]) = (tr, o) /\
    tr = tr0 ++ EClose :: (save_metadata sample_writer sample_now sample_writer.(filename)).1 /\
    gets tr = [Frame sample_frame1; Str "hello"; Frame sample_frame2] ++ [Str "done"] /\
    left_on_queue o = Some [Frame sample_frame1] /\
    closes tr = 1%nat /\
    length (json_writes tr) = 1%nat /\ length (json_opens tr) = 1%nat /\
    o = Returned [Frame sample_frame1].
Proof.
  assert (Hpre : Forall (goes_on (2, 2)%N)
                   [Frame sample_frame1; Str "hello"; Frame sample_frame2]).
  { repeat constructor; simpl; try lia. discriminate. }
  split; [reflexivity|]. split; [exact Hpre|].
  destruct (done_is_terminal (2, 2)%N sample_writer sample_now
              [Frame sample_frame1; Str "hello"; Frame sample_frame2] [Frame sample_frame1]
              eq_refl Hpre)
    as (tr0 & tr & o & Hrun & Htr & _ & _ & _ & _ & Hg & Hl & Hc & Hm & _).
  exists tr0, tr, o.
  split; [exact Hrun|]. split; [exact Htr|]. split; [exact Hg|]. split; [exact Hl|].
  split; [exact Hc|].
  change (save_metadata sample_writer sample_now (filename sample_writer)).2
    with (Ok tt : result unit) in Hm.
  destruct Hm as (Hjw & Hjo & _ & Ho).
  split; [exact Hjw|]. split; [exact Hjo|exact Ho].
Defined.

(** A version that is no UTF-8: the record is built, the sidecar is opened
    after the close, and [json.dump] raises with the record broken off. *)
Example undecodable_version_breaks_off_sidecar :
  exists meta,
    build_meta undecodable_writer.(metadata) sample_now = Ok meta /\
    WriterHamamatsu_run hamamatsu_shape undecodable_writer sample_now [Str "done"]
    = ([EGet (Str "done"); EClose; EOpenJson "out.json"; EWriteJsonPart "out.json" meta],
       Raised UnicodeDecodeError []).
Proof. eexists. split; reflexivity. Qed.

(** ** The acquisition loop, and the two loops together *)

(** A pass that fails is skipped: the loop puts the frames of the other
    passes on the queue, in order, and [run] puts ['done'] after them. *)
Lemma AcquireHamamatsu_run_skips_failures passes :
  Forall not_interrupted passes ->
  AcquireHamamatsu_run passes = ((Frame <$> got_frames passes) ++ [Str "done"], Ok tt) /\
  (length (got_frames passes) + failures passes = length passes)%nat.
Proof.
  intros H.
  assert (Hloop : acquire_loop passes = (Frame <$> got_frames passes, None) /\
                  (length (got_frames passes) + failures passes = length passes)%nat).
  { induction H as [|p passes Hp _ [IH1 IH2]]; [split; reflexivity|].
    destruct p as [a|e|]; cbn [not_interrupted] in Hp; [| |contradiction].
    - cbn [acquire_loop]. rewrite IH1. split; [reflexivity|].
      change (S (length (got_frames passes)) + failures passes = S (length passes))%nat. lia.
    - cbn [acquire_loop]. rewrite IH1. split; [reflexivity|].
      change (length (got_frames passes) + S (failures passes) = S (length passes))%nat. lia. }
  destruct Hloop as [Hloop Hlen]. split; [|exact Hlen].
  unfold AcquireHamamatsu_run. rewrite Hloop. reflexivity.
Qed.

(** X12: acquisition failures do not stop the session: when every frame the
    camera delivers is one the writer can take, the writer appends the
    conversion of each, and the number of pages is the number of passes
    less the failed ones. *)
Lemma acquisition_failures_are_skipped shape w now passes :
  w.(write) = true ->
  Forall not_interrupted passes ->
  Forall (is_frame shape) (got_frames passes) ->
  exists tr o,
    WriterHamamatsu_run shape w now (AcquireHamamatsu_run passes).1 = (tr, o) /\
    container tr = converted shape w.(levels) <$> got_frames passes /\
    length (container tr) = (length passes - failures passes)%nat /\
    closes tr = 1%nat.
Proof.
  intros Hw Hni Hfr.
  destruct (AcquireHamamatsu_run_skips_failures passes Hni) as [-> Hlen]. cbn [fst].
  destruct (WriterHamamatsu_run_until_done shape w now (Frame <$> got_frames passes) []
              Hw (goes_on_Frame _ _ Hfr))
    as (tr0 & _ & Hc & _ & Hcl & _ & Hrun).
  rewrite frames_of_Frame in Hc.
  pose proof (save_metadata_events w now (filename w)) as Hev.
  destruct (save_metadata w now (filename w)) as [evs r]. cbn [fst snd] in Hrun.
  destruct Hev as (Hce & _ & Hcle & _).
  eexists _, _. split; [exact Hrun|].
  rewrite container_app, closes_app.
  change (container (EClose :: evs)) with (container evs).
  change (closes (EClose :: evs)) with (S (closes evs)).
  rewrite Hce, Hcle, Hcl, app_nil_r, Hc, length_fmap.
  split; [reflexivity|]. split; [lia|reflexivity].
Qed.

(** C5 (the code at the failing input): with the frame shape of the source,
    a frame of three samples makes [np.reshape] raise a ValueError, which
    the writer's only handler ([except KeyboardInterrupt]) does not catch:
    the exception leaves [run] at once. Nothing is appended, the frames
    behind it stay on the queue, the container is not closed and no
    metadata is written. *)
Theorem malformed_frame_aborts_writer rest :
  WriterHamamatsu_run hamamatsu_shape sample_writer sample_now (Frame short_frame :: rest)
  = ([EGet (Frame short_frame)], Raised ValueError rest) /\
  container [EGet (Frame short_frame)] = [] /\
  closes [EGet (Frame short_frame)] = 0%nat /\
  json_writes [EGet (Frame short_frame)] = [].
Proof. repeat split. Qed.

(** ** Metadata that lacks a field *)

Lemma WriterHamamatsu_init_framerate fname cl lv (md : gmap string pyval) v :
  md !! "framerate" = Some v ->
  WriterHamamatsu_init fname cl lv md = Ok (mk_writer fname cl lv md true).
Proof.
  intros H. unfold WriterHamamatsu_init.
  rewrite (BaseWriter_init_framerate fname cl lv md v H). reflexivity.
Qed.






(** ** The sample session, run *)

(** [_lut_8bit] called on a frame itself would overwrite it: after the call
    the frame holds the table values, as uint16. *)
Example _lut_8bit_overwrites_its_argument :
  exists r h',
    _lut_8bit (0, 65535) 1%positive {[ 1%positive := sample_frame1 ]} = (Ok r, h') /\
    h' !! 1%positive = Some (mk_ndarray uint16 [4%N] [0; 0; 1; 255]) /\
    h' !! r = Some (mk_ndarray uint8 [4%N] [0; 0; 1; 255]).
Proof.
  destruct (_lut_8bit_spec (0, 65535) {[ 1%positive := sample_frame1 ]} 1%positive
              sample_frame1 (lookup_singleton_eq _ _))
    as (r & h' & Hrun & _ & Harg & Hres & _).
  exists r, h'. split; [exact Hrun|]. split; [exact Harg|exact Hres].
Qed.

(** The producer skips a failed pass, and the writer appends the two frames
    it gets, in the order they were acquired. *)
Example sample_session :
  exists tr,
    WriterHamamatsu_run (2, 2)%N sample_writer sample_now
      (AcquireHamamatsu_run [Got sample_frame1; Failed ValueError; Got sample_frame2]).1
    = (tr, Returned []) /\
    container tr = [mk_ndarray uint8 [2%N; 2%N] [0; 0; 1; 255];
                    mk_ndarray uint8 [2%N; 2%N] [2; 4; 8; 16]] /\
    closes tr = 1%nat /\
    length (json_writes tr) = 1%nat.
Proof.
  assert (Hf : Forall (goes_on (2, 2)%N) [Frame sample_frame1; Frame sample_frame2]).
  { repeat constructor; simpl; lia. }
  destruct (WriterHamamatsu_run_until_done (2, 2)%N sample_writer sample_now
              [Frame sample_frame1; Frame sample_frame2] [] eq_refl Hf)
    as (tr0 & _ & Hc & _ & Hcl & Hj & Hrun).
  eexists. split; [exact Hrun|].
  rewrite container_app, closes_app, json_writes_app, Hc, Hcl, Hj.
  repeat split.
Qed.

(** * Further properties of the source *)

(** ** The lookup table over all windows *)

(** X1: for a window [lo < hi] of sample values, the table of [_lut_8bit] is
    what a level window asks for (non-decreasing, 0 up to [lo], 255 from
    [hi] on) if and only if the width [hi - lo + 1] is a multiple of 256. *)
Theorem lut_8bit_meets_contract_iff_aligned lo hi :
  0 <= lo -> lo < hi -> hi < 65536 ->
  ((forall x y, x <= y -> lut_entry (lo, hi) x <= lut_entry (lo, hi) y) /\
   (forall x, x <= lo -> lut_entry (lo, hi) x = 0) /\
   (forall x, hi <= x -> lut_entry (lo, hi) x = 255))
  <-> (hi - lo + 1) mod 256 = 0.
Proof.
  intros Hlo Hlt Hhi. split.
  - intros (_ & _ & Hhigh).
    apply (lut_entry_high_255_iff_aligned lo hi); [lia|lia|lia|].
    apply Hhigh. lia.
  - intros Hmod.
    pose proof (Z.div_mod (hi - lo + 1) 256 ltac:(lia)) as Hw.
    rewrite Hmod, Z.add_0_r in Hw.
    apply (lut_entry_aligned_window lo hi ((hi - lo + 1) / 256)); lia.
Qed.

Lemma lut_8bit_meets_contract_iff_aligned_witness :
  ((forall x y, x <= y -> lut_entry (100, 611) x <= lut_entry (100, 611) y) /\
   (forall x, x <= 100 -> lut_entry (100, 611) x = 0) /\
   (forall x, 611 <= x -> lut_entry (100, 611) x = 255))
  <-> (611 - 100 + 1) mod 256 = 0.
Proof. apply (lut_8bit_meets_contract_iff_aligned 100 611); lia. Defined.

(** X2: the table of a window of sample values is non-decreasing over the
    16-bit samples exactly when the width of the window is a multiple of 256
    or less than 256 (then the table is 0 everywhere); for any other width
    it climbs to 255 and falls back to 0 inside the window. *)
Theorem lut_non_decreasing_iff lo hi :
  0 <= lo -> lo <= hi -> hi < 65536 ->
  non_decreasing (lo, hi) <-> ((hi - lo + 1) mod 256 = 0 \/ hi - lo + 1 < 256).
Proof.
  intros Hlo Hle Hhi.
  pose proof (Z.div_mod (hi - lo + 1) 256 ltac:(lia)) as Hw.
  pose proof (Z.mod_pos_bound (hi - lo + 1) 256 ltac:(lia)) as Hr.
  assert (Hd : 0 <= (hi - lo + 1) / 256) by (apply Z.div_pos; lia).
  split.
  - intros Hmono.
    destruct (Z.eq_dec ((hi - lo + 1) mod 256) 0) as [H0|Hr0]; [left; exact H0|].
    destruct (Z_lt_dec (hi - lo + 1) 256) as [Hn|Hwide]; [right; exact Hn|].
    exfalso.
    set (d := (hi - lo + 1) / 256) in *. set (r := (hi - lo + 1) mod 256) in *.
    assert (Hd1 : 1 <= d) by nia.
    assert (Hdiv : lut_divisor (lo, hi) = d) by reflexivity.
    specialize (Hmono (lo + 255 * d) (lo + 256 * d) ltac:(nia) ltac:(nia) ltac:(nia)).
    rewrite !lut_entry_unfold in Hmono by lia.
    unfold np_clip in Hmono.
    rewrite (Z.max_l (lo + 255 * d) lo), (Z.min_l (lo + 255 * d) hi) in Hmono by nia.
    rewrite (Z.max_l (lo + 256 * d) lo), (Z.min_l (lo + 256 * d) hi) in Hmono by nia.
    rewrite Hdiv in Hmono. unfold np_floor_divide in Hmono.
    destruct (Z.eqb_spec d 0); [lia|].
    replace (lo + 255 * d - lo) with (255 * d) in Hmono by lia.
    replace (lo + 256 * d - lo) with (256 * d) in Hmono by lia.
    rewrite !Z.div_mul in Hmono by lia.
    revert Hmono. vm_compute. intros H. apply H. reflexivity.
  - intros [Hmod|Hnarrow] x y Hx Hxy Hy.
    + rewrite Hmod, Z.add_0_r in Hw.
      destruct (Z.eq_dec ((hi - lo + 1) / 256) 0) as [Hz|Hnz].
      * rewrite !lut_entry_narrow_window by lia. lia.
      * destruct (lut_entry_aligned_window lo hi ((hi - lo + 1) / 256)
                    ltac:(lia) ltac:(lia) ltac:(lia) ltac:(lia)) as [Hm _].
        apply Hm. exact Hxy.
    + rewrite !lut_entry_narrow_window by lia. lia.
Qed.

Lemma lut_non_decreasing_iff_witness :
  non_decreasing (0, 300) <-> ((300 - 0 + 1) mod 256 = 0 \/ 300 - 0 + 1 < 256).
Proof. apply (lut_non_decreasing_iff 0 300); lia. Defined.

(** X3: with the default window [(0, 65535)] the conversion of a frame of
    16-bit samples keeps the high byte of every sample. *)
Theorem convert_default_window_high_byte image :
  Forall (in_dtype uint16) (nd_data image) ->
  convert_to_8bit_value (0, 65535) image
  = Ok {| nd_dtype := uint8; nd_shape := nd_shape image;
          nd_data := (fun x => Z.shiftr x 8) <$> nd_data image |}.
Proof.
  intros H. rewrite convert_to_8bit_value_ok by exact H. do 2 f_equal.
  apply Forall_fmap_ext_1. eapply Forall_impl; [exact H|].
  intros x Hx. cbn beta. rewrite lut_entry_default by exact Hx.
  rewrite Z.shiftr_div_pow2 by lia. reflexivity.
Qed.

Lemma convert_default_window_high_byte_witness :
  Forall (in_dtype uint16) (nd_data sample_frame1) /\
  convert_to_8bit_value (0, 65535) sample_frame1
  = Ok (mk_ndarray uint8 [4%N] [0; 0; 1; 255]).
Proof.
  assert (H : Forall (in_dtype uint16) (nd_data sample_frame1)).
  { repeat constructor; simpl; lia. }
  split; [exact H|]. exact (convert_default_window_high_byte sample_frame1 H).
Defined.

(** X4: [_lut_8bit] works in place: the array it is given is overwritten
    with the scaled values (in the array's own dtype), the array it returns
    is a new one, uint8, with those values cast, and no other array of the
    store changes. *)
Theorem _lut_8bit_overwrites_argument levels (h : gmap positive ndarray) l a :
  h !! l = Some a ->
  exists r h',
    _lut_8bit levels l h = (Ok r, h') /\
    h !! r = None /\ r <> l /\
    h' !! l = Some (after_lut_inplace levels a) /\
    h' !! r = Some {| nd_dtype := uint8; nd_shape := nd_shape a;
                      nd_data := wrap uint8 <$> nd_data (after_lut_inplace levels a) |} /\
    (forall l', l' <> l -> l' <> r -> h' !! l' = h !! l').
Proof.
  intros H.
  destruct (_lut_8bit_spec levels h l a H) as (r & h' & Hrun & Hr & Hl & Hres & Hother).
  exists r, h'. split; [exact Hrun|]. split; [exact Hr|]. split.
  - intros ->. rewrite H in Hr. discriminate.
  - split; [exact Hl|]. split; [exact Hres|exact Hother].
Qed.

Lemma _lut_8bit_overwrites_argument_witness :
  exists r h',
    _lut_8bit (0, 65535) 1%positive {[ 1%positive := sample_frame1 ]} = (Ok r, h') /\
    h' !! 1%positive = Some (mk_ndarray uint16 [4%N] [0; 0; 1; 255]).
Proof.
  destruct (_lut_8bit_overwrites_argument (0, 65535) {[ 1%positive := sample_frame1 ]}
              1%positive sample_frame1 (lookup_singleton_eq _ _))
    as (r & h' & Hrun & _ & _ & Harg & _).
  exists r, h'. split; [exact Hrun|exact Harg].
Defined.

(** ** The writer loop on any queue *)

Lemma take_data_length table indices d :
  take_data table indices = Some d -> length d = length indices.
Proof. intros H. symmetry. exact (length_mapM _ _ _ H). Qed.

(** What one frame adds to the events: a page, or nothing at all. *)
Lemma write_frame_cases shape w a :
  (exists img img8,
      write_frame shape w a = ([EShow img; ESave img8 w.(comp_lev); ETaskDone], Ok tt) /\
      is_page shape img8) \/
  (exists evs e, write_frame shape w a = (evs, Raise e) /\
                 (evs = [] \/ exists img, evs = [EShow img])).
Proof.
  unfold write_frame, np_reshape.
  destruct (N.eqb_spec (nd_size a) (shape.1 * shape.2)) as [Hsize|_];
    [|right; exists [], ValueError; split; [reflexivity|left; reflexivity]].
  unfold convert_to_8bit_value. cbn [nd_data nd_shape].
  destruct (take_data (lut_table (levels w)) (nd_data a)) as [d|] eqn:Hd.
  - left. eexists _, _. split; [reflexivity|].
    split; [reflexivity|]. split; [reflexivity|]. split.
    + unfold nd_size. cbn [nd_data]. rewrite length_fmap, (take_data_length _ _ _ Hd).
      exact Hsize.
    + cbn [nd_data]. apply Forall_fmap, Forall_true. intros x. apply wrap_in_dtype.
  - right. eexists _, IndexError. split; [reflexivity|]. right. eexists. reflexivity.
Qed.

(** The loop takes the items in the order of the queue and loses none; it
    appends pages only, at most one per frame taken; it neither closes the
    container nor writes a sidecar; and it returns only on ['done'], with a
    page for every frame it took. *)
Lemma writer_loop_invariants shape w q :
  gets (writer_loop shape w q).1
  ++ default [] (left_on_queue (writer_loop shape w q).2) = q /\
  Forall (is_page shape) (container (writer_loop shape w q).1) /\
  (length (container (writer_loop shape w q).1)
   <= length (frames_of (gets (writer_loop shape w q).1)))%nat /\
  closes (writer_loop shape w q).1 = 0%nat /\
  json_writes (writer_loop shape w q).1 = [] /\
  (forall rest, (writer_loop shape w q).2 = Returned rest ->
     exists pre, gets (writer_loop shape w q).1 = pre ++ [Str "done"] /\
                 length (container (writer_loop shape w q).1) = length (frames_of pre)).
Proof.
  induction q as [|it q (IHg & IHp & IHl & IHc & IHj & IHd)].
  - cbn. split; [reflexivity|]. split; [constructor|]. split; [lia|].
    split; [reflexivity|]. split; [reflexivity|]. intros rest H. discriminate.
  - destruct it as [a|s]; cbn [writer_loop].
    + destruct (write_frame_cases shape w a)
        as [(img & img8 & -> & Hpage)|(evs & e & -> & Hevs)].
      * destruct (writer_loop shape w q) as [tr o]. cbn [fst snd] in *.
        change (gets (EGet (Frame a) :: [EShow img; ESave img8 (comp_lev w); ETaskDone] ++ tr))
          with (Frame a :: gets tr).
        change (container (EGet (Frame a) :: [EShow img; ESave img8 (comp_lev w); ETaskDone] ++ tr))
          with (img8 :: container tr).
        split; [cbn [app]; rewrite IHg; reflexivity|].
        split; [constructor; assumption|].
        change (frames_of (Frame a :: gets tr)) with (a :: frames_of (gets tr)).
        split; [cbn [length]; lia|]. split; [exact IHc|]. split; [exact IHj|].
        intros rest Hr. destruct (IHd rest Hr) as (pre & Hpre & Hlen).
        exists (Frame a :: pre). rewrite Hpre. split; [reflexivity|].
        change (frames_of (Frame a :: pre)) with (a :: frames_of pre).
        cbn [length]. lia.
      * cbn [fst snd left_on_queue default].
        destruct Hevs as [->|[img ->]];
          (split; [reflexivity|]; split; [constructor|]; split; [cbn; lia|];
           split; [reflexivity|]; split; [reflexivity|]; intros rest H; discriminate).
    + destruct (String.eqb_spec s "done") as [->|Hs].
      * cbn [fst snd left_on_queue default].
        split; [reflexivity|]. split; [constructor|]. split; [cbn; lia|].
        split; [reflexivity|]. split; [reflexivity|].
        intros rest _. exists []. split; reflexivity.
      * destruct (writer_loop shape w q) as [tr o]. cbn [fst snd] in *.
        change (gets (EGet (Str s) :: tr)) with (Str s :: gets tr).
        change (container (EGet (Str s) :: tr)) with (container tr).
        split; [cbn [app]; rewrite IHg; reflexivity|].
        split; [exact IHp|]. split; [cbn; exact IHl|].
        split; [exact IHc|]. split; [exact IHj|].
        intros rest Hr. destruct (IHd rest Hr) as (pre & Hpre & Hlen).
        exists (Str s :: pre). rewrite Hpre. split; [reflexivity|]. exact Hlen.
Qed.

(** The counts of a run: items, pages, closes and records. *)
Lemma writer_run_counts shape w now q :
  gets (WriterHamamatsu_run shape w now q).1
  ++ default [] (left_on_queue (WriterHamamatsu_run shape w now q).2) = q /\
  Forall (is_page shape) (container (WriterHamamatsu_run shape w now q).1) /\
  (closes (WriterHamamatsu_run shape w now q).1 <= 1)%nat /\
  (length (json_writes (WriterHamamatsu_run shape w now q).1)
   <= closes (WriterHamamatsu_run shape w now q).1)%nat.
Proof.
  pose proof (save_metadata_events w now (filename w)) as Hev.
  unfold WriterHamamatsu_run.
  destruct (save_metadata w now (filename w)) as [evs r].
  destruct Hev as (Hce & Hge & Hcle & Hje).
  assert (Hjl : (length (json_writes evs) <= 1)%nat).
  { destruct r; [destruct Hje as (j & m & ->)|rewrite Hje]; cbn; lia. }
  destruct (write w).
  - destruct (writer_loop_invariants shape w q) as (Hg & Hp & _ & Hc & Hj & _).
    destruct (writer_loop shape w q) as [tr o]. cbn [fst snd] in *.
    destruct o as [rest|e rest|]; cbn [fst snd left_on_queue default] in *.
    + assert (Hall : gets (tr ++ EClose :: evs) = gets tr /\
                     container (tr ++ EClose :: evs) = container tr /\
                     closes (tr ++ EClose :: evs) = 1%nat /\
                     json_writes (tr ++ EClose :: evs) = json_writes evs).
      { rewrite gets_app, container_app, closes_app, json_writes_app.
        change (gets (EClose :: evs)) with (gets evs).
        change (container (EClose :: evs)) with (container evs).
        change (closes (EClose :: evs)) with (S (closes evs)).
        change (json_writes (EClose :: evs)) with (json_writes evs).
        rewrite Hge, Hce, Hcle, Hc, Hj, !app_nil_r. repeat split. }
      destruct Hall as (Ag & Ac & Acl & Aj).
      destruct r; cbn [fst snd left_on_queue default];
        rewrite Ag, Ac, Acl, Aj; (split; [exact Hg|]; split; [exact Hp|]; lia).
    + rewrite Hc, Hj. split; [exact Hg|]. split; [exact Hp|]. cbn. lia.
    + rewrite Hc, Hj. split; [exact Hg|]. split; [exact Hp|]. cbn. lia.
  - cbn [app].
    change (gets (EClose :: evs)) with (gets evs).
    change (container (EClose :: evs)) with (container evs).
    change (closes (EClose :: evs)) with (S (closes evs)).
    change (json_writes (EClose :: evs)) with (json_writes evs).
    destruct r; cbn [fst snd left_on_queue default];
      change (gets (EClose :: evs)) with (gets evs);
      change (container (EClose :: evs)) with (container evs);
      change (closes (EClose :: evs)) with (S (closes evs));
      change (json_writes (EClose :: evs)) with (json_writes evs);
      rewrite Hge, Hce, Hcle; (split; [reflexivity|]; split; [constructor|]; lia).
Qed.

(** The events of [save_metadata] are on the sidecar. *)
Lemma save_metadata_on_sidecar w now fname : Forall on_sidecar (save_metadata w now fname).1.
Proof.
  destruct (save_metadata_cases w now fname)
    as [(j & meta & _ & _ & _ & ->)|[(j & meta & _ & _ & _ & ->)|(e & _ & ->)]];
    repeat constructor.
Qed.

Lemma on_sidecar_not_loop tr :
  Forall on_sidecar tr ->
  gets tr = [] /\ container tr = [] /\ closes tr = 0%nat /\ task_done_calls tr = 0%nat.
Proof.
  induction 1 as [|e tr He _ IH]; [repeat split|].
  destruct e; cbn [on_sidecar] in He; try contradiction; exact IH.
Qed.

(** A run is the events of the loop, and then, if the loop returned, the
    close and the events of [save_metadata]. *)
Lemma writer_run_shape shape w now q :
  exists tr0,
    Forall loop_event tr0 /\
    ((WriterHamamatsu_run shape w now q).1 = tr0 \/
     (WriterHamamatsu_run shape w now q).1
     = tr0 ++ EClose :: (save_metadata w now w.(filename)).1).
Proof.
  unfold WriterHamamatsu_run. destruct (write w).
  - pose proof (writer_loop_events shape w q) as Hev.
    destruct (writer_loop shape w q) as [tr o]. cbn [fst] in Hev.
    exists tr. split; [exact Hev|].
    destruct o as [rest|e rest|]; [|left; reflexivity..].
    right. destruct (save_metadata w now (filename w)) as [evs [u|e]]; reflexivity.
  - exists []. split; [constructor|]. right.
    destruct (save_metadata w now (filename w)) as [evs [u|e]]; reflexivity.
Qed.

Lemma loop_events_split tr0 pre e post :
  Forall loop_event tr0 -> tr0 = pre ++ e :: post -> loop_event e.
Proof.
  intros H ->. apply Forall_app in H as [_ H]. apply Forall_cons in H as [H _]. exact H.
Qed.

(** In [loop events; close; sidecar events] whatever stands on the sidecar
    has the close before it, and the close has sidecar events only behind
    it. *)
Lemma sidecar_after_close tr0 evs pre e post :
  Forall loop_event tr0 -> Forall on_sidecar evs ->
  tr0 ++ EClose :: evs = pre ++ e :: post ->
  on_sidecar e -> closes pre = 1%nat.
Proof.
  intros H0 Hs. revert pre. induction H0 as [|a tr0 Ha _ IH]; intros pre Heq He.
  - destruct pre as [|p pre]; cbn [app] in Heq.
    + injection Heq as <- _. contradiction.
    + injection Heq as <- Heq. rewrite Heq in Hs.
      apply Forall_app in Hs as [Hs _].
      change (closes (EClose :: pre)) with (S (closes pre)).
      destruct (on_sidecar_not_loop pre Hs) as (_ & _ & -> & _). reflexivity.
  - destruct pre as [|p pre]; cbn [app] in Heq.
    + injection Heq as <- _. destruct a; contradiction.
    + injection Heq as <- Heq.
      replace (closes (a :: pre)) with (closes pre)
        by (destruct a; cbn [loop_event] in Ha; try contradiction; reflexivity).
      exact (IH pre Heq He).
Qed.

Lemma after_close_sidecar tr0 evs pre post :
  Forall loop_event tr0 -> Forall on_sidecar evs ->
  tr0 ++ EClose :: evs = pre ++ EClose :: post ->
  Forall on_sidecar post.
Proof.
  intros H0 Hs. revert pre. induction H0 as [|a tr0 Ha _ IH]; intros pre Heq.
  - destruct pre as [|p pre]; cbn [app] in Heq.
    + injection Heq as <-. exact Hs.
    + injection Heq as _ Heq. rewrite Heq in Hs.
      apply Forall_app in Hs as [_ Hs]. apply Forall_cons in Hs as [Hs _]. contradiction.
  - destruct pre as [|p pre]; cbn [app] in Heq.
    + injection Heq as -> _. contradiction.
    + injection Heq as _ Heq. exact (IH pre Heq).
Qed.

(** X5: on every queue, however [run] ends: the items taken and the items
    left are the queue, in its order; everything appended to the container
    is a uint8 page of the loop's shape; the container is closed at most
    once; a record is written at most once and the sidecar opened at most
    once, and only in a run that closes the container; whatever is done on
    the sidecar (the open, the record, a record broken off) has the close
    before it in the run; and the close has nothing but events on the
    sidecar behind it: after it nothing is taken from the queue, shown or
    appended. *)
Theorem writer_run_invariants shape w now q :
  gets (WriterHamamatsu_run shape w now q).1
  ++ default [] (left_on_queue (WriterHamamatsu_run shape w now q).2) = q /\
  Forall (is_page shape) (container (WriterHamamatsu_run shape w now q).1) /\
  (closes (WriterHamamatsu_run shape w now q).1 <= 1)%nat /\
  (length (json_writes (WriterHamamatsu_run shape w now q).1)
   <= closes (WriterHamamatsu_run shape w now q).1)%nat /\
  (length (json_opens (WriterHamamatsu_run shape w now q).1)
   <= closes (WriterHamamatsu_run shape w now q).1)%nat /\
  (forall pre e post,
      (WriterHamamatsu_run shape w now q).1 = pre ++ e :: post ->
      on_sidecar e -> closes pre = 1%nat) /\
  (forall pre post,
      (WriterHamamatsu_run shape w now q).1 = pre ++ EClose :: post ->
      Forall on_sidecar post).
Proof.
  destruct (writer_run_counts shape w now q) as (Hg & Hp & Hc & Hj).
  split; [exact Hg|]. split; [exact Hp|]. split; [exact Hc|]. split; [exact Hj|].
  destruct (writer_run_shape shape w now q) as (tr0 & H0 & [Htr|Htr]); rewrite Htr.
  - destruct (loop_events_no_sidecar tr0 H0) as (_ & _ & -> & _).
    split; [cbn; lia|]. split.
    + intros pre e post Heq He.
      pose proof (loop_events_split tr0 pre e post H0 Heq) as Hl.
      destruct e; contradiction.
    + intros pre post Heq.
      pose proof (loop_events_split tr0 pre EClose post H0 Heq) as Hl. contradiction.
  - pose proof (save_metadata_on_sidecar w now (filename w)) as Hs.
    split; [|split].
    + rewrite json_opens_app, closes_app, length_app.
      destruct (loop_events_no_sidecar tr0 H0) as (-> & _ & -> & _).
      change (json_opens (EClose :: (save_metadata w now (filename w)).1))
        with (json_opens (save_metadata w now (filename w)).1).
      change (closes (EClose :: (save_metadata w now (filename w)).1))
        with (S (closes (save_metadata w now (filename w)).1)).
      destruct (save_metadata_cases w now (filename w))
        as [(j & meta & _ & _ & _ & ->)|[(j & meta & _ & _ & _ & ->)|(e & _ & ->)]];
        cbn; lia.
    + intros pre e post Heq He.
      exact (sidecar_after_close tr0 _ pre e post H0 Hs Heq He).
    + intros pre post Heq.
      exact (after_close_sidecar tr0 _ pre post H0 Hs Heq).
Qed.

Lemma frames_of_length q : (length (frames_of q) <= length q)%nat.
Proof.
  induction q as [|[a|s] q IH]; [cbn; lia| |].
  - change (frames_of (Frame a :: q)) with (a :: frames_of q). cbn [length]. lia.
  - change (frames_of (Str s :: q)) with (frames_of q). cbn [length]. lia.
Qed.

Lemma task_done_calls_app tr1 tr2 :
  task_done_calls (tr1 ++ tr2) = (task_done_calls tr1 + task_done_calls tr2)%nat.
Proof. unfold task_done_calls. rewrite omap_app, length_app. reflexivity. Qed.

(** In the loop [task_done] is called once for every page appended: it
    follows the [save] of the page, and a pass that raises before the
    [save] does not reach it. *)
Lemma writer_loop_task_done shape w q :
  task_done_calls (writer_loop shape w q).1 = length (container (writer_loop shape w q).1).
Proof.
  induction q as [|[a|s] q IH]; [reflexivity| |].
  - cbn [writer_loop].
    destruct (write_frame_cases shape w a)
      as [(img & img8 & -> & _)|(evs & e & -> & Hevs)].
    + destruct (writer_loop shape w q) as [tr o]. cbn [fst] in *.
      change (task_done_calls
                (EGet (Frame a) :: [EShow img; ESave img8 (comp_lev w); ETaskDone] ++ tr))
        with (S (task_done_calls tr)).
      change (container (EGet (Frame a) :: [EShow img; ESave img8 (comp_lev w); ETaskDone] ++ tr))
        with (img8 :: container tr).
      cbn [length]. rewrite IH. reflexivity.
    + cbn [fst]. destruct Hevs as [->|[img ->]]; reflexivity.
  - cbn [writer_loop]. destruct (String.eqb s "done"); [reflexivity|].
    destruct (writer_loop shape w q) as [tr o]. cbn [fst] in *. exact IH.
Qed.

(** X6: [task_done] is called for the frames only: whenever a writer that
    was not stopped reaches the close, it has called [task_done] once for
    every frame it took and for no other item, so fewer times than it called
    [get]: the ['done'] it took stays an unfinished task of the queue. *)
Theorem writer_never_acknowledges_done shape w now q :
  w.(write) = true ->
  closes (WriterHamamatsu_run shape w now q).1 = 1%nat ->
  task_done_calls (WriterHamamatsu_run shape w now q).1
  = length (frames_of (gets (WriterHamamatsu_run shape w now q).1)) /\
  (task_done_calls (WriterHamamatsu_run shape w now q).1
   < length (gets (WriterHamamatsu_run shape w now q).1))%nat.
Proof.
  intros Hw. pose proof (save_metadata_events w now (filename w)) as Hev.
  pose proof (save_metadata_on_sidecar w now (filename w)) as Hsc.
  unfold WriterHamamatsu_run. rewrite Hw.
  destruct (save_metadata w now (filename w)) as [evs r]. cbn [fst] in Hsc.
  destruct Hev as (_ & Hge & _ & _).
  destruct (on_sidecar_not_loop evs Hsc) as (_ & _ & _ & Htd).
  destruct (writer_loop_invariants shape w q) as (_ & _ & _ & Hc & _ & Hd).
  pose proof (writer_loop_task_done shape w q) as Hcalls.
  destruct (writer_loop shape w q) as [tr o]. cbn [fst snd] in *.
  destruct o as [rest|e rest|]; cbn [fst snd]; [|rewrite Hc; discriminate..].
  destruct (Hd rest eq_refl) as (pre & Hpre & Hlen).
  assert (Hall : gets (tr ++ EClose :: evs) = pre ++ [Str "done"] /\
                 task_done_calls (tr ++ EClose :: evs) = length (container tr)).
  { rewrite gets_app, task_done_calls_app.
    change (gets (EClose :: evs)) with (gets evs).
    change (task_done_calls (EClose :: evs)) with (task_done_calls evs).
    rewrite Hge, Htd, Hcalls, !app_nil_r. split; [exact Hpre|lia]. }
  destruct Hall as [Ag Ac].
  assert (Hfr : frames_of (pre ++ [Str "done"]) = frames_of pre).
  { unfold frames_of. rewrite omap_app. cbn. apply app_nil_r. }
  intros _.
  destruct r; cbn [fst snd]; rewrite Ag, Ac, Hfr, length_app; cbn [length];
    (split; [exact Hlen|]);
    pose proof (frames_of_length pre); lia.
Qed.

Lemma writer_never_acknowledges_done_witness :
  sample_writer.(write) = true /\
  closes (WriterHamamatsu_run (2, 2)%N sample_writer sample_now
            [Frame sample_frame1; Str "hello"; Frame sample_frame2; Str "done"]).1
  = 1%nat /\
  task_done_calls (WriterHamamatsu_run (2, 2)%N sample_writer sample_now
                     [Frame sample_frame1; Str "hello"; Frame sample_frame2; Str "done"]).1
  = length (frames_of (gets (WriterHamamatsu_run (2, 2)%N sample_writer sample_now
                               [Frame sample_frame1; Str "hello"; Frame sample_frame2;
                                Str "done"]).1)) /\
  (task_done_calls (WriterHamamatsu_run (2, 2)%N sample_writer sample_now
                      [Frame sample_frame1; Str "hello"; Frame sample_frame2; Str "done"]).1
   < length (gets (WriterHamamatsu_run (2, 2)%N sample_writer sample_now
                     [Frame sample_frame1; Str "hello"; Frame sample_frame2;
                      Str "done"]).1))%nat.
Proof.
  assert (Hc : closes (WriterHamamatsu_run (2, 2)%N sample_writer sample_now
                         [Frame sample_frame1; Str "hello"; Frame sample_frame2;
                          Str "done"]).1 = 1%nat) by (vm_compute; reflexivity).
  split; [reflexivity|]. split; [exact Hc|].
  exact (writer_never_acknowledges_done (2, 2)%N sample_writer sample_now
           [Frame sample_frame1; Str "hello"; Frame sample_frame2; Str "done"] eq_refl Hc).
Defined.

(** A queue that never delivers ['done']: the loop appends the frames and
    then waits in [get]. *)
Lemma writer_loop_without_done shape w q :
  Forall (goes_on shape) q ->
  exists tr,
    writer_loop shape w q = (tr, Blocked) /\
    container tr = converted shape w.(levels) <$> frames_of q /\
    gets tr = q /\ closes tr = 0%nat /\ json_writes tr = [].
Proof.
  induction 1 as [|it q Hit _ (tr & Hrun & Hc & Hg & Hcl & Hj)].
  - exists []. repeat split.
  - destruct it as [a|s]; cbn [goes_on] in Hit.
    + exists (EGet (Frame a)
                :: EShow {| nd_dtype := nd_dtype a; nd_shape := [shape.1; shape.2];
                            nd_data := nd_data a |}
                :: ESave (converted shape w.(levels) a) w.(comp_lev) :: ETaskDone :: tr).
      split; [|split; [|split; [|split]]].
      * cbn [writer_loop]. rewrite (write_frame_is_frame shape w a Hit), Hrun. reflexivity.
      * change (converted shape w.(levels) a :: container tr
                = converted shape w.(levels) <$> (a :: frames_of q)).
        rewrite Hc. reflexivity.
      * change (Frame a :: gets tr = Frame a :: q). rewrite Hg. reflexivity.
      * exact Hcl.
      * exact Hj.
    + exists (EGet (Str s) :: tr).
      split; [|split; [|split; [|split]]].
      * cbn [writer_loop]. destruct (String.eqb_spec s "done"); [contradiction|].
        rewrite Hrun. reflexivity.
      * exact Hc.
      * change (Str s :: gets tr = Str s :: q). rewrite Hg. reflexivity.
      * exact Hcl.
      * exact Hj.
Qed.

(** X7: a writer that was not stopped, on a queue that never delivers
    ['done'], appends the conversion of every frame and then waits for an
    item for ever: the container is never closed and no sidecar is
    written. *)
Theorem writer_without_done_never_closes shape w now q :
  w.(write) = true ->
  Forall (goes_on shape) q ->
  exists tr,
    WriterHamamatsu_run shape w now q = (tr, Blocked) /\
    container tr = converted shape w.(levels) <$> frames_of q /\
    gets tr = q /\ closes tr = 0%nat /\ json_writes tr = [].
Proof.
  intros Hw Hq.
  destruct (writer_loop_without_done shape w q Hq) as (tr & Hrun & Hrest).
  exists tr. split; [|exact Hrest].
  unfold WriterHamamatsu_run. rewrite Hw, Hrun. reflexivity.
Qed.

Lemma writer_without_done_never_closes_witness :
  sample_writer.(write) = true /\
  Forall (goes_on (2, 2)%N) [Frame sample_frame1; Str "hello"; Frame sample_frame2] /\
  exists tr,
    WriterHamamatsu_run (2, 2)%N sample_writer sample_now
      [Frame sample_frame1; Str "hello"; Frame sample_frame2] = (tr, Blocked) /\
    container tr = converted (2, 2)%N sample_writer.(levels)
                     <$> frames_of [Frame sample_frame1; Str "hello"; Frame sample_frame2] /\
    gets tr = [Frame sample_frame1; Str "hello"; Frame sample_frame2] /\
    closes tr = 0%nat /\ json_writes tr = [].
Proof.
  assert (Hq : Forall (goes_on (2, 2)%N)
                 [Frame sample_frame1; Str "hello"; Frame sample_frame2]).
  { repeat constructor; simpl; try lia. discriminate. }
  split; [reflexivity|]. split; [exact Hq|].
  apply (writer_without_done_never_closes (2, 2)%N sample_writer sample_now
           [Frame sample_frame1; Str "hello"; Frame sample_frame2] eq_refl Hq).
Defined.

(** X8: a writer stopped with [end] before [run] still finalizes: [run]
    takes nothing from the queue, appends nothing, closes the container
    once and calls [save_metadata], whose events and exception are those of
    the run. *)
Theorem stopped_writer_only_finalizes shape w now q :
  let w' := WriterHamamatsu_end w in
  exists o,
    WriterHamamatsu_run shape w' now q = (EClose :: (save_metadata w now w.(filename)).1, o) /\
    left_on_queue o = Some q /\
    gets (EClose :: (save_metadata w now w.(filename)).1) = [] /\
    container (EClose :: (save_metadata w now w.(filename)).1) = [] /\
    closes (EClose :: (save_metadata w now w.(filename)).1) = 1%nat /\
    match (save_metadata w now w.(filename)).2 with
    | Ok _ => o = Returned q
    | Raise e => o = Raised e q
    end.
Proof.
  cbn zeta. pose proof (save_metadata_events w now (filename w)) as Hev.
  assert (Hsame : save_metadata (WriterHamamatsu_end w) now (filename (WriterHamamatsu_end w))
                  = save_metadata w now (filename w)) by (destruct w; reflexivity).
  unfold WriterHamamatsu_run. rewrite Hsame.
  replace (write (WriterHamamatsu_end w)) with false by (destruct w; reflexivity).
  destruct (save_metadata w now (filename w)) as [evs r]. cbn [fst snd].
  destruct Hev as (Hce & Hge & Hcle & _).
  change (gets (EClose :: evs)) with (gets evs).
  change (container (EClose :: evs)) with (container evs).
  change (closes (EClose :: evs)) with (S (closes evs)).
  rewrite Hge, Hce, Hcle.
  destruct r; eexists; (split; [reflexivity|]); repeat split.
Qed.

(** ** The acquisition loop and the queue it fills *)

Lemma acquire_loop_before_interrupt passes :
  (acquire_loop passes).1 = Frame <$> got_frames (before_interrupt passes) /\
  ((acquire_loop passes).2 = None <-> Forall not_interrupted passes) /\
  ((acquire_loop passes).2 = None \/ (acquire_loop passes).2 = Some KeyboardInterrupt).
Proof.
  induction passes as [|p passes (IH1 & IH2 & IH3)].
  - split; [reflexivity|]. split; [split; [constructor|reflexivity]|left; reflexivity].
  - destruct p as [a|e|]; cbn [acquire_loop before_interrupt].
    + destruct (acquire_loop passes) as [q x]. cbn [fst snd] in *.
      change (got_frames (Got a :: before_interrupt passes))
        with (a :: got_frames (before_interrupt passes)).
      split; [rewrite IH1; reflexivity|]. split; [|exact IH3].
      rewrite IH2. split; [intros H; constructor; [exact I|exact H]|].
      intros H. inversion H; assumption.
    + change (got_frames (Failed e :: before_interrupt passes))
        with (got_frames (before_interrupt passes)).
      split; [exact IH1|]. split; [|exact IH3].
      rewrite IH2. split; [intros H; constructor; [exact I|exact H]|].
      intros H. inversion H; assumption.
    + split; [reflexivity|]. split; [|right; reflexivity].
      split; [discriminate|]. intros H. inversion H. contradiction.
Qed.

(** X9: whatever the passes of the acquisition loop meet, the queue gets the
    frames acquired before the first KeyboardInterrupt, in the order of
    acquisition, failed passes left out; ['done'] is put exactly when no
    pass was interrupted, once and after the last frame; and the only
    exception that leaves [run] is the KeyboardInterrupt. *)
Theorem AcquireHamamatsu_run_queue passes :
  (AcquireHamamatsu_run passes).1
  = (Frame <$> got_frames (before_interrupt passes))
    ++ (if is_ok (AcquireHamamatsu_run passes).2 then [Str "done"] else []) /\
  (is_ok (AcquireHamamatsu_run passes).2 = true <-> Forall not_interrupted passes) /\
  ((AcquireHamamatsu_run passes).2 = Ok tt \/
   (AcquireHamamatsu_run passes).2 = Raise KeyboardInterrupt).
Proof.
  destruct (acquire_loop_before_interrupt passes) as (H1 & H2 & H3).
  unfold AcquireHamamatsu_run.
  destruct (acquire_loop passes) as [q [e|]]; cbn [fst snd is_ok] in *.
  - split; [rewrite H1, app_nil_r; reflexivity|]. split.
    + split; [discriminate|]. intros H. apply H2 in H. discriminate.
    + right. destruct H3 as [H3|H3]; [discriminate|]. injection H3 as ->. reflexivity.
  - split; [rewrite H1; reflexivity|]. split; [|left; reflexivity].
    split; [intros _; apply H2; reflexivity|reflexivity].
Qed.

(** X10: the camera is started once; it is stopped and shut down, once and
    in that order, exactly when [run] returns. When a KeyboardInterrupt
    leaves [run], only the flag is cleared: the camera stays open and
    acquiring. *)
Theorem AcquireHamamatsu_run_teardown c passes :
  (Forall not_interrupted passes ->
   AcquireHamamatsu_run_camera c passes
   = ([CamStart; CamStop; CamShutdown], mk_hamamatsu c.(cam_framerate) false c.(acquire))) /\
  (~ Forall not_interrupted passes ->
   AcquireHamamatsu_run_camera c passes
   = ([CamStart], mk_hamamatsu c.(cam_framerate) c.(camera_open) false) /\
   (AcquireHamamatsu_run passes).2 = Raise KeyboardInterrupt).
Proof.
  destruct (acquire_loop_before_interrupt passes) as (_ & H2 & H3).
  unfold AcquireHamamatsu_run_camera, AcquireHamamatsu_run.
  destruct (acquire_loop passes) as [q [e|]]; cbn [fst snd] in *.
  - split.
    + intros H. apply H2 in H. discriminate.
    + intros _. destruct H3 as [H3|H3]; [discriminate|]. injection H3 as ->.
      split; reflexivity.
  - split; [intros _; reflexivity|]. intros H. exfalso. apply H, H2. reflexivity.
Qed.

Lemma AcquireHamamatsu_run_teardown_witness :
  ~ Forall not_interrupted [Got sample_frame1; Interrupted; Got sample_frame2] /\
  AcquireHamamatsu_run_camera (mk_hamamatsu (PyFloat 20%float) true true)
    [Got sample_frame1; Interrupted; Got sample_frame2]
  = ([CamStart], mk_hamamatsu (PyFloat 20%float) true false) /\
  (AcquireHamamatsu_run [Got sample_frame1; Interrupted; Got sample_frame2]).2
  = Raise KeyboardInterrupt.
Proof.
  assert (H : ~ Forall not_interrupted [Got sample_frame1; Interrupted; Got sample_frame2]).
  { intros H. inversion H as [|? ? _ H']. inversion H' as [|? ? Hi _]. exact Hi. }
  split; [exact H|].
  destruct (AcquireHamamatsu_run_teardown (mk_hamamatsu (PyFloat 20%float) true true)
              [Got sample_frame1; Interrupted; Got sample_frame2]) as [_ Hint].
  exact (Hint H).
Defined.

(** X11: a KeyboardInterrupt in the acquisition loop leaves the writer
    waiting for ever: ['done'] is never put, so a writer that was not
    stopped appends the frames acquired before the interrupt and then blocks
    in [get]; the container is never closed and no sidecar is written. *)
Theorem interrupted_producer_blocks_writer shape w now passes :
  w.(write) = true ->
  ~ Forall not_interrupted passes ->
  Forall (is_frame shape) (got_frames (before_interrupt passes)) ->
  exists tr,
    WriterHamamatsu_run shape w now (AcquireHamamatsu_run passes).1 = (tr, Blocked) /\
    container tr = converted shape w.(levels) <$> got_frames (before_interrupt passes) /\
    closes tr = 0%nat /\ json_writes tr = [].
Proof.
  intros Hw Hint Hfr.
  destruct (acquire_loop_before_interrupt passes) as (H1 & H2 & H3).
  assert (Hq : (AcquireHamamatsu_run passes).1
               = Frame <$> got_frames (before_interrupt passes)).
  { unfold AcquireHamamatsu_run.
    destruct (acquire_loop passes) as [q [e|]]; cbn [fst snd] in *; [exact H1|].
    exfalso. apply Hint, H2. reflexivity. }
  rewrite Hq.
  destruct (writer_loop_without_done shape w _ (goes_on_Frame _ _ Hfr))
    as (tr & Hrun & Hc & _ & Hcl & Hj).
  rewrite frames_of_Frame in Hc.
  exists tr. split; [|split; [exact Hc|split; [exact Hcl|exact Hj]]].
  unfold WriterHamamatsu_run. rewrite Hw, Hrun. reflexivity.
Qed.

Lemma interrupted_producer_blocks_writer_witness :
  sample_writer.(write) = true /\
  ~ Forall not_interrupted [Got sample_frame1; Interrupted; Got sample_frame2] /\
  Forall (is_frame (2, 2)%N)
    (got_frames (before_interrupt [Got sample_frame1; Interrupted; Got sample_frame2])) /\
  exists tr,
    WriterHamamatsu_run (2, 2)%N sample_writer sample_now
      (AcquireHamamatsu_run [Got sample_frame1; Interrupted; Got sample_frame2]).1
    = (tr, Blocked) /\
    container tr
    = converted (2, 2)%N sample_writer.(levels)
        <$> got_frames (before_interrupt [Got sample_frame1; Interrupted; Got sample_frame2]) /\
    closes tr = 0%nat /\ json_writes tr = [].
Proof.
  assert (H : ~ Forall not_interrupted [Got sample_frame1; Interrupted; Got sample_frame2]).
  { intros H. inversion H as [|? ? _ H']. inversion H' as [|? ? Hi _]. exact Hi. }
  assert (Hf : Forall (is_frame (2, 2)%N)
                 (got_frames (before_interrupt
                                [Got sample_frame1; Interrupted; Got sample_frame2]))).
  { repeat constructor; simpl; lia. }
  split; [reflexivity|]. split; [exact H|]. split; [exact Hf|].
  apply (interrupted_producer_blocks_writer (2, 2)%N sample_writer sample_now
           [Got sample_frame1; Interrupted; Got sample_frame2] eq_refl H Hf).
Defined.

Lemma acquisition_failures_are_skipped_witness :
  sample_writer.(write) = true /\
  Forall not_interrupted [Got sample_frame1; Failed ValueError; Got sample_frame2] /\
  Forall (is_frame (2, 2)%N)
    (got_frames [Got sample_frame1; Failed ValueError; Got sample_frame2]) /\
  exists tr o,
    WriterHamamatsu_run (2, 2)%N sample_writer sample_now
      (AcquireHamamatsu_run [Got sample_frame1; Failed ValueError; Got sample_frame2]).1
    = (tr, o) /\
    container tr
    = converted (2, 2)%N sample_writer.(levels)
        <$> got_frames [Got sample_frame1; Failed ValueError; Got sample_frame2] /\
    length (container tr)
    = (length [Got sample_frame1; Failed ValueError; Got sample_frame2]
       - failures [Got sample_frame1; Failed ValueError; Got sample_frame2])%nat /\
    closes tr = 1%nat.
Proof.
  assert (Hn : Forall not_interrupted [Got sample_frame1; Failed ValueError; Got sample_frame2]).
  { repeat constructor. }
  assert (Hf : Forall (is_frame (2, 2)%N)
                 (got_frames [Got sample_frame1; Failed ValueError; Got sample_frame2])).
  { repeat constructor; simpl; lia. }
  split; [reflexivity|]. split; [exact Hn|]. split; [exact Hf|].
  apply (acquisition_failures_are_skipped (2, 2)%N sample_writer sample_now
           [Got sample_frame1; Failed ValueError; Got sample_frame2] eq_refl Hn Hf).
Defined.

(** ** The session parameters at the camera and at the writer *)

Lemma AcquireHamamatsu_init_exposure (params : gmap string pyval) e :
  params !! "exposure" = Some e ->
  AcquireHamamatsu_init params
  = ([CamOpen 0;
      CamSet "defect_correct_mode" (PyStr "OFF");
      CamSet "subarray_hsize" (PyInt 2048);
      CamSet "subarray_vsize" (PyInt 2048);
      CamSet "binning" (PyStr "1x1");
      CamSet "readout_speed" (PyInt 2);
      CamSet "exposure_time" e],
     do fr <- py_one_over e; Ok (mk_hamamatsu fr true true)).
Proof.
  intros H. unfold AcquireHamamatsu_init, BaseHamamatsu_init. rewrite H.
  destruct (py_one_over e); reflexivity.
Qed.

Lemma AcquireHamamatsu_init_no_exposure (params : gmap string pyval) :
  params !! "exposure" = None ->
  AcquireHamamatsu_init params = ([], Raise (KeyError "No exposure value specified")).
Proof.
  intros H. unfold AcquireHamamatsu_init, BaseHamamatsu_init. rewrite H. reflexivity.
Qed.

(** X13: parameters the camera accepts, the writer accepts as metadata; and
    when they name no framerate, the framerate the writer stores is the one
    the camera runs at. *)
Theorem camera_parameters_suit_writer (params : gmap string pyval) fname cl lv c :
  (AcquireHamamatsu_init params).2 = Ok c ->
  exists w,
    WriterHamamatsu_init fname cl lv params = Ok w /\
    (params !! "framerate" = None ->
     w.(metadata) !! "framerate" = Some c.(cam_framerate)).
Proof.
  intros Hc.
  destruct (params !! "exposure") as [e|] eqn:He;
    [|rewrite (AcquireHamamatsu_init_no_exposure params He) in Hc; discriminate].
  rewrite (AcquireHamamatsu_init_exposure params e He) in Hc. cbn [snd] in Hc.
  destruct (py_one_over e) as [fr|x] eqn:Ho; cbn [bind] in Hc; [|discriminate].
  injection Hc as <-.
  destruct (params !! "framerate") as [v|] eqn:Hf.
  - exists (mk_writer fname cl lv params true).
    split; [apply (WriterHamamatsu_init_framerate fname cl lv params v Hf)|].
    intros H. discriminate.
  - exists (mk_writer fname cl lv (<["framerate" := fr]> params) true). split.
    + unfold WriterHamamatsu_init.
      rewrite (BaseWriter_init_exposure fname cl lv params e Hf He), Ho. reflexivity.
    + intros _. cbn [metadata cam_framerate]. apply lookup_insert_eq.
Qed.

#[warnings="-inexact-float"]
Lemma camera_parameters_suit_writer_witness :
  (AcquireHamamatsu_init sample_metadata).2 = Ok (mk_hamamatsu (PyFloat 20%float) true true) /\
  exists w,
    WriterHamamatsu_init "out.tiff" 1 (0, 65535) sample_metadata = Ok w /\
    (sample_metadata !! "framerate" = None ->
     w.(metadata) !! "framerate" = Some (PyFloat 20%float)).
Proof.
  assert (H : (AcquireHamamatsu_init sample_metadata).2
              = Ok (mk_hamamatsu (PyFloat 20%float) true true)) by reflexivity.
  split; [exact H|].
  exact (camera_parameters_suit_writer sample_metadata "out.tiff" 1 (0, 65535) _ H).
Defined.

(** X14: the converse fails, and a framerate in the parameters is the
    writer's alone: with a framerate and no exposure the writer is
    constructed and the camera raises its KeyError before it is opened;
    with both, the writer stores the given framerate while the camera runs
    at [1/exposure]. *)
Theorem framerate_parameter_is_for_the_writer_only
    (params : gmap string pyval) fname cl lv v :
  params !! "framerate" = Some v ->
  WriterHamamatsu_init fname cl lv params = Ok (mk_writer fname cl lv params true) /\
  (params !! "exposure" = None ->
   AcquireHamamatsu_init params = ([], Raise (KeyError "No exposure value specified"))) /\
  (forall e c, params !! "exposure" = Some e ->
     (AcquireHamamatsu_init params).2 = Ok c ->
     py_one_over e = Ok c.(cam_framerate)).
Proof.
  intros Hf. split; [apply (WriterHamamatsu_init_framerate fname cl lv params v Hf)|].
  split; [apply AcquireHamamatsu_init_no_exposure|].
  intros e c He Hc. rewrite (AcquireHamamatsu_init_exposure params e He) in Hc.
  cbn [snd] in Hc. destruct (py_one_over e); cbn [bind] in Hc; [|discriminate].
  injection Hc as <-. reflexivity.
Qed.

Lemma framerate_parameter_is_for_the_writer_only_witness :
  ({[ "framerate" := PyFloat 20%float ]} : gmap string pyval) !! "framerate"
  = Some (PyFloat 20%float) /\
  WriterHamamatsu_init "out.tiff" 1 (0, 65535) {[ "framerate" := PyFloat 20%float ]}
  = Ok bare_writer /\
  AcquireHamamatsu_init {[ "framerate" := PyFloat 20%float ]}
  = ([], Raise (KeyError "No exposure value specified")).
Proof.
  assert (Hf : ({[ "framerate" := PyFloat 20%float ]} : gmap string pyval) !! "framerate"
               = Some (PyFloat 20%float)) by reflexivity.
  split; [exact Hf|].
  destruct (framerate_parameter_is_for_the_writer_only
              {[ "framerate" := PyFloat 20%float ]} "out.tiff" 1 (0, 65535)
              (PyFloat 20%float) Hf) as (Hw & Hc & _).
  split; [exact Hw|]. apply Hc. reflexivity.
Defined.

(** ** The metadata dictionary is shared with the caller *)

(** X15: [BaseWriter.__init__] works on the caller's dictionary: it returns
    the reference it was given, and when it succeeds the dictionary object
    holds exactly the metadata of the writer (so it has a framerate, stored
    by the constructor if it had none); when it raises, with the exception
    of the constructor on values, no dictionary has changed. Other
    dictionaries are never touched. *)
Theorem BaseWriter_init_changes_callers_dict
    fname cl lv m (dicts : gmap positive (gmap string pyval)) md :
  dicts !! m = Some md ->
  match BaseWriter_init fname cl lv md with
  | Ok w =>
      BaseWriter_init_ref fname cl lv m dicts = (Ok m, <[m := w.(metadata)]> dicts) /\
      is_Some (w.(metadata) !! "framerate")
  | Raise e => BaseWriter_init_ref fname cl lv m dicts = (Raise e, dicts)
  end.
Proof.
  intros Hm. unfold BaseWriter_init_ref, BaseWriter_init. rewrite Hm.
  destruct (md !! "framerate") as [v|] eqn:Hf; cbn [bind metadata].
  - split; [|rewrite Hf; eauto]. rewrite insert_id by exact Hm. reflexivity.
  - destruct (md !! "exposure") as [e|]; cbn [bind]; [|reflexivity].
    destruct (py_one_over e) as [fr|x]; cbn [bind metadata]; [|reflexivity].
    split; [reflexivity|]. rewrite lookup_insert_eq. eauto.
Qed.

#[warnings="-inexact-float"]
Lemma BaseWriter_init_changes_callers_dict_witness :
  ({[ 1%positive := sample_metadata ]} : gmap positive (gmap string pyval)) !! 1%positive
  = Some sample_metadata /\
  BaseWriter_init_ref "out.tiff" 1 (0, 65535) 1%positive {[ 1%positive := sample_metadata ]}
  = (Ok 1%positive,
     <[1%positive := <["framerate" := PyFloat 20%float]> sample_metadata]>
       {[ 1%positive := sample_metadata ]}).
Proof.
  assert (H : ({[ 1%positive := sample_metadata ]} : gmap positive (gmap string pyval))
                !! 1%positive = Some sample_metadata) by apply lookup_singleton_eq.
  split; [exact H|].
  exact (proj1 (BaseWriter_init_changes_callers_dict "out.tiff" 1 (0, 65535) 1%positive
                  {[ 1%positive := sample_metadata ]} sample_metadata H)).
Defined.

(** X16: a dictionary that went through the constructor keeps the framerate
    of its first exposure: after [d['exposure'] = e2] a second writer
    constructed on the same dictionary gets the old framerate, whatever
    [e2] is, and the constructor changes nothing this time. *)
Theorem reused_dictionary_keeps_first_framerate
    fname cl lv m (dicts : gmap positive (gmap string pyval)) md e1 fr1 e2 :
  dicts !! m = Some md ->
  md !! "framerate" = None ->
  md !! "exposure" = Some e1 ->
  py_one_over e1 = Ok fr1 ->
  let dicts1 := (BaseWriter_init_ref fname cl lv m dicts).2 in
  let dicts2 := dict_setitem m "exposure" e2 dicts1 in
  BaseWriter_init_ref fname cl lv m dicts2 = (Ok m, dicts2) /\
  dicts2 !! m = Some (<["exposure" := e2]> (<["framerate" := fr1]> md)) /\
  (forall md2, dicts2 !! m = Some md2 -> md2 !! "framerate" = Some fr1).
Proof.
  intros Hm Hf He Ho. cbn zeta.
  assert (H1 : (BaseWriter_init_ref fname cl lv m dicts).2
               = <[m := <["framerate" := fr1]> md]> dicts).
  { unfold BaseWriter_init_ref. rewrite Hm, Hf, He, Ho. reflexivity. }
  rewrite H1.
  assert (H2 : dict_setitem m "exposure" e2 (<[m := <["framerate" := fr1]> md]> dicts)
               = <[m := <["exposure" := e2]> (<["framerate" := fr1]> md)]> dicts).
  { unfold dict_setitem. rewrite lookup_insert_eq, insert_insert_eq. reflexivity. }
  rewrite H2.
  assert (Hfr : (<["exposure" := e2]> (<["framerate" := fr1]> md) : gmap string pyval)
                  !! "framerate" = Some fr1).
  { rewrite lookup_insert_ne by discriminate. apply lookup_insert_eq. }
  split; [|split].
  - unfold BaseWriter_init_ref. rewrite lookup_insert_eq, Hfr. reflexivity.
  - apply lookup_insert_eq.
  - intros md2 H. rewrite lookup_insert_eq in H. injection H as <-. exact Hfr.
Qed.

Lemma reused_dictionary_keeps_first_framerate_witness :
  ({[ 1%positive := sample_metadata ]} : gmap positive (gmap string pyval)) !! 1%positive
  = Some sample_metadata /\
  sample_metadata !! "framerate" = None /\
  sample_metadata !! "exposure" = Some (PyFloat exposure_0_05) /\
  py_one_over (PyFloat exposure_0_05) = Ok (PyFloat 20%float) /\
  forall md2,
    dict_setitem 1%positive "exposure" (PyFloat 0.5%float)
      (BaseWriter_init_ref "out.tiff" 1 (0, 65535) 1%positive
         {[ 1%positive := sample_metadata ]}).2 !! 1%positive = Some md2 ->
    md2 !! "framerate" = Some (PyFloat 20%float).
Proof.
  assert (H : ({[ 1%positive := sample_metadata ]} : gmap positive (gmap string pyval))
                !! 1%positive = Some sample_metadata) by apply lookup_singleton_eq.
  assert (Hf : sample_metadata !! "framerate" = None) by reflexivity.
  assert (He : sample_metadata !! "exposure" = Some (PyFloat exposure_0_05)) by reflexivity.
  assert (Ho : py_one_over (PyFloat exposure_0_05) = Ok (PyFloat 20%float)) by reflexivity.
  split; [exact H|]. split; [exact Hf|]. split; [exact He|]. split; [exact Ho|].
  exact (proj2 (proj2 (reused_dictionary_keeps_first_framerate "out.tiff" 1 (0, 65535)
                         1%positive {[ 1%positive := sample_metadata ]} sample_metadata
                         (PyFloat exposure_0_05) (PyFloat 20%float) (PyFloat 0.5%float)
                         H Hf He Ho))).
Defined.

(** ** The sidecar: its name and when it is written *)

(** X17: the sidecar name does not tell [.tif] from [.tiff]: the containers
    [base.tif] and [base.tiff] get the same sidecar [base.json], and
    [save_metadata] does the same for both. *)
Theorem sidecar_name_ignores_tif_or_tiff w now base :
  json_name (base +:+ ".tif") = Ok (base +:+ ".json") /\
  json_name (base +:+ ".tiff") = Ok (base +:+ ".json") /\
  save_metadata w now (base +:+ ".tif") = save_metadata w now (base +:+ ".tiff").
Proof.
  split; [apply json_name_tif|]. split; [apply json_name_tiff|].
  unfold save_metadata. rewrite json_name_tif, json_name_tiff. reflexivity.
Qed.

(** X18: at a valid local time [save_metadata] returns exactly for complete
    metadata whose framerate, version and stims [json.dump] can write and a
    name in [.tiff] or [.tif]. The record is built before the name is
    looked at, and the name before the sidecar is opened: with incomplete
    metadata the exception is that of the record whatever the name is; the
    ValueError of a wrong name is raised only for complete metadata, and
    nothing is opened; and with complete metadata and a tiff name
    [json.dump] is reached: a value it cannot write raises the
    UnicodeDecodeError after the sidecar was opened, which is left with the
    record broken off. *)
Theorem save_metadata_returns_iff w now fname :
  valid_datetime now ->
  is_ok (save_metadata w now fname).2
  = complete_metadata w.(metadata) && tiff_name fname && encodable_metadata w.(metadata) /\
  (complete_metadata w.(metadata) = false ->
   exists e, build_meta w.(metadata) now = Raise e /\
             forall other, save_metadata w now other = ([], Raise e)) /\
  (complete_metadata w.(metadata) = true -> tiff_name fname = false ->
   save_metadata w now fname = ([], Raise ValueError)) /\
  (complete_metadata w.(metadata) = true -> tiff_name fname = true ->
   encodable_metadata w.(metadata) = false ->
   exists json_file meta,
     json_name fname = Ok json_file /\ build_meta w.(metadata) now = Ok meta /\
     save_metadata w now fname
     = ([EOpenJson json_file; EWriteJsonPart json_file meta], Raise UnicodeDecodeError)).
Proof.
  intros Hnow. pose proof (build_meta_complete w.(metadata) now Hnow) as Hc.
  pose proof (json_name_is_ok fname) as Hj.
  split; [exact (save_metadata_is_ok w now fname Hnow)|]. split; [|split].
  - intros Hno. rewrite Hno in Hc.
    destruct (build_meta (metadata w) now) as [meta|e] eqn:Hb; [discriminate|].
    exists e. split; [reflexivity|]. intros other. unfold save_metadata. rewrite Hb.
    reflexivity.
  - intros Hyes Hname. rewrite Hyes in Hc. rewrite Hname in Hj.
    unfold save_metadata.
    destruct (build_meta (metadata w) now) as [meta|e]; [|discriminate].
    unfold json_name in *. unfold tiff_name in Hname.
    destruct (endswith fname ".tiff"); [discriminate|].
    destruct (endswith fname ".tif"); [discriminate|]. reflexivity.
  - intros Hyes Hname Henc.
    pose proof (save_metadata_is_ok w now fname Hnow) as Hok.
    rewrite Hyes, Hname, Henc in Hok.
    destruct (save_metadata_cases w now fname)
      as [(j & meta & _ & _ & _ & Hs)|[(j & meta & Hm & Hn & _ & Hs)|(e & Hno & _)]].
    + rewrite Hs in Hok. discriminate.
    + exists j, meta. split; [exact Hn|]. split; [exact Hm|exact Hs].
    + rewrite Hc, Hj, Hyes, Hname in Hno. discriminate.
Qed.

Lemma save_metadata_returns_iff_witness :
  valid_datetime sample_now /\
  is_ok (save_metadata sample_writer sample_now "out.tiff").2 = true /\
  is_ok (save_metadata sample_writer sample_now "out.png").2 = false /\
  exists json_file meta,
    json_name "out.tiff" = Ok json_file /\
    build_meta undecodable_writer.(metadata) sample_now = Ok meta /\
    save_metadata undecodable_writer sample_now "out.tiff"
    = ([EOpenJson json_file; EWriteJsonPart json_file meta], Raise UnicodeDecodeError).
Proof.
  assert (Hv : valid_datetime sample_now).
  { unfold valid_datetime, sample_now. simpl. lia. }
  split; [exact Hv|].
  split; [exact (proj1 (save_metadata_returns_iff sample_writer sample_now "out.tiff" Hv))|].
  split; [exact (proj1 (save_metadata_returns_iff sample_writer sample_now "out.png" Hv))|].
  destruct (save_metadata_returns_iff undecodable_writer sample_now "out.tiff" Hv)
    as (_ & _ & _ & H4).
  apply H4; reflexivity.
Defined.

(** ** The OpenCV camera: [read] and the recorder *)

(** X19: [BaseOpenCV.read] returns exactly when the capture device answers
    with a frame: it asks again after every failed read, returns the gray
    conversion of the first frame it gets and asks for nothing more; if no
    answer has a frame it never returns. *)
Theorem BaseOpenCV_read_first_frame cvtColor reads gray rest :
  BaseOpenCV_read cvtColor reads = Some (gray, rest)
  <-> exists n frame, reads = replicate n None ++ Some frame :: rest /\
                      gray = cvtColor frame.
Proof.
  split.
  - revert gray rest. induction reads as [|[f|] reads IH]; intros gray rest H.
    + discriminate.
    + cbn in H. injection H as <- <-. exists 0%nat, f. split; reflexivity.
    + cbn [BaseOpenCV_read] in H. destruct (IH gray rest H) as (n & f & -> & ->).
      exists (S n), f. split; reflexivity.
  - intros (n & f & -> & ->). induction n as [|n IH]; [reflexivity|exact IH].
Qed.

Lemma record_loop_out_of_time cvtColor start_time duration end_time passes fc :
  in_time start_time duration end_time = false ->
  record_loop cvtColor start_time duration end_time passes fc
  = ([VDestroyWindow; VRelease], Recorded fc).
Proof.
  unfold in_time. intros H. destruct passes as [|[r t] rest]; cbn [record_loop];
    rewrite H; reflexivity.
Qed.

Lemma record_loop_in_time cvtColor start_time duration passes r_last t_last later :
  Forall (fun p => in_time start_time duration p.2 = true) passes ->
  in_time start_time duration t_last = false ->
  forall end_time fc,
    in_time start_time duration end_time = true ->
    exists body,
      record_loop cvtColor start_time duration end_time
        (passes ++ (r_last, t_last) :: later) fc
      = (body ++ [VDestroyWindow; VRelease],
         Recorded (fc + Z.of_nat (length (omap fst (passes ++ [(r_last, t_last)]))))) /\
      video_frames body = cvtColor <$> omap fst (passes ++ [(r_last, t_last)]) /\
      releases body = 0%nat.
Proof.
  intros Hin Hlast. induction Hin as [|[r t] passes Ht _ IH]; intros end_time fc He.
  - cbn [app]. cbn [record_loop]. unfold in_time in He. rewrite He.
    destruct r_last as [f|].
    + rewrite (record_loop_out_of_time _ _ _ _ later (fc + 1) Hlast).
      exists [VWrite (cvtColor f); VShow (cvtColor f)].
      split; [reflexivity|]. split; reflexivity.
    + rewrite (record_loop_out_of_time _ _ _ _ later fc Hlast).
      exists []. split; [cbn; rewrite Z.add_0_r; reflexivity|]. split; reflexivity.
  - cbn [snd] in Ht.
    change (((r, t) :: passes) ++ (r_last, t_last) :: later)
      with ((r, t) :: (passes ++ (r_last, t_last) :: later)).
    cbn [record_loop]. unfold in_time in He. rewrite He.
    destruct r as [f|].
    + destruct (IH t (fc + 1) Ht) as (body & -> & Hv & Hr).
      exists (VWrite (cvtColor f) :: VShow (cvtColor f) :: body).
      split; [|split].
      * cbn [app]. do 2 f_equal.
        change (omap fst ((Some f, t) :: passes ++ [(r_last, t_last)]))
          with (f :: omap fst (passes ++ [(r_last, t_last)])).
        cbn [length]. lia.
      * change (cvtColor f :: video_frames body
                = cvtColor <$> (f :: omap fst (passes ++ [(r_last, t_last)]))).
        rewrite Hv. reflexivity.
      * exact Hr.
    + destruct (IH t fc Ht) as (body & -> & Hv & Hr).
      exists body. split; [reflexivity|]. split; [exact Hv|exact Hr].
Qed.

(** X20: the recorder checks the time between reads only. When the
    recording starts within the duration and the clock passes it at the
    [n]-th read, the video gets the gray conversion of every frame the
    device delivered in those [n] reads, the one read when time ran out
    included, in the order of the reads; failed reads are skipped; the
    frame count is the number of frames written; the video is opened as
    [name.avi] first and released once, last; later answers of the device
    are not asked for. *)
Theorem AcquireOpenCV_run_records
    cvtColor framerate width height name duration start_time passes r_last t_last later :
  in_time start_time duration start_time = true ->
  Forall (fun p => in_time start_time duration p.2 = true) passes ->
  in_time start_time duration t_last = false ->
  exists body,
    AcquireOpenCV_run cvtColor framerate width height name duration start_time
      (passes ++ (r_last, t_last) :: later)
    = (VOpen (name +:+ ".avi") framerate width height :: body ++ [VDestroyWindow; VRelease],
       Recorded (Z.of_nat (length (video_frames body)))) /\
    video_frames body = cvtColor <$> omap fst (passes ++ [(r_last, t_last)]) /\
    releases (VOpen (name +:+ ".avi") framerate width height
                :: body ++ [VDestroyWindow; VRelease]) = 1%nat.
Proof.
  intros Hs Hin Hlast.
  destruct (record_loop_in_time cvtColor start_time duration passes r_last t_last later
              Hin Hlast start_time 0 Hs) as (body & Hrun & Hv & Hr).
  exists body. unfold AcquireOpenCV_run. rewrite Hrun.
  split; [|split; [exact Hv|]].
  - rewrite Hv, length_fmap. reflexivity.
  - unfold releases in *.
    change (omap (fun e => match e with VRelease => Some tt | _ => None end)
              (VOpen (name +:+ ".avi") framerate width height
                 :: body ++ [VDestroyWindow; VRelease]))
      with (omap (fun e => match e with VRelease => Some tt | _ => None end)
              (body ++ [VDestroyWindow; VRelease])).
    rewrite omap_app, length_app, Hr. reflexivity.
Qed.

Lemma AcquireOpenCV_run_records_witness :
  in_time 100%float 2%float 100%float = true /\
  Forall (fun p => in_time 100%float 2%float p.2 = true)
    [(Some sample_frame1, 100.5%float); (None, 101%float)] /\
  in_time 100%float 2%float 102.5%float = false /\
  exists body,
    AcquireOpenCV_run (fun a => a) (PyInt 30) 2 2 "out" 2%float 100%float
      ([(Some sample_frame1, 100.5%float); (None, 101%float)]
         ++ (Some sample_frame2, 102.5%float) :: [(Some sample_frame1, 103%float)])
    = (VOpen "out.avi" (PyInt 30) 2 2 :: body ++ [VDestroyWindow; VRelease],
       Recorded (Z.of_nat (length (video_frames body)))) /\
    video_frames body = [sample_frame1; sample_frame2].
Proof.
  assert (Hs : in_time 100%float 2%float 100%float = true) by reflexivity.
  assert (Hin : Forall (fun p => in_time 100%float 2%float p.2 = true)
                  [(Some sample_frame1, 100.5%float); (None, 101%float)]).
  { repeat constructor. }
  assert (Hl : in_time 100%float 2%float 102.5%float = false) by reflexivity.
  split; [exact Hs|]. split; [exact Hin|]. split; [exact Hl|].
  destruct (AcquireOpenCV_run_records (fun a => a) (PyInt 30) 2 2 "out" 2%float 100%float
              [(Some sample_frame1, 100.5%float); (None, 101%float)]
              (Some sample_frame2) 102.5%float [(Some sample_frame1, 103%float)]
              Hs Hin Hl) as (body & Hrun & Hv & _).
  exists body. split; [exact Hrun|exact Hv].
Defined.

(** X21: a recording whose duration is already over at the start (a
    duration that is not positive) asks the device for nothing: the video
    is opened and released with no frame in it, and the frame count is 0. *)
Theorem AcquireOpenCV_run_no_time
    cvtColor framerate width height name duration start_time passes :
  in_time start_time duration start_time = false ->
  AcquireOpenCV_run cvtColor framerate width height name duration start_time passes
  = ([VOpen (name +:+ ".avi") framerate width height; VDestroyWindow; VRelease],
     Recorded 0).
Proof.
  intros H. unfold AcquireOpenCV_run.
  rewrite (record_loop_out_of_time cvtColor start_time duration start_time passes 0 H).
  reflexivity.
Qed.

Lemma AcquireOpenCV_run_no_time_witness :
  in_time 100%float 0%float 100%float = false /\
  AcquireOpenCV_run (fun a => a) (PyInt 30) 2 2 "out" 0%float 100%float
    [(Some sample_frame1, 100.5%float)]
  = ([VOpen "out.avi" (PyInt 30) 2 2; VDestroyWindow; VRelease], Recorded 0).
Proof.
  assert (H : in_time 100%float 0%float 100%float = false) by reflexivity.
  split; [exact H|].
  exact (AcquireOpenCV_run_no_time (fun a => a) (PyInt 30) 2 2 "out" 0%float 100%float
           [(Some sample_frame1, 100.5%float)] H).
Defined.

(** ** The window of the conversion and the window of the sidecar *)

Lemma take_data_is_Some_length t1 t2 (d : list Z) :
  length t1 = length t2 -> is_Some (take_data t1 d) -> is_Some (take_data t2 d).
Proof.
  intros Hlen. unfold take_data. rewrite !mapM_is_Some. rewrite Hlen.
  intros HF. eapply Forall_impl; [exact HF|]. intros i. unfold compose.
  destruct (take_index (Z.of_nat (length t2)) i) as [n|]; cbn [mbind option_bind];
    [|intros H; exact H].
  intros [x Hx]. apply lookup_lt_is_Some. rewrite <- Hlen.
  apply lookup_lt_is_Some. eauto.
Qed.

Lemma lut_table_same_length l1 l2 : length (lut_table l1) = length (lut_table l2).
Proof. unfold lut_table. rewrite !length_fmap. reflexivity. Qed.

(** Whether a frame is written does not depend on the window. *)
Lemma write_frame_ok_any_window shape f c l1 l2 md flag a :
  is_ok (write_frame shape (mk_writer f c l1 md flag) a).2
  = is_ok (write_frame shape (mk_writer f c l2 md flag) a).2 /\
  (forall e, (write_frame shape (mk_writer f c l1 md flag) a).2 = Raise e ->
             (write_frame shape (mk_writer f c l2 md flag) a).2 = Raise e).
Proof.
  unfold write_frame. destruct (np_reshape a shape) as [img|e]; [|split; [reflexivity|auto]].
  unfold convert_to_8bit_value. cbn [levels].
  destruct (take_data (lut_table l1) (nd_data img)) as [d1|] eqn:H1;
    destruct (take_data (lut_table l2) (nd_data img)) as [d2|] eqn:H2;
    cbn [snd is_ok]; try (split; [reflexivity|intros e H; congruence]).
  - exfalso.
    destruct (take_data_is_Some_length _ (lut_table l2) (nd_data img)
                (lut_table_same_length l1 l2) ltac:(rewrite H1; eauto)) as [x Hx].
    congruence.
  - exfalso.
    destruct (take_data_is_Some_length _ (lut_table l1) (nd_data img)
                (lut_table_same_length l2 l1) ltac:(rewrite H2; eauto)) as [x Hx].
    congruence.
Qed.

Lemma writer_loop_any_window shape f c l1 l2 md flag q :
  (writer_loop shape (mk_writer f c l1 md flag) q).2
  = (writer_loop shape (mk_writer f c l2 md flag) q).2.
Proof.
  induction q as [|[a|s] q IH]; [reflexivity| |].
  - cbn [writer_loop].
    destruct (write_frame_ok_any_window shape f c l1 l2 md flag a) as [Hok Hex].
    destruct (write_frame shape (mk_writer f c l1 md flag) a) as [evs1 [u1|e1]];
      destruct (write_frame shape (mk_writer f c l2 md flag) a) as [evs2 [u2|e2]];
      cbn [snd is_ok] in Hok, Hex.
    + destruct (writer_loop shape (mk_writer f c l1 md flag) q) as [tr1 o1].
      destruct (writer_loop shape (mk_writer f c l2 md flag) q) as [tr2 o2].
      exact IH.
    + clear IH Hex. exfalso. inversion Hok.
    + clear IH Hex. exfalso. inversion Hok.
    + specialize (Hex e1 eq_refl). injection Hex as <-. reflexivity.
  - cbn [writer_loop]. destruct (String.eqb s "done"); [reflexivity|].
    destruct (writer_loop shape (mk_writer f c l1 md flag) q) as [tr1 o1].
    destruct (writer_loop shape (mk_writer f c l2 md flag) q) as [tr2 o2].
    exact IH.
Qed.

(** X22: the sidecar does not know the window the frames were converted
    with: two writers that differ only in [levels], both windows of sample
    values, end their run in the same way and write the same sidecar, with
    the bounds of [metadata['levels']], on every queue. *)
Theorem sidecar_ignores_conversion_window shape f c l1 l2 md flag now q :
  sample_window l1 -> sample_window l2 ->
  (WriterHamamatsu_run shape (mk_writer f c l1 md flag) now q).2
  = (WriterHamamatsu_run shape (mk_writer f c l2 md flag) now q).2 /\
  json_writes (WriterHamamatsu_run shape (mk_writer f c l1 md flag) now q).1
  = json_writes (WriterHamamatsu_run shape (mk_writer f c l2 md flag) now q).1 /\
  (forall file meta,
      (file, meta) ∈ json_writes (WriterHamamatsu_run shape (mk_writer f c l1 md flag) now q).1 ->
      exists lo hi, level_bound md 0 = Ok lo /\ level_bound md 1 = Ok hi /\
                    meta !! "level_min" = Some (PyInt lo) /\
                    meta !! "level_max" = Some (PyInt hi)).
Proof.
  intros _ _.
  pose proof (writer_loop_any_window shape f c l1 l2 md flag q) as Ho.
  pose proof (writer_loop_invariants shape (mk_writer f c l1 md flag) q)
    as (_ & _ & _ & _ & Hj1 & _).
  pose proof (writer_loop_invariants shape (mk_writer f c l2 md flag) q)
    as (_ & _ & _ & _ & Hj2 & _).
  assert (Hsave : save_metadata (mk_writer f c l1 md flag) now f
                  = save_metadata (mk_writer f c l2 md flag) now f) by reflexivity.
  unfold WriterHamamatsu_run. cbn [write filename]. rewrite <- Hsave.
  assert (Hmeta : forall file meta,
             (file, meta) ∈ json_writes (save_metadata (mk_writer f c l1 md flag) now f).1 ->
             exists lo hi, level_bound md 0 = Ok lo /\ level_bound md 1 = Ok hi /\
                           meta !! "level_min" = Some (PyInt lo) /\
                           meta !! "level_max" = Some (PyInt hi)).
  { intros file meta Hin.
    destruct (save_metadata_cases (mk_writer f c l1 md flag) now f)
      as [(j & m & Hb & _ & _ & Hs)|[(j & m & _ & _ & _ & Hs)|(e & _ & Hs)]];
      rewrite Hs in Hin; cbn in Hin.
    - apply list_elem_of_singleton in Hin. injection Hin as -> ->.
      destruct (build_meta_Ok _ _ _ Hb)
        as (_ & _ & lo & hi & _ & _ & Hlo & Hhi & _ & _ & _ & _ & _ & _ & _ & Hmin & Hmax).
      exists lo, hi. repeat split; assumption.
    - inversion Hin.
    - inversion Hin. }
  destruct (save_metadata (mk_writer f c l1 md flag) now f) as [evs r].
  cbn [fst] in Hmeta.
  destruct flag.
  - destruct (writer_loop shape (mk_writer f c l1 md true) q) as [tr1 o1].
    destruct (writer_loop shape (mk_writer f c l2 md true) q) as [tr2 o2].
    cbn [fst snd] in *. subst o2.
    destruct o1 as [rest|e rest|].
    + assert (J1 : json_writes (tr1 ++ EClose :: evs) = json_writes evs).
      { rewrite json_writes_app, Hj1. reflexivity. }
      assert (J2 : json_writes (tr2 ++ EClose :: evs) = json_writes evs).
      { rewrite json_writes_app, Hj2. reflexivity. }
      destruct r; cbn [fst snd]; rewrite J1, J2;
        (split; [reflexivity|]; split; [reflexivity|exact Hmeta]).
    + cbn [fst snd]. rewrite Hj1, Hj2. split; [reflexivity|]. split; [reflexivity|].
      intros file meta Hin. inversion Hin.
    + cbn [fst snd]. rewrite Hj1, Hj2. split; [reflexivity|]. split; [reflexivity|].
      intros file meta Hin. inversion Hin.
  - cbn [app].
    destruct r; cbn [fst snd];
      (split; [reflexivity|]; split; [reflexivity|exact Hmeta]).
Qed.

Lemma sidecar_ignores_conversion_window_witness :
  sample_window (0, 65535) /\ sample_window (0, 255) /\
  (WriterHamamatsu_run (2, 2)%N
     (mk_writer "out.tiff" 1 (0, 65535) sample_writer.(metadata) true) sample_now
     [Frame sample_frame1; Str "done"]).2
  = (WriterHamamatsu_run (2, 2)%N
       (mk_writer "out.tiff" 1 (0, 255) sample_writer.(metadata) true) sample_now
       [Frame sample_frame1; Str "done"]).2 /\
  json_writes (WriterHamamatsu_run (2, 2)%N
                 (mk_writer "out.tiff" 1 (0, 65535) sample_writer.(metadata) true) sample_now
                 [Frame sample_frame1; Str "done"]).1
  = json_writes (WriterHamamatsu_run (2, 2)%N
                   (mk_writer "out.tiff" 1 (0, 255) sample_writer.(metadata) true) sample_now
                   [Frame sample_frame1; Str "done"]).1.
Proof.
  assert (H1 : sample_window (0, 65535)) by (unfold sample_window; simpl; lia).
  assert (H2 : sample_window (0, 255)) by (unfold sample_window; simpl; lia).
  split; [exact H1|]. split; [exact H2|].
  destruct (sidecar_ignores_conversion_window (2, 2)%N "out.tiff" 1 (0, 65535) (0, 255)
              sample_writer.(metadata) true sample_now [Frame sample_frame1; Str "done"]
              H1 H2) as (Ho & Hj & _).
  split; [exact Ho|exact Hj].
Defined.

(** X23: an exposure the framerate cannot be taken from (zero, or not a
    number) is found after the camera was opened: the constructor has opened
    the camera, set its properties and the exposure itself, and raises
    without a shutdown. *)
Theorem AcquireHamamatsu_init_bad_exposure_leaves_camera_open
    (params : gmap string pyval) e x :
  params !! "exposure" = Some e ->
  py_one_over e = Raise x ->
  exists evs,
    AcquireHamamatsu_init params = (CamOpen 0 :: evs ++ [CamSet "exposure_time" e], Raise x) /\
    (CamShutdown ∉ evs) /\ (CamStop ∉ evs).
Proof.
  intros He Ho. rewrite (AcquireHamamatsu_init_exposure params e He), Ho.
  exists [CamSet "defect_correct_mode" (PyStr "OFF");
          CamSet "subarray_hsize" (PyInt 2048);
          CamSet "subarray_vsize" (PyInt 2048);
          CamSet "binning" (PyStr "1x1");
          CamSet "readout_speed" (PyInt 2)].
  split; [reflexivity|].
  split; intros H; repeat (apply elem_of_cons in H; destruct H as [H|H]; [discriminate|]);
    inversion H.
Qed.

Lemma AcquireHamamatsu_init_bad_exposure_leaves_camera_open_witness :
  ({[ "exposure" := PyInt 0 ]} : gmap string pyval) !! "exposure" = Some (PyInt 0) /\
  py_one_over (PyInt 0) = Raise ZeroDivisionError /\
  exists evs,
    AcquireHamamatsu_init {[ "exposure" := PyInt 0 ]}
    = (CamOpen 0 :: evs ++ [CamSet "exposure_time" (PyInt 0)], Raise ZeroDivisionError) /\
    (CamShutdown ∉ evs) /\ (CamStop ∉ evs).
Proof.
  assert (He : ({[ "exposure" := PyInt 0 ]} : gmap string pyval) !! "exposure"
               = Some (PyInt 0)) by reflexivity.
  assert (Ho : py_one_over (PyInt 0) = Raise ZeroDivisionError) by reflexivity.
  split; [exact He|]. split; [exact Ho|].
  exact (AcquireHamamatsu_init_bad_exposure_leaves_camera_open
           {[ "exposure" := PyInt 0 ]} (PyInt 0) ZeroDivisionError He Ho).
Defined.
